(** * subs_lat: subtitle resolution pipeline

    A shallow embedding of the subtitle downloader (main.py, the provider
    package and the file utilities) together with the properties its
    specification states about them.

    Conventions of the embedding:
    - Python [bytes] are [list byte]; a [str] is a [string] that holds its
      UTF-8 bytes, with length, slices and iteration counted in
      characters; Python integers are [Z], with the 64-bit wrap-around of
      the fingerprint written out with [Z.land]; a [float] is a rational,
      an infinity or not-a-number.
    - A [pathlib.Path] is the sequence of its [parts]; the file system is a
      finite map from paths to entries, written to and renamed in as on
      POSIX: the directory of the target must be there. There are no
      symbolic links.
    - Values decoded from JSON and the dictionaries the orchestrator passes
      around are terms of [value], with Python's truthiness and the
      exceptions of dynamically typed access made explicit.
    - A computation that may raise returns [result]; external collaborators
      (HTTP transport, the zipfile and subliminal libraries, the browser
      engine, the filename parser) are fields of a record of capabilities
      or variables of a section. *)

From Stdlib Require Import ZArith QArith Lia Ascii String List.
From Stdlib Require Import Strings.Byte.
From stdpp Require Import gmap strings list fin_maps pretty sorting.

Set Warnings "-register-all".
Open Scope Z_scope.

(* ===================================================================== *)
(** * Bytes, paths and the file system *)
(* ===================================================================== *)

Abbreviation bytes := (list byte).

(** [pathlib.Path], by its [parts]: the last part is [name], the others
    form [parent]. *)
Abbreviation Path := (list string).

Definition path_name (p : Path) : string := List.last p EmptyString.
Definition path_parent (p : Path) : Path := removelast p.
(** [parent / name] for a single-component [name]. *)
Definition path_join (parent : Path) (name : string) : Path := parent ++ [name].

(** [a == b] on byte strings. *)
Fixpoint bytes_eqb (a b : bytes) : bool :=
  match a, b with
  | [], [] => true
  | x :: a', y :: b' => Byte.eqb x y && bytes_eqb a' b'
  | _, _ => false
  end.

Inductive entry :=
  | File (data : bytes)
  | Dir.

Abbreviation filesystem := (gmap Path entry).

(** [Path.exists()]. *)
Definition path_exists (fs : filesystem) (p : Path) : bool :=
  bool_decide (is_Some (fs !! p)).

(** [open(path, "rb")] followed by reading: the contents of a regular file;
    [None] stands for the [OSError] raised on anything else. *)
Definition open_rb (fs : filesystem) (p : Path) : option bytes :=
  match fs !! p with
  | Some (File data) => Some data
  | _ => None
  end.

(* ===================================================================== *)
(** * main.py: get_file_hash *)
(* ===================================================================== *)

(** An open binary file: its contents and the current offset. *)
Record file_handle := { fh_data : bytes; fh_pos : Z }.

(** [f.read(n)]: at most [n] bytes from the current offset, which advances
    by the number of bytes returned. *)
Definition fh_read (f : file_handle) (n : Z) : bytes * file_handle :=
  let buffer := take (Z.to_nat n) (drop (Z.to_nat (fh_pos f)) (fh_data f)) in
  (buffer, {| fh_data := fh_data f;
              fh_pos := fh_pos f + Z.of_nat (length buffer) |}).

(** [f.seek(pos, 0)]. *)
Definition fh_seek (f : file_handle) (pos : Z) : file_handle :=
  {| fh_data := fh_data f; fh_pos := pos |}.

(** The unsigned value of a little-endian byte string. *)
Definition le_unsigned (bs : bytes) : Z :=
  fold_right (fun b acc => Z.of_N (Byte.to_N b) + 256 * acc) 0 bs.

(** [struct.calcsize('<q')]. *)
Definition bytesize : Z := 8.

(** [struct.unpack('<q', buffer)]: a signed 64-bit little-endian integer;
    [None] is the [struct.error] raised when the buffer is not 8 bytes. *)
Definition unpack_q (buffer : bytes) : option Z :=
  if decide (Z.of_nat (length buffer) = bytesize) then
    let u := le_unsigned buffer in
    Some (if u <? 2 ^ 63 then u else u - 2 ^ 64)
  else None.

(** The body of each of the two [for _ in range(65536 // bytesize)] loops. *)
Fixpoint hash_loop (n : nat) (f : file_handle) (hash_val : Z)
  : option (file_handle * Z) :=
  match n with
  | O => Some (f, hash_val)
  | S n' =>
      let '(buffer, f') := fh_read f bytesize in
      match unpack_q buffer with
      | None => None
      | Some l_value =>
          let hash_val := hash_val + l_value in
          let hash_val := Z.land hash_val 0xFFFFFFFFFFFFFFFF in
          hash_loop n' f' hash_val
      end
  end.

(** ** The ["%016x"] conversion *)

(** The character of a hexadecimal digit [0 <= d < 16], lowercase. *)
Definition hex_digit (d : Z) : ascii :=
  ascii_of_nat (Z.to_nat (if d <? 10 then 48 + d else 87 + d)).

(** Digits of a non-negative integer, most significant first, without
    leading zeros (["0"] for zero). *)
Fixpoint hex_of (fuel : nat) (v : Z) (acc : string) : string :=
  match fuel with
  | O => acc
  | S k =>
      let acc' := String (hex_digit (v mod 16)) acc in
      if v / 16 =? 0 then acc' else hex_of k (v / 16) acc'
  end.

Definition format_x (v : Z) : string :=
  hex_of (S (Z.to_nat (Z.log2 v))) v EmptyString.

Fixpoint zeros (n : nat) : string :=
  match n with
  | O => EmptyString
  | S k => String "0"%char (zeros k)
  end.

(** ["%016x" % v]: zero-padded on the left to a width of at least 16; a
    negative number carries its sign in front of the padding. *)
Definition format_016x (v : Z) : string :=
  if v <? 0 then
    let s := format_x (- v) in
    String "-"%char (zeros (15 - String.length s) +:+ s)
  else
    let s := format_x v in
    zeros (16 - String.length s) +:+ s.

(** ** The function *)

Definition get_file_hash_body (data : bytes) : option string :=
  let f := {| fh_data := data; fh_pos := 0 |} in
  let filesize := Z.of_nat (length data) in
  let hash_val := filesize in
  if filesize <? 65536 * 2 then None
  else
    match hash_loop (Z.to_nat (65536 / bytesize)) f hash_val with
    | None => None
    | Some (f, hash_val) =>
        let f := fh_seek f (Z.max 0 (filesize - 65536)) in
        match hash_loop (Z.to_nat (65536 / bytesize)) f hash_val with
        | None => None
        | Some (_, hash_val) => Some (format_016x hash_val)
        end
    end.

(** [get_file_hash(filepath)]: every exception (the file cannot be opened,
    a short read) is turned into [None] by the bare [except]. *)
Definition get_file_hash (fs : filesystem) (filepath : Path) : option string :=
  match open_rb fs filepath with
  | None => None
  | Some data => get_file_hash_body data
  end.

(** ** The fingerprint as the specification words it *)

(** The 8-byte little-endian words of a byte string (a trailing partial
    word is dropped). *)
Fixpoint words8 (bs : bytes) : list Z :=
  match bs with
  | b0 :: b1 :: b2 :: b3 :: b4 :: b5 :: b6 :: b7 :: rest =>
      le_unsigned [b0; b1; b2; b3; b4; b5; b6; b7] :: words8 rest
  | _ => []
  end.

Definition sum_Z (l : list Z) : Z := fold_right Z.add 0 l.

(** File size plus the words of the first and of the last 64 KiB, modulo
    2^64. *)
Definition spec_fingerprint (data : bytes) : Z :=
  let size := Z.of_nat (length data) in
  (size
   + sum_Z (words8 (take (Z.to_nat 65536) data))
   + sum_Z (words8 (drop (Z.to_nat (size - 65536)) data))) mod 2 ^ 64.

(** Reading a string of hexadecimal digits back. *)
Definition hex_digit_value (c : ascii) : option Z :=
  let code := Z.of_nat (nat_of_ascii c) in
  if (48 <=? code) && (code <=? 57) then Some (code - 48)
  else if (97 <=? code) && (code <=? 102) then Some (code - 87)
  else None.

(** The value of a string of lowercase hexadecimal digits, [None] when
    some character is not one. *)
Fixpoint hex_value_from (acc : Z) (s : string) : option Z :=
  match s with
  | EmptyString => Some acc
  | String c s' =>
      match hex_digit_value c with
      | None => None
      | Some d => hex_value_from (16 * acc + d) s'
      end
  end.

Definition hex_value (s : string) : option Z := hex_value_from 0 s.

(* ===================================================================== *)
(** * Exceptions and Python values *)
(* ===================================================================== *)

(** A raised exception, by class name. *)
Inductive exn := Exception (cls : string).

(** The outcome of an expression that may raise. *)
Inductive result (A : Type) :=
  | Ok (a : A)
  | Raise (e : exn).
Arguments Ok {A} a.
Arguments Raise {A} e.

#[global] Instance result_ret : MRet result := fun A a => Ok a.
#[global] Instance result_bind : MBind result := fun A B f m =>
  match m with
  | Ok a => f a
  | Raise e => Raise e
  end.

(** The values the orchestrator handles without static types: decoded
    JSON, the result dictionaries, and handles to objects of external
    libraries. A dictionary is kept in insertion order with string keys. *)
(** A Python [float]: a double by its rational value, an infinity or the
    value that is no number. *)
Inductive double :=
  | Finite (q : Q)
  | Infinite (negative : bool)
  | NaN.

Inductive value :=
  | VNone
  | VBool (b : bool)
  | VInt (n : Z)
  | VFloat (x : double)
  | VStr (s : string)
  | VBytes (b : bytes)
  | VList (l : list value)
  | VDict (d : list (string * value))
  | VObj (handle : N).

(** Python truthiness ([if v:], [not v]). Library objects are truthy. *)
Definition truthy (v : value) : bool :=
  match v with
  | VNone => false
  | VBool b => b
  | VInt n => negb (n =? 0)
  | VFloat (Finite q) => negb (Qnum q =? 0)
  | VFloat _ => true
  | VStr s => negb (String.eqb s EmptyString)
  | VBytes b => match b with [] => false | _ => true end
  | VList l => match l with [] => false | _ => true end
  | VDict d => match d with [] => false | _ => true end
  | VObj _ => true
  end.

Fixpoint assoc_get (d : list (string * value)) (k : string) : option value :=
  match d with
  | [] => None
  | (k', v) :: d' => if String.eqb k' k then Some v else assoc_get d' k
  end.

(** [v.get(key, default)]: defined on dictionaries only. *)
Definition py_get (v : value) (key : string) (dflt : value) : result value :=
  match v with
  | VDict d => Ok (default dflt (assoc_get d key))
  | _ => Raise (Exception "AttributeError")
  end.

(** ** Characters

    A [str] is held as its UTF-8 bytes: a character is a byte that is not
    a continuation byte ([10xxxxxx]) together with the continuation bytes
    that follow it. *)
Definition is_continuation (c : ascii) : bool :=
  let n := nat_of_ascii c in
  ((128 <=? n) && (n <? 192))%nat.

(** The characters of a string, each by its bytes. *)
Fixpoint chars (s : string) : list string :=
  match s with
  | EmptyString => []
  | String c s' =>
      match s' with
      | String c' _ =>
          if is_continuation c' then
            match chars s' with
            | ch :: rest => String c ch :: rest
            | [] => [String c EmptyString]
            end
          else String c EmptyString :: chars s'
      | EmptyString => [String c EmptyString]
      end
  end.

(** [len(s)]: the number of characters. *)
Fixpoint str_len (s : string) : nat :=
  match s with
  | EmptyString => O
  | String c s' =>
      if is_continuation c then str_len s' else S (str_len s')
  end.

(** [s[:n]]: the first [n] characters. *)
Fixpoint str_take (n : nat) (s : string) : string :=
  match s with
  | EmptyString => EmptyString
  | String c s' =>
      if is_continuation c then String c (str_take n s')
      else
        match n with
        | O => EmptyString
        | S n' => String c (str_take n' s')
        end
  end.

Definition byte_of (c : ascii) : Z := Z.of_nat (nat_of_ascii c).

(** The code point a character encodes; [-1] for bytes that are not one
    well-formed UTF-8 sequence, which no [str] holds. *)
Definition code_point (ch : string) : Z :=
  match ch with
  | EmptyString => -1
  | String c rest =>
      let b := byte_of c in
      let tail := list_ascii_of_string rest in
      let payload :=
        fold_left (fun acc c' => acc * 64 + (byte_of c' - 128)) tail in
      if b <? 128 then (if decide (length tail = 0%nat) then b else -1)
      else if b <? 192 then -1
      else if b <? 224 then
        (if decide (length tail = 1%nat) then payload (b - 192) else -1)
      else if b <? 240 then
        (if decide (length tail = 2%nat) then payload (b - 224) else -1)
      else if b <? 248 then
        (if decide (length tail = 3%nat) then payload (b - 240) else -1)
      else -1
  end.

(** The characters for which [str.isspace] holds, as ranges of code
    points. *)
Definition UNICODE_SPACES : list (Z * Z) :=
  [(9, 13); (28, 32); (133, 133); (160, 160); (5760, 5760); (8192, 8202);
   (8232, 8233); (8239, 8239); (8287, 8287); (12288, 12288)].

Definition is_unicode_space (cp : Z) : bool :=
  existsb (fun r => (fst r <=? cp) && (cp <=? snd r)) UNICODE_SPACES.

(** [v[0]]. *)
Definition py_index0 (v : value) : result value :=
  match v with
  | VList (x :: _) => Ok x
  | VList [] => Raise (Exception "IndexError")
  | VStr (String c s) => Ok (VStr (str_take 1 (String c s)))
  | VStr EmptyString => Raise (Exception "IndexError")
  | VBytes (b :: _) => Ok (VInt (Z.of_N (Byte.to_N b)))
  | VBytes [] => Raise (Exception "IndexError")
  | VDict _ => Raise (Exception "KeyError")
  | _ => Raise (Exception "TypeError")
  end.

(** [needle in s] on strings. *)
Fixpoint str_contains (needle s : string) : bool :=
  String.prefix needle s
  || match s with
     | EmptyString => false
     | String _ s' => str_contains needle s'
     end.

(** [needle in v] for a string literal [needle]. *)
Definition py_contains (needle : string) (v : value) : result bool :=
  match v with
  | VStr s => Ok (str_contains needle s)
  | VList l =>
      Ok (existsb (fun x => match x with
                            | VStr s => String.eqb s needle
                            | _ => false
                            end) l)
  | VDict d => Ok (bool_decide (is_Some (assoc_get d needle)))
  | _ => Raise (Exception "TypeError")
  end.

(** [s.endswith(suffix)]. *)
Definition endswith (s suffix : string) : bool :=
  let n := String.length s in
  let m := String.length suffix in
  (m <=? n)%nat && String.eqb (substring (n - m) m s) suffix.

(** ** pathlib: suffix and stem of a final path component *)

(** [name.rfind(c)]. *)
Fixpoint rfind (c : ascii) (s : string) : option nat :=
  match s with
  | EmptyString => None
  | String c' s' =>
      match rfind c s' with
      | Some i => Some (S i)
      | None => if Ascii.eqb c' c then Some O else None
      end
  end.

(** [PurePath.suffix]: the part from the last dot on, unless that dot is
    the first or the last character of the name. *)
Definition name_suffix (name : string) : string :=
  match rfind "." name with
  | Some i =>
      if ((0 <? i)%nat && (i <? String.length name - 1)%nat)%bool
      then substring i (String.length name - i) name
      else EmptyString
  | None => EmptyString
  end.

(** [PurePath.stem]. *)
Definition name_stem (name : string) : string :=
  match rfind "." name with
  | Some i =>
      if ((0 <? i)%nat && (i <? String.length name - 1)%nat)%bool
      then substring 0 i name
      else name
  | None => name
  end.

Definition path_suffix (p : Path) : string := name_suffix (path_name p).
Definition path_stem (p : Path) : string := name_stem (path_name p).

(* ===================================================================== *)
(** * main.py: _extract_subtitle_content *)
(* ===================================================================== *)

(** The part of the [zipfile] module the program calls. [ZipFile] raises
    on bytes it cannot open as an archive and [read] raises on a member it
    cannot decode. *)
Class ZipLibrary := {
  ZipArchive : Type;
  ZipFile : bytes -> result ZipArchive;
  namelist : ZipArchive -> list string;
  zf_read : ZipArchive -> string -> result bytes;
}.

(** [b'PK\x03\x04'], the local-file-header signature. *)
Definition ZIP_SIGNATURE : bytes := [x50; x4b; x03; x04].

(** [for name in names: if name.endswith('.srt'): ...]: the name at which
    the loop body is entered, if any. *)
Fixpoint first_srt (names : list string) : option string :=
  match names with
  | [] => None
  | name :: rest =>
      if endswith name ".srt" then Some name else first_srt rest
  end.

Section Extract.
Context {zip : ZipLibrary}.

(** The body of the [try] block: [Ok (Some data)] when one of its two
    [return] statements is reached, [Ok None] when the block runs to its
    end, [Raise] when an exception leaves it. *)
Definition extract_from_archive (content : bytes) : result (option bytes) :=
  zf ← ZipFile content;
  match first_srt (namelist zf) with
  | Some name => data ← zf_read zf name; mret (Some data)
  | None =>
      match namelist zf with
      | name :: _ => data ← zf_read zf name; mret (Some data)
      | [] => mret None
      end
  end.

Definition _extract_subtitle_content (content : bytes) : bytes :=
  if bytes_eqb (take 4 content) ZIP_SIGNATURE then
    match extract_from_archive content with
    | Ok (Some data) => data
    | Ok None => content
    | Raise _ => content
    end
  else content.
End Extract.

(* ===================================================================== *)
(** * External collaborators *)
(* ===================================================================== *)

(** A [requests.Response], as far as the program looks at it. *)
Record response := {
  status_code : Z;
  json : result value;
  resp_content : bytes;
  resp_text : string;
  resp_url : string;
}.

(** The dictionary returned by [parse_video_filename], by its keys. *)
Record parsed_info := {
  info_title : option string;
  info_year : option string;
  info_season : option Z;
  info_episode : option Z;
}.

(** A subtitle object of the subliminal library. *)
Record subliminal_subtitle := {
  sub_handle : N;
  sub_language : string;
  sub_provider_name : string;
  sub_id : string;
  sub_release : option string;
  sub_releases : option (list string);
}.

(** Configuration and the capabilities the program calls through. A
    capability that can fail returns [Raise]. A provider pool is created
    for a list of provider names, or for the library's default ([None]);
    [download_subtitle] gives [sub.content] after the download;
    [writable] says whether the operating system lets the program create
    or replace the file at a path in a directory that is there. *)
Record World := {
  OPENSUBTITLES_API_KEY : string;
  API_URL : string;
  SUBLIMINAL_AVAILABLE : bool;
  lang_var : string;
  requests_get :
    string -> list (string * value) -> list (string * string) -> result response;
  requests_post :
    string -> value -> list (string * string) -> result response;
  parse_video_filename : string -> result parsed_info;
  scan_video : Path -> result N;
  list_subtitles :
    option (list string) -> N -> list string
    -> result (list subliminal_subtitle);
  download_subtitle : option (list string) -> N -> result (option bytes);
  float_of_string : string -> option double;
  float_of_bytes : bytes -> option double;
  writable : Path -> bool;
  repr : value -> string;
  zipfile : ZipLibrary;
}.

(** [str(v)] as used by f-strings; composite values go through [repr]. *)
Definition py_str (w : World) (v : value) : string :=
  match v with
  | VStr s => s
  | VNone => "None"
  | VBool true => "True"
  | VBool false => "False"
  | VInt n => pretty n
  | _ => repr w v
  end.

(** [len(v)]. *)
Definition py_len (v : value) : result Z :=
  match v with
  | VList l => Ok (Z.of_nat (length l))
  | VDict d => Ok (Z.of_nat (length d))
  | VStr s => Ok (Z.of_nat (str_len s))
  | VBytes b => Ok (Z.of_nat (length b))
  | _ => Raise (Exception "TypeError")
  end.

(* ===================================================================== *)
(** * Observable effects *)
(* ===================================================================== *)

(** The messages passed to [_update_status], by template. *)
Inductive status :=
  | StHashing (video_name : string)
  | StSearching
  | StSearchingByHash
  | StSearchingByQuery (query : string)
  | StSearchingFallback
  | StFound (n : Z) (provider : value)
  | StNotFound (video_name : string)
  | StDownloadingFrom (provider : value)
  | StDownloadFailed
  | StDownloaded (sub_name : string)
  | StSaveError (e : exn)
  | StProcessing (i total : Z) (video_name : string)
  | StCompleted (downloaded total : Z).

(** Calls that leave the orchestrator, in the order they are made. *)
Inductive event :=
  | EvStatus (s : status)
  | EvSearchHash (file_hash languages : string)
  | EvSearchQuery (query languages : string) (season episode : option Z)
  | EvSearchVideo (video_path : Path) (languages : string)
  | EvDownloadLink (file_id : value)
  | EvFetch (download_link : value)
  | EvSubliminalDownload (subtitle : value) (video_dir : Path)
  | EvWrite (path : Path) (data : bytes).

Record state := {
  st_fs : filesystem;
  st_trace : list event;
}.

(** Computations over the file system and the trace that may raise; the
    state reached when an exception is raised is kept. *)
Definition M (A : Type) : Type := state -> state * result A.

#[global] Instance M_ret : MRet M := fun A a st => (st, Ok a).
#[global] Instance M_bind : MBind M := fun A B f m st =>
  match m st with
  | (st', Ok a) => f a st'
  | (st', Raise e) => (st', Raise e)
  end.

Definition lift {A} (r : result A) : M A := fun st => (st, r).

Definition emit (e : event) : M unit := fun st =>
  ({| st_fs := st_fs st; st_trace := st_trace st ++ [e] |}, Ok tt).

Definition _update_status (s : status) : M unit := emit (EvStatus s).

Definition get_fs : M filesystem := fun st => (st, Ok (st_fs st)).

(** [try: body / except: handler]. *)
Definition try_except {A} (body : M A) (handler : exn -> M A) : M A :=
  fun st =>
    match body st with
    | (st', Raise e) => handler e st'
    | r => r
    end.

(** [with open(path, 'wb') as f: f.write(data)]: creates or replaces the
    file in a directory that exists; raises when the directory is missing
    or is a file, on a path that is a directory, and where writing is not
    permitted. *)
Definition write_file (w : World) (path : Path) (data : bytes) : M unit :=
  fun st =>
    match st_fs st !! path_parent path with
    | None => (st, Raise (Exception "FileNotFoundError"))
    | Some (File _) => (st, Raise (Exception "NotADirectoryError"))
    | Some Dir =>
        match st_fs st !! path with
        | Some Dir => (st, Raise (Exception "IsADirectoryError"))
        | _ =>
            if writable w path then
              ({| st_fs := <[path := File data]> (st_fs st);
                  st_trace := st_trace st ++ [EvWrite path data] |}, Ok tt)
            else (st, Raise (Exception "PermissionError"))
        end
    end.

(* ===================================================================== *)
(** * src/utils/parser.py: build_search_query *)
(* ===================================================================== *)

(** [f"{n:02d}"]. *)
Definition format_02d (n : Z) : string :=
  let s := pretty n in
  if (String.length s <? 2)%nat then "0" +:+ s else s.

Definition build_search_query (parsed_info : parsed_info) : string :=
  let parts := [] in
  let parts :=
    match info_title parsed_info with
    | Some t => if truthy (VStr t) then parts ++ [t] else parts
    | None => parts
    end in
  let parts :=
    match info_year parsed_info with
    | Some y => if truthy (VStr y) then parts ++ [y] else parts
    | None => parts
    end in
  let parts :=
    match info_season parsed_info, info_episode parsed_info with
    | Some s, Some e =>
        parts ++ ["S" +:+ format_02d s +:+ "E" +:+ format_02d e]
    | _, _ => parts
    end in
  String.concat " " parts.

(* ===================================================================== *)
(** * main.py: OpenSubtitlesAPI *)
(* ===================================================================== *)

Definition OpenSubtitlesAPI_headers (w : World) : list (string * string) :=
  [("Api-Key", OPENSUBTITLES_API_KEY w);
   ("Content-Type", "application/json");
   ("User-Agent", "SubtitleDownloaderApp v1.0")].

(** [params[key] = v] when [v] is given and truthy. *)
Definition set_if_str (params : list (string * value)) (key : string)
    (v : option string) : list (string * value) :=
  match v with
  | Some s => if truthy (VStr s) then params ++ [(key, VStr s)] else params
  | None => params
  end.

Definition set_if_int (params : list (string * value)) (key : string)
    (v : option Z) : list (string * value) :=
  match v with
  | Some n => if truthy (VInt n) then params ++ [(key, VInt n)] else params
  | None => params
  end.

(** [OpenSubtitlesAPI.search]: whatever the response holds under ["data"],
    or the empty list. *)
Definition OpenSubtitlesAPI_search (w : World) (query file_hash : option string)
    (languages : string) (imdb_id : option string) (season episode : option Z)
  : value :=
  let params := [("languages", VStr languages)] in
  let params := set_if_str params "query" query in
  let params := set_if_str params "moviehash" file_hash in
  let params := set_if_str params "imdb_id" imdb_id in
  let params := set_if_int params "season_number" season in
  let params := set_if_int params "episode_number" episode in
  match
    response ← requests_get w (API_URL w +:+ "/subtitles") params
                 (OpenSubtitlesAPI_headers w);
    if status_code response =? 200 then
      data ← json response;
      py_get data "data" (VList [])
    else mret (VList [])
  with
  | Ok results => results
  | Raise _ => VList []
  end.

(** [OpenSubtitlesAPI.download]: the download link for a file id. *)
Definition OpenSubtitlesAPI_download (w : World) (file_id : value) : value :=
  match
    response ← requests_post w (API_URL w +:+ "/download")
                 (VDict [("file_id", file_id)]) (OpenSubtitlesAPI_headers w);
    if status_code response =? 200 then
      data ← json response;
      py_get data "link" VNone
    else mret VNone
  with
  | Ok link => link
  | Raise _ => VNone
  end.

(* ===================================================================== *)
(** * main.py: SubliminalFallback *)
(* ===================================================================== *)

Definition PROVIDERS : list string := ["gestdown"; "podnapisi"; "tvsubtitles"].

(** [ch.isspace()] for a character. *)
Definition is_space (ch : string) : bool := is_unicode_space (code_point ch).

Fixpoint lstrip (s : list string) : list string :=
  match s with
  | ch :: s' => if is_space ch then lstrip s' else s
  | [] => []
  end.

Fixpoint rstrip (s : list string) : list string :=
  match s with
  | ch :: s' =>
      match rstrip s' with
      | [] => if is_space ch then [] else [ch]
      | r => ch :: r
      end
  | [] => []
  end.

(** [s.strip()], on the characters of [s]. *)
Definition strip (s : string) : string :=
  String.concat EmptyString (rstrip (lstrip (chars s))).

(** [s.split(sep)] for a one-character separator. *)
Fixpoint split (sep : ascii) (s : string) : list string :=
  match s with
  | EmptyString => [EmptyString]
  | String c s' =>
      if Ascii.eqb c sep then EmptyString :: split sep s'
      else match split sep s' with
           | x :: xs => String c x :: xs
           | [] => [String c EmptyString]
           end
  end.

(** The languages asked of the library, by alpha-3 code. *)
Definition babel_languages (languages : string) : list string :=
  flat_map (fun lang =>
              if String.eqb (strip lang) "es" then ["spa"]
              else if String.eqb (strip lang) "en" then ["eng"]
              else [])
           (split "," languages).

(** [getattr(sub, 'release', '') or getattr(sub, 'releases', [''])[0]
     if hasattr(sub, 'releases') else str(sub.id)[:50]]. *)
Definition release_of (sub : subliminal_subtitle) : result string :=
  match sub_releases sub with
  | Some releases =>
      let r := default EmptyString (sub_release sub) in
      if truthy (VStr r) then Ok r
      else match releases with
           | x :: _ => Ok x
           | [] => Raise (Exception "IndexError")
           end
  | None => Ok (str_take 50 (sub_id sub))
  end.

Definition subliminal_result (video : N) (sub : subliminal_subtitle)
    (release : string) : value :=
  let lang_code := if String.eqb (sub_language sub) "spa" then "es" else "en" in
  VDict [("provider", VStr ("Subliminal (" +:+ sub_provider_name sub +:+ ")"));
         ("attributes",
          VDict [("release", VStr (str_take 100 release));
                 ("language", VStr lang_code);
                 ("download_count", VInt 0);
                 ("fps", VStr "-");
                 ("files", VList [VDict [("file_id", VNone)]])]);
         ("_subliminal_sub", VObj (sub_handle sub));
         ("_subliminal_video", VObj video)].

(** [for sub in subs[:15]: ... results.append(...)]; an exception leaves
    the loop with the results appended so far. *)
Fixpoint collect_subliminal (video : N) (subs : list subliminal_subtitle)
    (results : list value) : list value :=
  match subs with
  | [] => results
  | sub :: rest =>
      match release_of sub with
      | Raise _ => results
      | Ok release =>
          collect_subliminal video rest
            (results ++ [subliminal_result video sub release])
      end
  end.

Definition SubliminalFallback_search_for_video (w : World) (video_path : Path)
    (languages : string) : value :=
  let results := [] in
  if negb (SUBLIMINAL_AVAILABLE w) then VList results
  else
    match
      video ← scan_video w video_path;
      let lang_set := babel_languages languages in
      subs ← list_subtitles w (Some PROVIDERS) video lang_set;
      mret (video, subs)
    with
    | Ok (video, subs) => VList (collect_subliminal video (take 15 subs) results)
    | Raise _ => VList results
    end.

(** [SubliminalFallback.download]. *)
Definition SubliminalFallback_download (w : World) (subtitle_data : value)
    (destination : Path) : option bytes :=
  if negb (SUBLIMINAL_AVAILABLE w) then None
  else
    match
      sub ← py_get subtitle_data "_subliminal_sub" VNone;
      video ← py_get subtitle_data "_subliminal_video" VNone;
      if negb (truthy sub) || negb (truthy video) then mret None
      else
        content ← match sub with
                  | VObj h => download_subtitle w (Some PROVIDERS) h
                  | _ => Raise (Exception "AttributeError")
                  end;
        match content with
        | Some c => if truthy (VBytes c) then mret (Some c) else mret None
        | None => mret None
        end
    with
    | Ok r => r
    | Raise _ => None
    end.

(* ===================================================================== *)
(** * main.py: SubtitleDownloaderApp *)
(* ===================================================================== *)

(** An optional string as a Python value, for truthiness tests. *)
Definition opt_str (o : option string) : value :=
  match o with
  | Some s => VStr s
  | None => VNone
  end.

(** [requests.get(download_link, timeout=30)]. *)
Definition fetch (w : World) (download_link : value) : result response :=
  match download_link with
  | VStr url => requests_get w url [] []
  | _ => Raise (Exception "MissingSchema")
  end.

(** [SubtitleDownloaderApp._do_search]; the value returned is the one
    stored in [self.current_results]. *)
Definition _do_search (w : World) (video_path : Path) : M value :=
  let video_name := path_name video_path in
  _update_status (StHashing video_name);;
  fs ← get_fs;
  let file_hash := get_file_hash fs video_path in
  info ← lift (parse_video_filename w video_name);
  let query := build_search_query info in
  _update_status StSearching;;
  let results := VList [] in
  (* 1. hash *)
  results ←
    (if truthy (opt_str file_hash) && truthy (VStr (OPENSUBTITLES_API_KEY w))
     then
       _update_status StSearchingByHash;;
       emit (EvSearchHash (default EmptyString file_hash) (lang_var w));;
       mret (OpenSubtitlesAPI_search w None file_hash (lang_var w)
               None None None)
     else mret results);
  (* 2. query *)
  results ←
    (if negb (truthy results) && truthy (VStr (OPENSUBTITLES_API_KEY w))
     then
       _update_status (StSearchingByQuery query);;
       emit (EvSearchQuery query (lang_var w)
               (info_season info) (info_episode info));;
       mret (OpenSubtitlesAPI_search w (Some query) None (lang_var w)
               None (info_season info) (info_episode info))
     else mret results);
  (* 3. fallback *)
  results ←
    (if negb (truthy results) && SUBLIMINAL_AVAILABLE w
     then
       _update_status StSearchingFallback;;
       emit (EvSearchVideo video_path (lang_var w));;
       mret (SubliminalFallback_search_for_video w video_path (lang_var w))
     else mret results);
  (if truthy results then
     first ← lift (py_index0 results);
     provider ← lift (py_get first "provider" (VStr "OpenSubtitles"));
     n ← lift (py_len results);
     _update_status (StFound n provider)
   else _update_status (StNotFound video_name));;
  mret results.

(** [SubtitleDownloaderApp._do_download], for the video selected in
    [self.current_video_path]. The name joined to the video's directory is
    taken to be a single path component. *)
Definition _do_download (w : World) (current_video_path : Path)
    (subtitle : value) : M unit :=
  attrs ← lift (py_get subtitle "attributes" (VDict []));
  provider ← lift (py_get subtitle "provider" (VStr "OpenSubtitles"));
  _update_status (StDownloadingFrom provider);;
  let content : option bytes := None in
  by_subliminal ← lift (py_contains "Subliminal" provider);
  content ←
    (if by_subliminal : bool then
       let video_dir := path_parent current_video_path in
       emit (EvSubliminalDownload subtitle video_dir);;
       mret (SubliminalFallback_download w subtitle video_dir)
     else
       files ← lift (py_get attrs "files" (VList []));
       if truthy files then
         file_info ← lift (py_index0 files);
         file_id ← lift (py_get file_info "file_id" VNone);
         if truthy file_id then
           emit (EvDownloadLink file_id);;
           let download_link := OpenSubtitlesAPI_download w file_id in
           if truthy download_link then
             try_except
               (emit (EvFetch download_link);;
                response ← lift (fetch w download_link);
                if status_code response =? 200
                then mret (Some (resp_content response))
                else mret content)
               (fun _ => mret content)
           else mret content
         else mret content
       else mret content);
  match content with
  | Some ((_ :: _) as content) =>
      try_except
        (let video := current_video_path in
         language ← lift (py_get attrs "language" (VStr "es"));
         let content := _extract_subtitle_content (zip := zipfile w) content in
         let sub_name :=
           path_stem video +:+ "." +:+ py_str w language +:+ ".srt" in
         let sub_path := path_join (path_parent video) sub_name in
         write_file w sub_path content;;
         _update_status (StDownloaded sub_name))
        (fun e => _update_status (StSaveError e))
  | _ => _update_status StDownloadFailed
  end.

(** The body of the [try] block of [_do_download_all] for one video; the
    value returned is the updated [downloaded] counter. *)
Definition batch_body (w : World) (video_path : Path) (video_name : string)
    (downloaded : Z) : M Z :=
  fs ← get_fs;
  let file_hash := get_file_hash fs video_path in
  info ← lift (parse_video_filename w video_name);
  let query := build_search_query info in
  let languages := lang_var w in
  let results := VList [] in
  (* 1. hash *)
  results ←
    (if truthy (opt_str file_hash) && truthy (VStr (OPENSUBTITLES_API_KEY w))
     then
       emit (EvSearchHash (default EmptyString file_hash) languages);;
       mret (OpenSubtitlesAPI_search w None file_hash languages
               None None None)
     else mret results);
  (* 2. query *)
  results ←
    (if negb (truthy results) && truthy (VStr (OPENSUBTITLES_API_KEY w))
     then
       emit (EvSearchQuery query languages
               (info_season info) (info_episode info));;
       mret (OpenSubtitlesAPI_search w (Some query) None languages
               None (info_season info) (info_episode info))
     else mret results);
  (* 3. fallback *)
  results ←
    (if negb (truthy results) && SUBLIMINAL_AVAILABLE w
     then
       emit (EvSearchVideo video_path languages);;
       mret (SubliminalFallback_search_for_video w video_path languages)
     else mret results);
  if truthy results then
    sub ← lift (py_index0 results);
    attrs ← lift (py_get sub "attributes" (VDict []));
    provider ← lift (py_get sub "provider" (VStr "OpenSubtitles"));
    let content : option bytes := None in
    by_subliminal ← lift (py_contains "Subliminal" provider);
    content ←
      (if by_subliminal : bool then
         let video_dir := path_parent video_path in
         emit (EvSubliminalDownload sub video_dir);;
         mret (SubliminalFallback_download w sub video_dir)
       else
         files ← lift (py_get attrs "files" (VList []));
         if truthy files then
           file_info ← lift (py_index0 files);
           file_id ← lift (py_get file_info "file_id" VNone);
           if truthy file_id then
             emit (EvDownloadLink file_id);;
             let download_link := OpenSubtitlesAPI_download w file_id in
             if truthy download_link then
               emit (EvFetch download_link);;
               response ← lift (fetch w download_link);
               if status_code response =? 200
               then mret (Some (resp_content response))
               else mret content
             else mret content
           else mret content
         else mret content);
    match content with
    | Some ((_ :: _) as content) =>
        let video := video_path in
        language ← lift (py_get attrs "language" (VStr "es"));
        let content := _extract_subtitle_content (zip := zipfile w) content in
        let sub_name :=
          path_stem video +:+ "." +:+ py_str w language +:+ ".srt" in
        let sub_path := path_join (path_parent video) sub_name in
        write_file w sub_path content;;
        mret (downloaded + 1)
    | _ => mret downloaded
    end
  else mret downloaded.

(** [for i, video_path in enumerate(videos)]: the status line, then the
    [try] block; an exception is printed and the loop goes on. *)
Fixpoint batch_loop (w : World) (total : Z) (i : Z) (videos : list Path)
    (downloaded : Z) : M Z :=
  match videos with
  | [] => mret downloaded
  | video_path :: rest =>
      let video_name := path_name video_path in
      _update_status (StProcessing (i + 1) total video_name);;
      downloaded ←
        try_except (batch_body w video_path video_name downloaded)
                   (fun _ => mret downloaded);
      batch_loop w total (i + 1) rest downloaded
  end.

(** [SubtitleDownloaderApp._do_download_all]; returns the final count. *)
Definition _do_download_all (w : World) (videos : list Path) : M Z :=
  let total := Z.of_nat (length videos) in
  let downloaded := 0 in
  downloaded ← batch_loop w total 0 videos downloaded;
  _update_status (StCompleted downloaded total);;
  mret downloaded.

(* ===================================================================== *)
(** * src/providers/base.py *)
(* ===================================================================== *)

Inductive Language := SPANISH_SPAIN | SPANISH_LATAM | ENGLISH.

(** The dataclass does not check its field types: the fields filled from
    decoded JSON hold whatever value was found there. The last two fields
    are the attributes the subliminal provider attaches to its results. *)
Record SubtitleResult := {
  title : value;
  language : Language;
  provider : string;
  download_url : value;
  description : value;
  downloads : value;
  rating : double;
  _subliminal_sub : option N;
  _subliminal_video : option N;
}.

(** What a provider prints instead of raising. *)
Inductive diagnostic :=
  | DiagUnavailable (what : string)
  | DiagStatus (code : Z)
  | DiagError (e : exn).

(** [for item in v]: the items of an iterable value. *)
Definition py_iter (v : value) : result (list value) :=
  match v with
  | VList l => Ok l
  | VDict d => Ok (map (fun kv => VStr (fst kv)) d)
  | VStr s => Ok (map VStr (chars s))
  | VBytes b => Ok (map (fun x => VInt (Z.of_N (Byte.to_N x))) b)
  | _ => Raise (Exception "TypeError")
  end.

(** The double nearest to a non-negative integer, a tie going to the even
    significand. An integer of at most 53 bits is a double already; of a
    longer one the 53 leading bits are kept and the rest is rounded. *)
Definition round_to_double (n : Z) : Z :=
  let excess := Z.log2 n + 1 - 53 in
  if excess <=? 0 then n
  else
    let significand := Z.shiftr n excess in
    let rest := Z.land n (Z.ones excess) in
    let half := Z.shiftl 1 (excess - 1) in
    let significand :=
      if (half <? rest) || ((rest =? half) && Z.odd significand)
      then significand + 1
      else significand in
    Z.shiftl significand excess.

(** [float(n)] for an integer: the nearest double, or [OverflowError] when
    that would be [2 ** 1024] or more. *)
Definition float_of_int (n : Z) : result double :=
  let magnitude := round_to_double (Z.abs n) in
  if 2 ^ 1024 <=? magnitude then Raise (Exception "OverflowError")
  else Ok (Finite (inject_Z (Z.sgn n * magnitude))).

(** [float(v)]; the reading of a numeric literal is left to the
    interpreter. *)
Definition py_float (w : World) (v : value) : result double :=
  match v with
  | VInt n => float_of_int n
  | VFloat x => Ok x
  | VBool b => Ok (Finite (inject_Z (if b then 1 else 0)))
  | VStr s =>
      match float_of_string w s with
      | Some x => Ok x
      | None => Raise (Exception "ValueError")
      end
  | VBytes b =>
      match float_of_bytes w b with
      | Some x => Ok x
      | None => Raise (Exception "ValueError")
      end
  | _ => Raise (Exception "TypeError")
  end.

(** ** [int] of a string

    [int(s)] first turns the string into ASCII: a character below 127
    stands for itself, white space for a blank, a decimal digit of any
    script for its ASCII digit, and no other character is accepted. The
    ASCII text is then read as blanks, an optional sign, decimal digits
    and blanks. The tables are those of Unicode 14 (Python 3.11). The cap
    on the number of digits is a setting of the interpreter
    ([sys.set_int_max_str_digits], off at [0]) and is not part of the
    embedding. *)

(** The decimal digits come in runs of ten, zero to nine; these are the
    zeros of the runs. *)
Definition DECIMAL_ZEROS : list Z :=
  [48; 1632; 1776; 1984; 2406; 2534; 2662; 2790; 2918; 3046; 3174; 3302;
   3430; 3558; 3664; 3792; 3872; 4160; 4240; 6112; 6160; 6470; 6608; 6784;
   6800; 6992; 7088; 7232; 7248; 42528; 43216; 43264; 43472; 43504; 43600;
   44016; 65296; 66720; 68912; 69734; 69872; 69942; 70096; 70384; 70736;
   70864; 71248; 71360; 71472; 71904; 72016; 72784; 73040; 73120; 92768;
   92864; 93008; 120782; 120792; 120802; 120812; 120822; 123200; 123632;
   125264; 130032].

Definition decimal_of (cp : Z) : option Z :=
  match
    List.find (fun zero => (zero <=? cp) && (cp <? zero + 10)) DECIMAL_ZEROS
  with
  | Some zero => Some (cp - zero)
  | None => None
  end.

(** The ASCII character [int] reads for a code point, if any. *)
Definition int_char (cp : Z) : option ascii :=
  if (0 <=? cp) && (cp <? 127) then Some (ascii_of_nat (Z.to_nat cp))
  else if is_unicode_space cp then Some " "%char
  else
    match decimal_of cp with
    | Some d => Some (ascii_of_nat (Z.to_nat (48 + d)))
    | None => None
    end.

Definition int_text (s : string) : option string :=
  match mapM int_char (map code_point (chars s)) with
  | Some text => Some (string_of_list_ascii text)
  | None => None
  end.

(** The blanks the reader of the ASCII text skips. *)
Definition is_blank (c : ascii) : bool :=
  let n := nat_of_ascii c in
  ((9 <=? n) && (n <=? 13) || (n =? 32))%nat.

Fixpoint skip_blanks (s : string) : string :=
  match s with
  | String c s' => if is_blank c then skip_blanks s' else s
  | EmptyString => EmptyString
  end.

Fixpoint drop_trailing_blanks (s : string) : string :=
  match s with
  | String c s' =>
      match drop_trailing_blanks s' with
      | EmptyString => if is_blank c then EmptyString else String c EmptyString
      | r => String c r
      end
  | EmptyString => EmptyString
  end.

Definition digit_value (c : ascii) : option Z :=
  let code := Z.of_nat (nat_of_ascii c) in
  if (48 <=? code) && (code <=? 57) then Some (code - 48) else None.

(** Decimal digits, single underscores allowed between digits. *)
Fixpoint digits_from (acc : Z) (after_digit : bool) (s : string) : option Z :=
  match s with
  | EmptyString => if after_digit then Some acc else None
  | String c s' =>
      match digit_value c with
      | Some d => digits_from (10 * acc + d) true s'
      | None =>
          if Ascii.eqb c "_" && after_digit then digits_from acc false s'
          else None
      end
  end.

(** [int(s)] for a string: surrounding white space, an optional sign, then
    decimal digits; anything else raises [ValueError]. *)
Definition int_literal (text : string) : result Z :=
  let s := drop_trailing_blanks (skip_blanks text) in
  let '(negative, body) :=
    match s with
    | String "-" r => (true, r)
    | String "+" r => (false, r)
    | _ => (false, s)
    end in
  match digits_from 0 false body with
  | Some n => Ok (if negative : bool then - n else n)
  | None => Raise (Exception "ValueError")
  end.

Definition py_int (s : string) : result Z :=
  match int_text s with
  | None => Raise (Exception "ValueError")
  | Some text => int_literal text
  end.

(** [int(v)] for a value of any type: a number is cut towards zero, a
    byte string is read as ASCII text. *)
Definition py_int_of (v : value) : result Z :=
  match v with
  | VStr s => py_int s
  | VInt n => Ok n
  | VBool b => Ok (if b then 1 else 0)
  | VFloat (Finite q) => Ok (Z.quot (Qnum q) (Z.pos (Qden q)))
  | VFloat (Infinite _) => Raise (Exception "OverflowError")
  | VFloat NaN => Raise (Exception "ValueError")
  | VBytes b =>
      int_literal (string_of_list_ascii (map Ascii.ascii_of_byte b))
  | _ => Raise (Exception "TypeError")
  end.

(* ===================================================================== *)
(** * src/providers/opensubtitles.py *)
(* ===================================================================== *)

Record OpenSubtitlesProvider := {
  api_key : string;
  username : string;
  password : string;
  token : option string;
}.

Definition OpenSubtitlesProvider_name : string := "OpenSubtitles".
Definition OpenSubtitlesProvider_API_URL : string :=
  "https://api.opensubtitles.com/api/v1".

Definition LANG_MAP (l : Language) : string :=
  match l with
  | SPANISH_SPAIN => "es"
  | SPANISH_LATAM => "es"
  | ENGLISH => "en"
  end.

Definition _get_api_headers (self : OpenSubtitlesProvider)
  : list (string * string) :=
  let headers := [("Api-Key", api_key self);
                  ("Content-Type", "application/json");
                  ("User-Agent", "SubtitleDownloader v1.0")] in
  match token self with
  | Some t =>
      if truthy (VStr t) then headers ++ [("Authorization", "Bearer " +:+ t)]
      else headers
  | None => headers
  end.

(** The body of the inner [try] of [search] for one item: [Ok None] is the
    [continue] taken when the item lists no files. *)
Definition convert_item (w : World) (item : value)
  : result (option SubtitleResult) :=
  attributes ← py_get item "attributes" (VDict []);
  lang_code ← py_get attributes "language" (VStr "es");
  let lang :=
    match lang_code with
    | VStr "en" => ENGLISH
    | _ => SPANISH_LATAM
    end in
  files ← py_get attributes "files" (VList []);
  if negb (truthy files) then mret None
  else
    file_info ← py_index0 files;
    release ← py_get attributes "release" (VStr "Sin título");
    file_id ← py_get file_info "file_id" (VStr EmptyString);
    comments ← py_get attributes "comments" (VStr EmptyString);
    download_count ← py_get attributes "download_count" (VInt 0);
    ratings ← py_get attributes "ratings" (VInt 0);
    rating ← py_float w ratings;
    mret (Some {| title := release;
                  language := lang;
                  provider := OpenSubtitlesProvider_name;
                  download_url := VStr (py_str w file_id);
                  description := comments;
                  downloads := download_count;
                  rating := rating;
                  _subliminal_sub := None;
                  _subliminal_video := None |}).

(** [for item in ...: try: ... results.append(result) except: continue]. *)
Fixpoint convert_items (w : World) (items : list value)
    (results : list SubtitleResult) : list SubtitleResult :=
  match items with
  | [] => results
  | item :: rest =>
      match convert_item w item with
      | Ok (Some result) => convert_items w rest (results ++ [result])
      | Ok None => convert_items w rest results
      | Raise _ => convert_items w rest results
      end
  end.

(** [OpenSubtitlesProvider.search]: what is printed and what is returned.
    An exception of the outer [try] can only be raised before the first
    item is converted, when [results] is still empty. *)
Definition OpenSubtitlesProvider_search (self : OpenSubtitlesProvider)
    (w : World) (query : string) (language : option Language)
  : list diagnostic * list SubtitleResult :=
  let results := [] in
  if negb (truthy (VStr (api_key self))) then
    ([DiagUnavailable "OpenSubtitles requiere API key"], results)
  else
    match
      let params := [("query", VStr query)] in
      let params :=
        match language with
        | Some l => params ++ [("languages", VStr (LANG_MAP l))]
        | None => params ++ [("languages", VStr "es,en")]
        end in
      response ← requests_get w (OpenSubtitlesProvider_API_URL +:+ "/subtitles")
                   params (_get_api_headers self);
      if negb (status_code response =? 200) then
        mret (inl (status_code response))
      else
        data ← json response;
        found ← py_get data "data" (VList []);
        items ← py_iter found;
        mret (inr (convert_items w items results))
    with
    | Ok (inl code) => ([DiagStatus code], results)
    | Ok (inr results) => ([], take 15 results)
    | Raise e => ([DiagError e], take 15 results)
    end.

(** The parts of [PurePosixPath(s)]: the root, if [s] starts with a
    slash, then the names between the slashes, without the empty ones and
    the dots; a [..] stays a part. *)
Definition posix_parts (s : string) : Path :=
  let names :=
    List.filter
      (fun name => negb (String.eqb name EmptyString || String.eqb name "."))
      (split "/" s) in
  if String.prefix "/" s then
    (if String.prefix "//" s && negb (String.prefix "///" s)
     then "//" else "/") :: names
  else names.

(** [os.path.join(destination, filename)] on POSIX, by the parts of the
    path joined: a file name that starts with a slash replaces the
    destination, any other is appended to it, part by part. *)
Definition os_path_join (destination : Path) (filename : value) : result Path :=
  match filename with
  | VStr name =>
      if String.prefix "/" name then Ok (posix_parts name)
      else Ok (destination ++ posix_parts name)
  | _ => Raise (Exception "TypeError")
  end.

(** A file name that can only be that of a directory: it is empty, or ends
    in a slash, in [.] or in [..]. *)
Definition names_directory (filename : value) : bool :=
  match filename with
  | VStr name =>
      let final := List.last (split "/" name) EmptyString in
      String.eqb final EmptyString || String.eqb final "."
      || String.eqb final ".."
  | _ => false
  end.

(** One [..] of a path, from the directory [reached] so far: the root
    is its own parent, above the working directory the step is kept, and
    anywhere else [reached] must be a directory, which is left. There are
    no symbolic links. *)
Definition step_up (fs : filesystem) (reached : Path) : result Path :=
  if bool_decide (reached = ["/"] ∨ reached = ["//"]) then Ok reached
  else if bool_decide (reached = [] ∨ path_name reached = "..") then
    Ok (reached ++ [".."])
  else
    match fs !! reached with
    | Some Dir => Ok (path_parent reached)
    | Some (File _) => Raise (Exception "NotADirectoryError")
    | None => Raise (Exception "FileNotFoundError")
    end.

(** The place the operating system reaches for the parts of a path. *)
Fixpoint resolve_from (fs : filesystem) (reached : Path)
    (parts : list string) : result Path :=
  match parts with
  | [] => Ok reached
  | part :: rest =>
      if String.eqb part ".." then
        match step_up fs reached with
        | Ok reached' => resolve_from fs reached' rest
        | Raise e => Raise e
        end
      else resolve_from fs (reached ++ [part]) rest
  end.

Definition resolve (fs : filesystem) (path : Path) : result Path :=
  resolve_from fs [] path.

(** [with open(filepath, 'wb') as f: f.write(data)] for a path joined by
    [os.path.join]: where the file name can only be that of a directory,
    opening it for writing fails; else the file is written at the place
    the path leads to. *)
Definition write_joined (w : World) (filename : value) (filepath : Path)
    (data : bytes) : M unit :=
  if names_directory filename then
    lift (Raise (Exception "IsADirectoryError"))
  else
    fun st =>
      match resolve (st_fs st) filepath with
      | Ok target => write_file w target data st
      | Raise e => (st, Raise e)
      end.

(** [OpenSubtitlesProvider.download]: the path of the saved file, or
    [None]. *)
Definition OpenSubtitlesProvider_download (self : OpenSubtitlesProvider)
    (w : World) (subtitle : SubtitleResult) (destination : Path)
  : M (option Path) :=
  if negb (truthy (VStr (api_key self))) then mret None
  else
    try_except
      (file_id ← lift (py_int_of (download_url subtitle));
       response ← lift (requests_post w
                          (OpenSubtitlesProvider_API_URL +:+ "/download")
                          (VDict [("file_id", VInt file_id)])
                          (_get_api_headers self));
       if negb (status_code response =? 200) then mret None
       else
         data ← lift (json response);
         download_link ← lift (py_get data "link" VNone);
         if negb (truthy download_link) then mret None
         else
           dl_response ← lift (fetch w download_link);
           filename ← lift (py_get data "file_name" (VStr "subtitle.srt"));
           filepath ← lift (os_path_join destination filename);
           write_joined w filename filepath (resp_content dl_response);;
           mret (Some filepath))
      (fun _ => mret None).

(* ===================================================================== *)
(** * src/providers/subdivx.py *)
(* ===================================================================== *)

(** A link of the parsed page: its stripped text and its [href]. *)
Record anchor := {
  a_text : string;
  a_href : option string;
}.

(** A result block of the parsed page, by the queries [_extract_result]
    makes on it: [find('a')], which may fail on broken markup, and the text
    of the detail blocks that follow it. *)
Record element := {
  el_find_a : result (option anchor);
  el_detalle_id : option string;
  el_detalle_class : option string;
  el_detalle_sub : option string;
}.

(** The parsed page, by the three selectors of [_parse_results]. *)
Record soup := {
  by_id_menu_titulo : list element;
  by_class_titulo_menu : list element;
  subs_links : list anchor;
}.

(** The browser engine and the helpers of urllib and re. [open_page] gives
    a new context of the browser with the page loaded in it, and
    [goto_status] the status of the response [page.goto] returned for it,
    which the provider drops. *)
Record Scraping := {
  PLAYWRIGHT_AVAILABLE : bool;
  launch_browser : result N;
  open_page : N -> string -> result N;
  goto_status : N -> Z;
  context_cookies : N -> result (list (string * string));
  page_soup : N -> result soup;
  context_close : N -> result unit;
  quote_plus : string -> string;
  urljoin : string -> string -> string;
  downloads_in : string -> option Z;
}.

Record SubDivXProvider := {
  browser : option N;
  cookies : list (string * string);
}.

Definition SubDivXProvider_name : string := "SubDivX".
Definition BASE_URL : string := "https://www.subdivx.com".

(** [_init_browser]: the provider after the call, what was printed, and
    whether a browser is available. *)
Definition _init_browser (sc : Scraping) (self : SubDivXProvider)
  : SubDivXProvider * list diagnostic * bool :=
  if negb (PLAYWRIGHT_AVAILABLE sc) then (self, [], false)
  else
    match browser self with
    | None =>
        match launch_browser sc with
        | Ok b => ({| browser := Some b; cookies := cookies self |}, [], true)
        | Raise e => (self, [DiagError e], false)
        end
    | Some _ => (self, [], true)
    end.

Definition _extract_result (sc : Scraping) (element : element)
  : option SubtitleResult :=
  match
    link ← el_find_a element;
    match link with
    | None => mret None
    | Some link =>
        let title := a_text link in
        let detail_url :=
          urljoin sc BASE_URL (default EmptyString (a_href link)) in
        let desc_div :=
          match el_detalle_id element with
          | Some d => Some d
          | None => el_detalle_class element
          end in
        let description :=
          match desc_div with
          | Some d => str_take 200 d
          | None => EmptyString
          end in
        let downloads :=
          match el_detalle_sub element with
          | Some text => default 0 (downloads_in sc text)
          | None => 0
          end in
        mret (Some {| title := VStr title;
                      language := SPANISH_LATAM;
                      provider := SubDivXProvider_name;
                      download_url := VStr detail_url;
                      description := VStr description;
                      downloads := VInt downloads;
                      rating := Finite 0;
                      _subliminal_sub := None;
                      _subliminal_video := None |})
    end
  with
  | Ok r => r
  | Raise _ => None
  end.

Definition link_result (sc : Scraping) (link : anchor) : option SubtitleResult :=
  if truthy (VStr (a_text link)) then
    Some {| title := VStr (a_text link);
            language := SPANISH_LATAM;
            provider := SubDivXProvider_name;
            download_url :=
              VStr (urljoin sc BASE_URL (default EmptyString (a_href link)));
            description := VStr EmptyString;
            downloads := VInt 0;
            rating := Finite 0;
            _subliminal_sub := None;
            _subliminal_video := None |}
  else None.

(** [_parse_results]: three selector strategies, each tried only when the
    previous ones gave nothing. *)
Definition _parse_results (sc : Scraping) (soup : soup) : list SubtitleResult :=
  let results := omap (_extract_result sc) (by_id_menu_titulo soup) in
  let results :=
    match results with
    | [] => omap (_extract_result sc) (by_class_titulo_menu soup)
    | _ => results
    end in
  let results :=
    match results with
    | [] => omap (link_result sc) (subs_links soup)
    | _ => results
    end in
  results.

(** [SubDivXProvider.search]: the provider after the call, what was
    printed, and the results. *)
Definition SubDivXProvider_search (sc : Scraping) (self : SubDivXProvider)
    (query : string) (language : option Language)
  : SubDivXProvider * list diagnostic * list SubtitleResult :=
  let results := [] in
  if negb (PLAYWRIGHT_AVAILABLE sc) then
    (self, [DiagUnavailable "SubDivX: Playwright no instalado"], results)
  else
    let '(self, printed, ready) := _init_browser sc self in
    if negb ready then (self, printed, results)
    else
      match browser self with
      | None => (self, printed ++ [DiagError (Exception "AttributeError")],
                 take 15 results)
      | Some b =>
          let search_url :=
            BASE_URL +:+ "/index.php?buscar2=" +:+ quote_plus sc query
            +:+ "&acession=1&oxdown=1" in
          match open_page sc b search_url with
          | Raise e => (self, printed ++ [DiagError e], take 15 results)
          | Ok context =>
              match context_cookies sc context with
              | Raise e => (self, printed ++ [DiagError e], take 15 results)
              | Ok harvested =>
                  let self :=
                    {| browser := browser self; cookies := harvested |} in
                  match page_soup sc context with
                  | Raise e =>
                      (self, printed ++ [DiagError e], take 15 results)
                  | Ok soup =>
                      let results := _parse_results sc soup in
                      match context_close sc context with
                      | Raise e =>
                          (self, printed ++ [DiagError e], take 15 results)
                      | Ok _ => (self, printed, take 15 results)
                      end
                  end
              end
          end
      end.

(* ===================================================================== *)
(** * src/providers/subliminal_provider.py *)
(* ===================================================================== *)

Definition SubliminalProvider_LANG_MAP (l : Language) : string :=
  match l with
  | SPANISH_SPAIN => "spa"
  | SPANISH_LATAM => "spa"
  | ENGLISH => "eng"
  end.

Definition subliminal_provider_result (video : N) (sub : subliminal_subtitle)
  : SubtitleResult :=
  {| title := VStr (sub_id sub +:+ " - " +:+ sub_provider_name sub);
     language :=
       if String.eqb (sub_language sub) "spa" then SPANISH_LATAM else ENGLISH;
     provider := "Subliminal (" +:+ sub_provider_name sub +:+ ")";
     download_url := VStr (sub_id sub);
     description := VStr (default EmptyString (sub_release sub));
     downloads := VInt 0;
     rating := Finite 0;
     _subliminal_sub := Some (sub_handle sub);
     _subliminal_video := Some video |}.

(** [SubliminalProvider.search_for_video]. *)
Definition SubliminalProvider_search_for_video (w : World) (video_path : Path)
    (language : option Language) : list SubtitleResult :=
  if negb (SUBLIMINAL_AVAILABLE w) then []
  else
    let results := [] in
    match
      video ← scan_video w video_path;
      let languages :=
        match language with
        | Some l => [SubliminalProvider_LANG_MAP l]
        | None => ["spa"; "eng"]
        end in
      subtitles ← list_subtitles w None video languages;
      mret (map (subliminal_provider_result video) (take 15 subtitles))
    with
    | Ok results => results
    | Raise _ => results
    end.

(* ===================================================================== *)
(** * src/utils/file_utils.py: rename_subtitle *)
(* ===================================================================== *)

(** The entries of [fs] at [dir] and below. *)
Definition subtree (fs : filesystem) (dir : Path) : filesystem :=
  filter (fun entry => dir `prefix_of` fst entry) fs.

(** The file system with the tree at [src] moved to [dst]. *)
Definition move_tree (fs : filesystem) (src dst : Path) : filesystem :=
  filter (fun entry => ¬ src `prefix_of` fst entry) fs
  ∪ list_to_map
      (map (fun entry => (dst ++ drop (length src) (fst entry), snd entry))
           (map_to_list (subtree fs src))).

(** [subtitle.rename(new_path)] on POSIX, for a [new_path] that does not
    exist: the source must exist and the folder of [new_path] must be a
    directory; a file moves alone, a directory moves with all it holds
    and cannot move below itself. Both paths are on one volume, in
    folders the process may change. *)
Definition fs_rename (fs : filesystem) (src dst : Path) : result filesystem :=
  match fs !! src with
  | None => Raise (Exception "FileNotFoundError")
  | Some e =>
      match fs !! path_parent dst with
      | None => Raise (Exception "FileNotFoundError")
      | Some (File _) => Raise (Exception "NotADirectoryError")
      | Some Dir =>
          match e with
          | File data => Ok (<[dst := File data]> (delete src fs))
          | Dir =>
              if bool_decide (src `prefix_of` dst)
              then Raise (Exception "OSError")
              else Ok (move_tree fs src dst)
          end
      end
  end.

(** [while new_path.exists(): ...], unrolled at most [fuel] times: the
    first path that does not exist, [None] when the fuel runs out. *)
Fixpoint free_path (fuel : nat) (fs : filesystem) (parent : Path)
    (stem suffix : string) (new_path : Path) (counter : Z) : option Path :=
  if path_exists fs new_path then
    match fuel with
    | O => None
    | S fuel' =>
        let new_name := stem +:+ "." +:+ pretty counter +:+ suffix in
        let new_path := path_join parent new_name in
        free_path fuel' fs parent stem suffix new_path (counter + 1)
    end
  else Some new_path.

(** [rename_subtitle] run with the given fuel for its loop: [None] when the
    loop did not finish, else the returned path and the file system after
    the rename, or the exception of the rename. *)
Definition rename_subtitle_fuel (fuel : nat) (fs : filesystem)
    (subtitle_path video_path : Path) : option (result (Path * filesystem)) :=
  let subtitle := subtitle_path in
  let video := video_path in
  let new_name := path_stem video +:+ path_suffix subtitle in
  let new_path := path_join (path_parent video) new_name in
  let counter := 1 in
  match free_path fuel fs (path_parent video) (path_stem video)
          (path_suffix subtitle) new_path counter with
  | None => None
  | Some new_path =>
      Some (fs' ← fs_rename fs subtitle new_path; mret (new_path, fs'))
  end.

(** [rename_subtitle]: the numbered names are pairwise distinct, so the
    loop ends within one iteration more than the file system has
    entries. *)
Definition rename_subtitle (fs : filesystem) (subtitle_path video_path : Path)
  : option (result (Path * filesystem)) :=
  rename_subtitle_fuel (S (size fs)) fs subtitle_path video_path.

(* ===================================================================== *)
(** * Vocabulary of the properties *)
(* ===================================================================== *)

(** The three provider stages of the orchestrator. *)
Inductive stage := HashSearch | QuerySearch | FallbackSearch.

Definition stage_of (e : event) : option stage :=
  match e with
  | EvSearchHash _ _ => Some HashSearch
  | EvSearchQuery _ _ _ _ => Some QuerySearch
  | EvSearchVideo _ _ => Some FallbackSearch
  | _ => None
  end.

(** The stages entered along a trace, in order. *)
Definition stages (tr : list event) : list stage := omap stage_of tr.

Definition key_configured (w : World) : bool :=
  truthy (VStr (OPENSUBTITLES_API_KEY w)).

(** What each stage answers for a video when it is asked. *)
Definition hash_results (w : World) (fs : filesystem) (video_path : Path) : value :=
  OpenSubtitlesAPI_search w None (get_file_hash fs video_path) (lang_var w)
    None None None.

Definition query_results (w : World) (info : parsed_info) : value :=
  OpenSubtitlesAPI_search w (Some (build_search_query info)) None (lang_var w)
    None (info_season info) (info_episode info).

(** The fallback policy, for the stages [s] entered while one video is
    processed: the fixed order, when each stage is entered, and the
    short-circuit after a stage that found something. *)
Definition fallback_order (w : World) (fs : filesystem) (video_path : Path)
    (info : parsed_info) (s : list stage) : Prop :=
  let hash_found := truthy (hash_results w fs video_path) in
  let query_found := truthy (query_results w info) in
  sublist s [HashSearch; QuerySearch; FallbackSearch]
  ∧ (HashSearch ∈ s ↔
       is_Some (get_file_hash fs video_path) ∧ key_configured w = true)
  ∧ (QuerySearch ∈ s ↔
       key_configured w = true ∧ (HashSearch ∈ s → hash_found = false))
  ∧ (FallbackSearch ∈ s ↔
       SUBLIMINAL_AVAILABLE w = true
       ∧ (HashSearch ∈ s → hash_found = false)
       ∧ (QuerySearch ∈ s → query_found = false))
  ∧ (HashSearch ∈ s → hash_found = true → s = [HashSearch])
  ∧ (QuerySearch ∈ s → query_found = true → FallbackSearch ∉ s).

(** The files written along a trace. *)
Definition written (tr : list event) : list (Path * bytes) :=
  omap (fun e => match e with
                 | EvWrite path data => Some (path, data)
                 | _ => None
                 end) tr.

(** The videos announced along a trace by the batch status line. *)
Definition announced (tr : list event) : list (Z * Z * string) :=
  omap (fun e => match e with
                 | EvStatus (StProcessing i total name) => Some (i, total, name)
                 | _ => None
                 end) tr.

(** Calls to the aggregator's download and to the structured-API
    two-step download along a trace. *)
Definition aggregator_downloads (tr : list event) : list value :=
  omap (fun e => match e with
                 | EvSubliminalDownload subtitle _ => Some subtitle
                 | _ => None
                 end) tr.

Definition api_downloads (tr : list event) : list value :=
  omap (fun e => match e with
                 | EvDownloadLink file_id => Some file_id
                 | EvFetch link => Some link
                 | _ => None
                 end) tr.

(** A letter of the ASCII alphabet, as the scheme of a URL starts with. *)
Definition is_ascii_letter (c : ascii) : bool :=
  let n := nat_of_ascii c in
  ((65 <=? n) && (n <=? 90) || (97 <=? n) && (n <=? 122))%nat.

(** The file id [_do_download] asks the structured API for: the
    [file_id] of the first of the [files] of the result's attributes, when
    there is one and it is truthy. *)
Definition result_file_id (subtitle : value) : option value :=
  match
    attrs ← py_get subtitle "attributes" (VDict []);
    files ← py_get attrs "files" (VList []);
    if truthy files then
      file_info ← py_index0 files;
      py_get file_info "file_id" VNone
    else mret VNone
  with
  | Ok file_id => if truthy file_id then Some file_id else None
  | Raise _ => None
  end.

(** The calls of the structured-API two-step download for a file id: the
    request for a download link, then, when a link came back, the request
    for the file. *)
Definition two_step_download (w : World) (file_id : value) : list value :=
  let download_link := OpenSubtitlesAPI_download w file_id in
  if truthy download_link then [file_id; download_link] else [file_id].

(** [<video-stem>.<language>.srt] beside the video. *)
Definition subtitle_name (w : World) (video : Path) (language : value) : string :=
  path_stem video +:+ "." +:+ py_str w language +:+ ".srt".

Definition subtitle_path (w : World) (video : Path) (language : value) : Path :=
  path_join (path_parent video) (subtitle_name w video language).

(** [attrs.get('language', 'es')] for the attributes of a result. *)
Definition result_language (subtitle : value) : result value :=
  attrs ← py_get subtitle "attributes" (VDict []);
  py_get attrs "language" (VStr "es").

(** [subtitle.get('provider', 'OpenSubtitles')]. *)
Definition result_provider (subtitle : value) : result value :=
  py_get subtitle "provider" (VStr "OpenSubtitles").

(** The part of a batch trace that belongs to video number [i] (from 0) of
    [total]: it opens with the status line of that video, announces no
    other video, and holds at most one write, of that video's subtitle
    file. *)
Definition video_segment (w : World) (total i : Z) (video : Path)
    (seg : list event) : Prop :=
  ∃ rest,
    seg = EvStatus (StProcessing (i + 1) total (path_name video)) :: rest
    ∧ announced rest = []
    ∧ (written rest = []
       ∨ ∃ language data,
           written rest = [(subtitle_path w video language, data)]).

Fixpoint batch_segments (w : World) (total i : Z) (videos : list Path)
    (segments : list (list event)) : Prop :=
  match videos, segments with
  | [], [] => True
  | video :: videos', seg :: segments' =>
      video_segment w total i video seg
      ∧ batch_segments w total (i + 1) videos' segments'
  | _, _ => False
  end.

(** Whether a file was written within a segment. *)
Definition wrote (seg : list event) : bool :=
  match written seg with
  | [] => false
  | _ => true
  end.

(** A successful download of [subtitle] for [video], as [_do_download]
    makes it: the mechanism the provider name selects yields the
    non-empty [content]. For the aggregator that is what its download
    returns; for the structured API the result names a file id, the API
    hands out a download link for it, and fetching the link is answered
    with status 200 and that body. *)
Definition download_yields (w : World) (subtitle : value) (video : Path)
    (content : bytes) : Prop :=
  content ≠ []
  ∧ ∃ attrs provider,
      py_get subtitle "attributes" (VDict []) = Ok attrs
      ∧ result_provider subtitle = Ok provider
      ∧ ((py_contains "Subliminal" provider = Ok true
          ∧ SubliminalFallback_download w subtitle (path_parent video)
            = Some content)
         ∨ (py_contains "Subliminal" provider = Ok false
            ∧ ∃ files file_info file_id response,
                py_get attrs "files" (VList []) = Ok files
                ∧ truthy files = true
                ∧ py_index0 files = Ok file_info
                ∧ py_get file_info "file_id" VNone = Ok file_id
                ∧ truthy file_id = true
                ∧ truthy (OpenSubtitlesAPI_download w file_id) = true
                ∧ fetch w (OpenSubtitlesAPI_download w file_id) = Ok response
                ∧ status_code response = 200
                ∧ resp_content response = content)).

(** What one run of a computation did to the file system, given the
    events [new] it added to the trace: either exactly one file was
    written, [data] at [path], created or replaced and nothing else
    touched, or nothing was changed. *)
Definition persisted_at (st st' : state) (new : list event) (path : Path)
    (data : bytes) : Prop :=
  written new = [(path, data)]
  ∧ st_fs st' = <[path := File data]> (st_fs st).

Definition nothing_persisted (st st' : state) (new : list event) : Prop :=
  written new = [] ∧ st_fs st' = st_fs st.

(** A member name with the subtitle suffix the extraction looks for. *)
Definition is_srt (name : string) : bool := endswith name ".srt".

(** The names [rename_subtitle] tries: the video's stem with the
    subtitle's suffix, then the same with a number in between. *)
Definition plain_name (subtitle_path video_path : Path) : Path :=
  path_join (path_parent video_path)
    (path_stem video_path +:+ path_suffix subtitle_path).

Definition numbered_name (subtitle_path video_path : Path) (k : Z) : Path :=
  path_join (path_parent video_path)
    (path_stem video_path +:+ "." +:+ pretty k
     +:+ path_suffix subtitle_path).

(** The result the structured-API provider keeps for an item of the
    response, if it keeps one. *)
Definition item_result (w : World) (item : value) : option SubtitleResult :=
  match convert_item w item with
  | Ok (Some result) => Some result
  | _ => None
  end.

(* ===================================================================== *)
(** * Test doubles *)
(* ===================================================================== *)

(** An archive library that opens exactly the byte strings of a table;
    reading a member looks its name up, the last entry of a name winning. *)
Definition mock_zip (archives : list (bytes * list (string * bytes)))
  : ZipLibrary :=
  {| ZipArchive := list (string * bytes);
     ZipFile := fun content =>
       match find (fun a => bytes_eqb (fst a) content) archives with
       | Some a => Ok (snd a)
       | None => Raise (Exception "BadZipFile")
       end;
     namelist := map fst;
     zf_read := fun zf name =>
       match find (fun m => String.eqb (fst m) name) (rev zf) with
       | Some m => Ok (snd m)
       | None => Raise (Exception "KeyError")
       end |}.

(** A world built from the answers of its collaborators; every path is
    writable. *)
Definition mock_world (key : string) (subliminal : bool)
    (get : string -> list (string * value) -> list (string * string)
           -> result response)
    (post : string -> value -> list (string * string) -> result response)
    (parse : string -> result parsed_info)
    (subs : result (list subliminal_subtitle))
    (zip : ZipLibrary) : World :=
  {| OPENSUBTITLES_API_KEY := key;
     API_URL := "https://api.opensubtitles.com/api/v1";
     SUBLIMINAL_AVAILABLE := subliminal;
     lang_var := "es";
     requests_get := get;
     requests_post := post;
     parse_video_filename := parse;
     scan_video := fun _ => Ok 1%N;
     list_subtitles := fun _ _ _ => subs;
     download_subtitle := fun _ _ => Ok None;
     float_of_string := fun _ => None;
     float_of_bytes := fun _ => None;
     writable := fun _ => true;
     repr := fun _ => "?";
     zipfile := zip |}.

Definition no_response : result response := Raise (Exception "ConnectionError").

Definition json_response (body : value) : result response :=
  Ok {| status_code := 200; json := Ok body; resp_content := [];
        resp_text := EmptyString; resp_url := EmptyString |}.

Definition bytes_response (data : bytes) : result response :=
  Ok {| status_code := 200;
        json := Raise (Exception "JSONDecodeError");
        resp_content := data;
        resp_text := EmptyString; resp_url := EmptyString |}.

(** A parser that finds a title only. *)
Definition title_only (name : string) : result parsed_info :=
  Ok {| info_title := Some name; info_year := None;
        info_season := None; info_episode := None |}.

(** An item of a search response with one file. *)
Definition api_item (release : string) (file_id : Z) : value :=
  VDict [("attributes",
          VDict [("release", VStr release);
                 ("language", VStr "es");
                 ("files", VList [VDict [("file_id", VInt file_id)]])])].

(** C5: a world whose API answers every search with a page of sixteen
    items. *)
Definition sixteen_items : list value :=
  map (api_item "Show.S01E02") (seqZ 1 16).

Definition big_page_world : World :=
  mock_world "key" false
    (fun _ _ _ => json_response (VDict [("data", VList sixteen_items)]))
    (fun _ _ _ => no_response)
    title_only (Ok []) (mock_zip []).

(** C9: a subtitle the subliminal provider lists with a numeric id, and a
    world whose API hands out a download link for any file id. *)
Definition numeric_sub : subliminal_subtitle :=
  {| sub_handle := 7%N;
     sub_language := "spa";
     sub_provider_name := "tvsubtitles";
     sub_id := "42";
     sub_release := None;
     sub_releases := None |}.

Definition open_handed_world : World :=
  mock_world "key" true
    (fun _ _ _ => bytes_response [x31; x0a])
    (fun _ _ _ =>
       json_response (VDict [("link", VStr "https://dl.example/42");
                             ("file_name", VStr "other.srt")]))
    title_only (Ok [numeric_sub]) (mock_zip []).

Definition keyed_provider : OpenSubtitlesProvider :=
  {| api_key := "key"; username := EmptyString; password := EmptyString;
     token := None |}.

Definition empty_state : state := {| st_fs := ∅; st_trace := [] |}.

(** A state with a folder of videos and a folder for downloads, both
    empty. *)
Definition two_folders : state :=
  {| st_fs := {[ ["videos"] := Dir; ["subs"] := Dir ]}; st_trace := [] |}.

(* ===================================================================== *)
(** * src/providers: the providers that read web pages *)
(* ===================================================================== *)

(** A tag of a parsed page ([bs4.Tag]; the parsed page is one as well), by
    what the providers ask of it: [tag.get(name)] for an attribute with
    one value, [tag.get('class')], [get_text(strip=...)], [str(tag)] and
    the searches [find], [select_one], [find_all] and [select], each named
    by the text of its arguments in the source (a double quote written as
    a single one). A tag is truthy, so [if not tag] tests for [None]. *)
Inductive tag := Tag {
  tag_get : string -> option string;
  tag_class : option (list string);
  get_text : bool -> string;
  tag_str : string;
  tag_find : string -> result (option tag);
  tag_select_one : string -> result (option tag);
  tag_find_all : string -> result (list tag);
  tag_select : string -> result (list tag);
}.



(** What a search has printed and gathered so far. *)
Definition found : Type := list diagnostic * list SubtitleResult.




(** A result as the dataclass builds it from the fields a scraper
    gives. *)
Definition scraped (name : string) (title : string) (language : Language)
    (download_url : string) (description : string) (rating : double)
  : SubtitleResult :=
  {| title := VStr title;
     language := language;
     provider := name;
     download_url := VStr download_url;
     description := VStr description;
     downloads := VInt 0;
     rating := rating;
     _subliminal_sub := None;
     _subliminal_video := None |}.



(** ** src/providers/argenteam.py *)









(** ** src/providers/subscene.py *)











(** ** src/providers/yify.py *)












(** ** src/providers/subdl.py *)














(** ** src/providers/tusubtitulo.py *)














(** ** src/providers/subliminal_provider.py: search *)


(* ===================================================================== *)
(** * The two halves of [batch_body] *)
(* ===================================================================== *)

(** The three search stages of [batch_body], and what follows them. *)
Definition batch_stages (w : World) (video_path : Path) (info : parsed_info)
    (file_hash : option string) : M value :=
  let query := build_search_query info in
  let languages := lang_var w in
  let results := VList [] in
  results ←
    (if truthy (opt_str file_hash) && truthy (VStr (OPENSUBTITLES_API_KEY w))
     then
       emit (EvSearchHash (default EmptyString file_hash) languages);;
       mret (OpenSubtitlesAPI_search w None file_hash languages
               None None None)
     else mret results);
  results ←
    (if negb (truthy results) && truthy (VStr (OPENSUBTITLES_API_KEY w))
     then
       emit (EvSearchQuery query languages
               (info_season info) (info_episode info));;
       mret (OpenSubtitlesAPI_search w (Some query) None languages
               None (info_season info) (info_episode info))
     else mret results);
  results ←
    (if negb (truthy results) && SUBLIMINAL_AVAILABLE w
     then
       emit (EvSearchVideo video_path languages);;
       mret (SubliminalFallback_search_for_video w video_path languages)
     else mret results);
  mret results.

(** What [batch_body] does with the results of the stages. *)
Definition batch_download (w : World) (video_path : Path) (downloaded : Z)
    (results : value) : M Z :=
  if truthy results then
    sub ← lift (py_index0 results);
    attrs ← lift (py_get sub "attributes" (VDict []));
    provider ← lift (py_get sub "provider" (VStr "OpenSubtitles"));
    let content : option bytes := None in
    by_subliminal ← lift (py_contains "Subliminal" provider);
    content ←
      (if by_subliminal : bool then
         let video_dir := path_parent video_path in
         emit (EvSubliminalDownload sub video_dir);;
         mret (SubliminalFallback_download w sub video_dir)
       else
         files ← lift (py_get attrs "files" (VList []));
         if truthy files then
           file_info ← lift (py_index0 files);
           file_id ← lift (py_get file_info "file_id" VNone);
           if truthy file_id then
             emit (EvDownloadLink file_id);;
             let download_link := OpenSubtitlesAPI_download w file_id in
             if truthy download_link then
               emit (EvFetch download_link);;
               response ← lift (fetch w download_link);
               if status_code response =? 200
               then mret (Some (resp_content response))
               else mret content
             else mret content
           else mret content
         else mret content);
    match content with
    | Some ((_ :: _) as content) =>
        let video := video_path in
        language ← lift (py_get attrs "language" (VStr "es"));
        let content := _extract_subtitle_content (zip := zipfile w) content in
        let sub_name :=
          path_stem video +:+ "." +:+ py_str w language +:+ ".srt" in
        let sub_path := path_join (path_parent video) sub_name in
        write_file w sub_path content;;
        mret (downloaded + 1)
    | _ => mret downloaded
    end
  else mret downloaded.



(** The page [SubDivXProvider.search] loads. *)
Definition search_url (sc : Scraping) (query : string) : string :=
  BASE_URL +:+ "/index.php?buscar2=" +:+ quote_plus sc query
  +:+ "&acession=1&oxdown=1".


(** The request [OpenSubtitlesAPI.search] sends. *)
Definition api_search_request (w : World) (query file_hash : option string)
    (languages : string) (imdb_id : option string) (season episode : option Z)
  : result response :=
  let params := [("languages", VStr languages)] in
  let params := set_if_str params "query" query in
  let params := set_if_str params "moviehash" file_hash in
  let params := set_if_str params "imdb_id" imdb_id in
  let params := set_if_int params "season_number" season in
  let params := set_if_int params "episode_number" episode in
  requests_get w (API_URL w +:+ "/subtitles") params
    (OpenSubtitlesAPI_headers w).


(** C2: a file of exactly 128 KiB and a file of one byte. *)
Definition large_file : bytes := replicate (Z.to_nat 131072) x01.

Definition two_videos : filesystem :=
  {[ ["videos"; "large.mkv"] := File large_file;
     ["videos"; "small.mkv"] := File [x01] ]}.

(** C3, C10: an archive library that knows two archives, one with a single
    [.srt] member among others and one without any. *)
Definition srt_archive : bytes := ZIP_SIGNATURE ++ [x01].
Definition txt_archive : bytes := ZIP_SIGNATURE ++ [x02].
Definition plain_subtitle : bytes := [x31; x0a; x30; x30].

Definition two_archives : ZipLibrary :=
  mock_zip [(srt_archive, [("readme.txt", [x72]); ("ep.srt", [x31; x0a])]);
            (txt_archive, [("notes.txt", [x6e]); ("ep.sub", [x7b])])].

(** C8: a download folder and a video folder in which the plain name and
    the first numbered name are taken. *)
Definition crowded_folder : filesystem :=
  {[ ["downloads"] := Dir;
     ["downloads"; "sub.srt"] := File [x31];
     ["videos"] := Dir;
     ["videos"; "Show.mkv"] := File [x00];
     ["videos"; "Show.srt"] := File [x32];
     ["videos"; "Show.1.srt"] := File [x33] ]}.


(** C1, C7: a world without fingerprints (the videos are not on disk) whose
    API finds one subtitle for every query and serves its content, and
    whose parser fails on one file name. *)
Definition one_hit : value := VList [api_item "Show.S01E02.WEB" 7].

Definition picky_parser (name : string) : result parsed_info :=
  if String.eqb name "b.mkv" then Raise (Exception "ValueError")
  else title_only name.

Definition serving_world : World :=
  mock_world "key" true
    (fun url _ _ =>
       if String.prefix "https://api." url
       then json_response (VDict [("data", one_hit)])
       else bytes_response [x31; x0a])
    (fun _ _ _ => json_response (VDict [("link", VStr "https://dl.example/7")]))
    picky_parser (Ok []) (mock_zip []).

(** The same service finding nothing. *)
Definition barren_world : World :=
  mock_world "key" true
    (fun _ _ _ => json_response (VDict [("data", VList [])]))
    (fun _ _ _ => no_response)
    title_only (Ok [numeric_sub]) (mock_zip []).




(** C6: tags built from what they answer. *)
Definition empty_tag : tag :=
  {| tag_get := fun _ => None;
     tag_class := None;
     get_text := fun _ => EmptyString;
     tag_str := EmptyString;
     tag_find := fun _ => Ok None;
     tag_select_one := fun _ => Ok None;
     tag_find_all := fun _ => Ok [];
     tag_select := fun _ => Ok [] |}.












(** C4: a folder in which the subtitle of a video is there already. *)
Definition subtitled_folder : state :=
  {| st_fs := {[ ["videos"] := Dir;
                 ["videos"; "a.es.srt"] := File [x30] ]};
     st_trace := [] |}.

(* ===================================================================== *)
(** * src/utils/file_utils.py: get_video_files *)
(* ===================================================================== *)

(** The two extension sets, each as the list of its literal. The code
    tests membership in them and loops over [SUBTITLE_EXTENSIONS] with an
    early exit whose outcome does not depend on the order of the loop. *)
Definition VIDEO_EXTENSIONS : list string :=
  [".mkv"; ".mp4"; ".avi"; ".mov"; ".wmv"; ".m4v"; ".flv"; ".webm"].

Definition SUBTITLE_EXTENSIONS : list string :=
  [".srt"; ".sub"; ".ssa"; ".ass"; ".vtt"].

(** [Path.is_file()] and [os.path.isdir]. *)
Definition is_file (fs : filesystem) (p : Path) : bool :=
  match fs !! p with
  | Some (File _) => true
  | _ => false
  end.

Definition is_dir (fs : filesystem) (p : Path) : bool :=
  match fs !! p with
  | Some Dir => true
  | _ => false
  end.

Definition lower_char (c : ascii) : ascii :=
  let n := nat_of_ascii c in
  if ((65 <=? n) && (n <=? 90))%nat then ascii_of_nat (n + 32) else c.

(** [str.lower()] on the UTF-8 form of a string, as far as a comparison
    with ASCII text can tell: the capitals A-Z and the Kelvin sign (U+212A,
    bytes E2 84 AA), the one character outside ASCII whose lower case is an
    ASCII letter, are lowered; the other characters outside ASCII stay
    outside ASCII under [str.lower()] and are left as they are. *)
Fixpoint lower (s : string) : string :=
  match s with
  | String "226" (String "132" (String "170" s')) => String "k" (lower s')
  | String c s' => String (lower_char c) (lower s')
  | EmptyString => EmptyString
  end.

(** [folder.iterdir()]: the entries directly inside a directory, in no
    particular order. *)
Definition iterdir (fs : filesystem) (folder : Path) : result (list Path) :=
  match fs !! folder with
  | Some Dir =>
      Ok (filter (λ p, p = path_join folder (path_name p)) (elements (dom fs)))
  | Some (File _) => Raise (Exception "NotADirectoryError")
  | None => Raise (Exception "FileNotFoundError")
  end.

(** The order [sorted] puts the collected strings in. They are all of the
    form [str(folder / name)] for the one [folder], so they compare as
    their names do, code point by code point, which on UTF-8 text is byte
    by byte. *)
Definition name_le (p q : Path) : Prop := String.le (path_name p) (path_name q).

#[global] Instance name_le_dec : RelDecision name_le.
Proof. intros p q. unfold name_le. apply _. Defined.

Definition sorted (video_files : list Path) : list Path :=
  merge_sort name_le video_files.

Definition get_video_files (fs : filesystem) (folder_path : Path)
  : result (list Path) :=
  let video_files := [] in
  let folder := folder_path in
  if negb (path_exists fs folder) then Ok video_files
  else
    files ← iterdir fs folder;
    let video_files :=
      video_files
      ++ filter (λ file, is_file fs file = true
                         ∧ lower (path_suffix file) ∈ VIDEO_EXTENSIONS) files in
    Ok (sorted video_files).

(* ===================================================================== *)
(** * main.py: which videos still need a subtitle *)
(* ===================================================================== *)

(** [PurePath.with_suffix(suffix)], for a suffix that starts with a dot. *)
Definition with_suffix (p : Path) (suffix : string) : result Path :=
  let name := path_name p in
  if negb (truthy (VStr name)) then Raise (Exception "ValueError")
  else
    let old_suffix := name_suffix name in
    let name :=
      if negb (truthy (VStr old_suffix)) then name +:+ suffix
      else substring 0 (String.length name - String.length old_suffix) name
           +:+ suffix in
    Ok (path_join (path_parent p) name).

Definition LANGUAGE_TAGS : list string := [".es"; ".en"; ".spa"; ".eng"].

(** The loop of [_has_subtitle] over the extensions [exts]. *)
Fixpoint _has_subtitle_loop (fs : filesystem) (video : Path)
    (exts : list string) : result bool :=
  match exts with
  | [] => Ok false
  | ext :: exts' =>
      plain ← with_suffix video ext;
      if path_exists fs plain then Ok true
      else if existsb
                (λ lang,
                   let sub_name := path_stem video +:+ lang +:+ ext in
                   path_exists fs (path_join (path_parent video) sub_name))
                LANGUAGE_TAGS
      then Ok true
      else _has_subtitle_loop fs video exts'
  end.

(** [SubtitleDownloaderApp._has_subtitle]. *)
Definition _has_subtitle (fs : filesystem) (video_path : Path) : result bool :=
  _has_subtitle_loop fs video_path SUBTITLE_EXTENSIONS.

(** [[v for v in self.video_files if not self._has_subtitle(v)]]. *)
Fixpoint videos_sin_sub (fs : filesystem) (video_files : list Path)
  : result (list Path) :=
  match video_files with
  | [] => Ok []
  | v :: rest =>
      has_sub ← _has_subtitle fs v;
      kept ← videos_sin_sub fs rest;
      Ok (if has_sub : bool then kept else v :: kept)
  end.

(** The rows [_load_videos] puts in the list box: whether the video is
    ticked, and its file name. *)
Fixpoint listbox_rows (fs : filesystem) (video_files : list Path)
  : result (list (bool * string)) :=
  match video_files with
  | [] => Ok []
  | vf :: rest =>
      let filename := path_name vf in
      has_sub ← _has_subtitle fs vf;
      rows ← listbox_rows fs rest;
      Ok ((has_sub, filename) :: rows)
  end.

(** What [_load_videos] shows: the error box, or the rows and the number of
    videos of the status line. *)
Inductive load_outcome :=
  | InvalidFolder
  | Loaded (rows : list (bool * string)) (found : Z).

(** [SubtitleDownloaderApp._load_videos], for the folder held by
    [self.folder_path] ([None] is the empty string): the value of
    [self.video_files] afterwards and what is shown. *)
Definition _load_videos (fs : filesystem) (folder : option Path)
    (video_files : list Path) : list Path * result load_outcome :=
  match folder with
  | None => (video_files, Ok InvalidFolder)
  | Some folder =>
      if negb (is_dir fs folder) then (video_files, Ok InvalidFolder)
      else
        match get_video_files fs folder with
        | Raise e => (video_files, Raise e)
        | Ok video_files =>
            (video_files,
             rows ← listbox_rows fs video_files;
             Ok (Loaded rows (Z.of_nat (length video_files))))
        end
  end.

(** How [_download_all] ends: with one of its message boxes, or with the
    batch it started. *)
Inductive batch_outcome :=
  | NoVideosLoaded
  | NothingMissing
  | Declined
  | Completed (downloaded : Z).

(** [SubtitleDownloaderApp._download_all]; [askyesno] is the answer to
    the confirmation box for the number of videos it shows. The batch it
    starts in a thread is run to its end. *)
Definition _download_all (w : World) (video_files : list Path)
    (askyesno : Z -> bool) : M batch_outcome :=
  match video_files with
  | [] => mret NoVideosLoaded
  | _ =>
      fs ← get_fs;
      missing ← lift (videos_sin_sub fs video_files);
      match missing with
      | [] => mret NothingMissing
      | _ =>
          if askyesno (Z.of_nat (length missing)) then
            downloaded ← _do_download_all w missing;
            mret (Completed downloaded)
          else mret Declined
      end
  end.

(* ===================================================================== *)
(** * Vocabulary of the further properties *)
(* ===================================================================== *)

(** The file system after the files of [writes] were written, in order. *)
Definition replay (writes : list (Path * bytes)) (fs : filesystem)
  : filesystem :=
  foldl (λ fs pd, <[pd.1 := File pd.2]> fs) fs writes.

(** The names under which [_has_subtitle] looks for a subtitle of a
    video: its stem, an optional language tag, a subtitle extension. *)
Definition subtitle_candidates (video : Path) : list Path :=
  ext ← SUBTITLE_EXTENSIONS;
  tag ← EmptyString :: LANGUAGE_TAGS;
  [path_join (path_parent video) (path_stem video +:+ tag +:+ ext)].

(** A video file directly inside [folder]. *)
Definition video_in (fs : filesystem) (folder : Path) (p : Path) : Prop :=
  ∃ name data,
    p = path_join folder name
    ∧ fs !! p = Some (File data)
    ∧ lower (name_suffix name) ∈ VIDEO_EXTENSIONS.

(** Strictly increasing file names. *)
Definition name_lt (p q : Path) : Prop :=
  String.le (path_name p) (path_name q) ∧ path_name p ≠ path_name q.

(* ===================================================================== *)
(** * Vocabulary of the provider properties *)
(* ===================================================================== *)

(** The file id [OpenSubtitlesProvider.search] reads from an item of the
    response: [item['attributes']['files'][0].get('file_id', '')]. *)
Definition first_file_id (item : value) : result value :=
  attributes ← py_get item "attributes" (VDict []);
  files ← py_get attributes "files" (VList []);
  file_info ← py_index0 files;
  py_get file_info "file_id" (VStr EmptyString).

(** The request [OpenSubtitlesProvider.download] sends for a file id. *)
Definition download_request (self : OpenSubtitlesProvider) (w : World)
    (file_id : Z) : result response :=
  requests_post w (OpenSubtitlesProvider_API_URL +:+ "/download")
    (VDict [("file_id", VInt file_id)]) (_get_api_headers self).

(** A string of decimal digits. *)
Fixpoint all_digits (s : string) : Prop :=
  match s with
  | EmptyString => True
  | String c s' => (∃ d, c = pretty_N_char d) ∧ all_digits s'
  end.

(** Text of ASCII characters below DEL only. *)
Fixpoint plain (s : string) : Prop :=
  match s with
  | EmptyString => True
  | String c s' => (nat_of_ascii c < 127)%nat ∧ plain s'
  end.

(** A file name of one part: no slash, not empty, not a dot or two. *)
Definition single_name (name : string) : Prop :=
  posix_parts name = [name]
  ∧ name ≠ ".."
  ∧ String.prefix "/" name = false.

(** The parameters [OpenSubtitlesAPI.search] sends. *)
Definition api_search_params (query file_hash : option string)
    (languages : string) (imdb_id : option string) (season episode : option Z)
  : list (string * value) :=
  let params := [("languages", VStr languages)] in
  let params := set_if_str params "query" query in
  let params := set_if_str params "moviehash" file_hash in
  let params := set_if_str params "imdb_id" imdb_id in
  let params := set_if_int params "season_number" season in
  let params := set_if_int params "episode_number" episode in
  params.

(** The status lines of a trace. *)
Definition statuses (tr : list event) : list status :=
  omap (fun e => match e with
                 | EvStatus s => Some s
                 | _ => None
                 end) tr.

(* ===================================================================== *)
(** * src/utils/file_utils.py: extract_subtitle *)
(* ===================================================================== *)

(** The two archive libraries and the part of pathlib applied to member
    names. [zip_extract] and [rar_extract] are [archive.extract(name,
    destination)]: what the call does to the file system, and whether it
    raised. [path_of_string] is [Path(name)] and [path_div] is
    [destination / name], for a member name. *)
Record Unpacking := {
  RAR_SUPPORT : bool;
  zip_library : ZipLibrary;
  rar_library : ZipLibrary;
  zip_extract :
    @ZipArchive zip_library -> string -> Path -> filesystem
    -> filesystem * result unit;
  rar_extract :
    @ZipArchive rar_library -> string -> Path -> filesystem
    -> filesystem * result unit;
  path_of_string : string -> Path;
  path_div : Path -> string -> Path;
}.

(** [for name in names: if Path(name).suffix.lower() in
    SUBTITLE_EXTENSIONS: ...; break]: the name at which the loop body is
    entered, if any. *)
Fixpoint first_subtitle_member (u : Unpacking) (names : list string)
  : option string :=
  match names with
  | [] => None
  | name :: rest =>
      if bool_decide (lower (path_suffix (path_of_string u name))
                      ∈ SUBTITLE_EXTENSIONS)
      then Some name
      else first_subtitle_member u rest
  end.

(** The body of a [with ... as archive:] block. *)
Definition extract_member (u : Unpacking) {archive : Type}
    (extract : archive -> string -> Path -> filesystem
               -> filesystem * result unit)
    (zf : archive) (names : list string) (destination : Path)
    (fs : filesystem) : filesystem * result (option Path) :=
  let extracted_subtitle := None in
  match first_subtitle_member u names with
  | Some name =>
      match extract zf name destination fs with
      | (fs', Ok _) => (fs', Ok (Some (path_div u destination name)))
      | (fs', Raise e) => (fs', Raise e)
      end
  | None => (fs, Ok extracted_subtitle)
  end.

(** [extract_subtitle]: the file system afterwards and the path returned,
    or [None]. *)
Definition extract_subtitle (u : Unpacking) (archive_path destination : Path)
    (fs : filesystem) : filesystem * option Path :=
  let suffix := lower (path_suffix archive_path) in
  let '(fs', outcome) :=
    if String.eqb suffix ".zip" then
      match open_rb fs archive_path with
      | None => (fs, Raise (Exception "OSError"))
      | Some content =>
          match ZipFile (ZipLibrary := zip_library u) content with
          | Raise e => (fs, Raise e)
          | Ok zf =>
              extract_member u (zip_extract u) zf
                (namelist (ZipLibrary := zip_library u) zf) destination fs
          end
      end
    else if String.eqb suffix ".rar" && RAR_SUPPORT u then
      match open_rb fs archive_path with
      | None => (fs, Raise (Exception "OSError"))
      | Some content =>
          match ZipFile (ZipLibrary := rar_library u) content with
          | Raise e => (fs, Raise e)
          | Ok rf =>
              extract_member u (rar_extract u) rf
                (namelist (ZipLibrary := rar_library u) rf) destination fs
          end
      end
    else if bool_decide (suffix ∈ SUBTITLE_EXTENSIONS) then
      (fs, Ok (Some archive_path))
    else (fs, Ok None) in
  match outcome with
  | Ok extracted_subtitle => (fs', extracted_subtitle)
  | Raise _ => (fs', None)
  end.

(** What [extract_subtitle] does with an archive it could open, given the
    extraction call of the library: nothing when no member is a subtitle,
    else one extraction, of the first member that is one. *)
Definition unpacks_first_subtitle (u : Unpacking) {archive : Type}
    (extract : archive -> string -> Path -> filesystem
               -> filesystem * result unit)
    (zf : archive) (names : list string) (destination : Path)
    (fs : filesystem) (out : filesystem * option Path) : Prop :=
  match first_subtitle_member u names with
  | None => out = (fs, None)
  | Some name =>
      out = ((extract zf name destination fs).1,
             match (extract zf name destination fs).2 with
             | Ok _ => Some (path_div u destination name)
             | Raise _ => None
             end)
  end.

(* ===================================================================== *)
(** * Further test doubles *)
(* ===================================================================== *)

(** A folder with videos in three letter cases, a subtitle of one of
    them, a directory named like a video, and a video one level down. *)
Definition media_folder : filesystem :=
  {[ ["media"] := Dir;
     ["media"; "b.MKV"] := File [x00];
     ["media"; "a.mp4"] := File [x00];
     ["media"; "a.es.srt"] := File [x31];
     ["media"; "notes.txt"] := File [x00];
     ["media"; "d.avi"] := Dir;
     ["media"; "extras"] := Dir;
     ["media"; "extras"; "z.mkv"] := File [x00];
     ["media"; "Z.webm"] := File [x00];
     ["other"; "q.mkv"] := File [x00] ]}.

Definition media_state : state := {| st_fs := media_folder; st_trace := [] |}.

(** Two files of 128 KiB and one byte that differ in the middle byte
    only, and a file that is eight bytes longer than [large_file]. *)
Definition block : bytes := replicate (Z.to_nat 65536) x01.
Definition middle_00 : bytes := block ++ [x00] ++ block.
Definition middle_ff : bytes := block ++ [xff] ++ block.
Definition longer_file : bytes := replicate (Z.to_nat 131080) x01.

(** A world whose API finds one Spanish subtitle and whose download link
    answers 404 with an error page. *)
Definition error_page : bytes := [x34; x30; x34].

Definition broken_link_world : World :=
  mock_world "key" true
    (fun url _ _ =>
       if String.prefix "https://api." url
       then json_response (VDict [("data", one_hit)])
       else Ok {| status_code := 404;
                  json := Raise (Exception "JSONDecodeError");
                  resp_content := error_page;
                  resp_text := EmptyString;
                  resp_url := EmptyString |})
    (fun _ _ _ => json_response (VDict [("link", VStr "https://dl.example/7")]))
    title_only (Ok []) (mock_zip []).

(** An unpacking double on top of [mock_zip]: extraction writes the
    member, read as [zf_read] does, under the destination. *)
Definition mock_unpacking (archives : list (bytes * list (string * bytes)))
    (rar : bool) : Unpacking :=
  let extract :=
    fun (zf : list (string * bytes)) (name : string) (destination : Path)
        (fs : filesystem) =>
      match zf_read (ZipLibrary := mock_zip archives) zf name with
      | Ok data => (<[path_join destination name := File data]> fs, Ok tt)
      | Raise e => (fs, Raise e)
      end in
  {| RAR_SUPPORT := rar;
     zip_library := mock_zip archives;
     rar_library := mock_zip archives;
     zip_extract := extract;
     rar_extract := extract;
     path_of_string := fun name => [name];
     path_div := path_join |}.

Definition downloads_folder : filesystem :=
  {[ ["downloads"; "pack.ZIP"] := File txt_archive;
     ["downloads"; "plain.SRT"] := File plain_subtitle ]}.

(* ===================================================================== *)
(** * The two halves of [_do_search] *)
(* ===================================================================== *)

(** [_do_search] up to the end of its three stages. *)
Definition search_stages (w : World) (video_path : Path) : M value :=
  let video_name := path_name video_path in
  _update_status (StHashing video_name);;
  fs ← get_fs;
  let file_hash := get_file_hash fs video_path in
  info ← lift (parse_video_filename w video_name);
  let query := build_search_query info in
  _update_status StSearching;;
  let results := VList [] in
  results ←
    (if truthy (opt_str file_hash) && truthy (VStr (OPENSUBTITLES_API_KEY w))
     then
       _update_status StSearchingByHash;;
       emit (EvSearchHash (default EmptyString file_hash) (lang_var w));;
       mret (OpenSubtitlesAPI_search w None file_hash (lang_var w)
               None None None)
     else mret results);
  results ←
    (if negb (truthy results) && truthy (VStr (OPENSUBTITLES_API_KEY w))
     then
       _update_status (StSearchingByQuery query);;
       emit (EvSearchQuery query (lang_var w)
               (info_season info) (info_episode info));;
       mret (OpenSubtitlesAPI_search w (Some query) None (lang_var w)
               None (info_season info) (info_episode info))
     else mret results);
  results ←
    (if negb (truthy results) && SUBLIMINAL_AVAILABLE w
     then
       _update_status StSearchingFallback;;
       emit (EvSearchVideo video_path (lang_var w));;
       mret (SubliminalFallback_search_for_video w video_path (lang_var w))
     else mret results);
  mret results.

(** The closing lines of [_do_search], on the results of the stages. *)
Definition search_report (video_name : string) (results : value) : M value :=
  (if truthy results then
     first ← lift (py_index0 results);
     provider ← lift (py_get first "provider" (VStr "OpenSubtitles"));
     n ← lift (py_len results);
     _update_status (StFound n provider)
   else _update_status (StNotFound video_name));;
  mret results.

(** The status lines that close a search. *)
Definition closing_line (s : status) : bool :=
  match s with
  | StFound _ _ | StNotFound _ => true
  | _ => false
  end.

(* ===================================================================== *)
(** * Properties of get_file_hash *)
(* ===================================================================== *)

Section Fingerprint.

Lemma le_unsigned_bounds (bs : bytes) :
  0 ≤ le_unsigned bs < 256 ^ Z.of_nat (length bs).
Proof.
  induction bs as [|b bs IH].
  - simpl. lia.
  - cbn [le_unsigned fold_right length].
    fold (le_unsigned bs).
    pose proof (Byte.to_N_bounded b) as Hb.
    rewrite Nat2Z.inj_succ, Z.pow_succ_r by lia.
    lia.
Qed.

Lemma unpack_q_congruent (buffer : bytes) :
  Z.of_nat (length buffer) = 8 →
  ∃ l_value, unpack_q buffer = Some l_value
             ∧ l_value mod 2 ^ 64 = le_unsigned buffer.
Proof.
  intros Hlen. unfold unpack_q, bytesize.
  destruct (decide _) as [_|Hne]; [|contradiction].
  pose proof (le_unsigned_bounds buffer) as Hb.
  rewrite Hlen in Hb. change (256 ^ 8) with (2 ^ 64) in Hb.
  eexists; split; [reflexivity|].
  destruct (le_unsigned buffer <? 2 ^ 63) eqn:Hs.
  - apply Z.mod_small. exact Hb.
  - replace (le_unsigned buffer - 2 ^ 64)
      with (le_unsigned buffer + (-1) * 2 ^ 64) by ring.
    rewrite Z.mod_add by lia. apply Z.mod_small. exact Hb.
Qed.

Lemma mask_is_mod (x : Z) : Z.land x 0xFFFFFFFFFFFFFFFF = x mod 2 ^ 64.
Proof. change 0xFFFFFFFFFFFFFFFF with (Z.ones 64). apply Z.land_ones. lia. Qed.

Lemma words8_take_step (n : nat) (l : bytes) :
  (8 ≤ length l)%nat →
  words8 (take (8 + n) l) = le_unsigned (take 8 l) :: words8 (take n (drop 8 l)).
Proof.
  intros Hlen.
  do 8 (destruct l as [|? l]; [simpl in Hlen; lia|]).
  reflexivity.
Qed.

(** One pass of the loop over [n] full words starting at offset [pos]. *)
Lemma hash_loop_sum (n : nat) :
  ∀ (data : bytes) (pos hash_val : Z),
    0 ≤ pos →
    pos + 8 * Z.of_nat n ≤ Z.of_nat (length data) →
    ∃ hash_val',
      hash_loop n {| fh_data := data; fh_pos := pos |} hash_val
      = Some ({| fh_data := data; fh_pos := pos + 8 * Z.of_nat n |}, hash_val')
      ∧ hash_val' mod 2 ^ 64
        = (hash_val
           + sum_Z (words8 (take (8 * n) (drop (Z.to_nat pos) data))))
          mod 2 ^ 64
      ∧ ((0 < n)%nat → 0 ≤ hash_val' < 2 ^ 64).
Proof.
  induction n as [|n IH]; intros data pos hash_val Hpos Hlen.
  - exists hash_val. cbn [hash_loop]. repeat split; try lia.
    + replace (pos + 8 * Z.of_nat 0) with pos by lia. reflexivity.
    + rewrite Nat.mul_0_r. simpl. f_equal. lia.
  - cbn [hash_loop]. unfold fh_read. cbn [fh_data fh_pos].
    set (rest := drop (Z.to_nat pos) data).
    assert (Hrest : (8 + 8 * n ≤ length rest)%nat).
    { subst rest. rewrite length_drop. lia. }
    assert (Hbuf : length (take (Z.to_nat bytesize) rest) = 8%nat).
    { rewrite length_take. unfold bytesize. lia. }
    destruct (unpack_q_congruent (take (Z.to_nat bytesize) rest))
      as (l_value & Hunpack & Hval); [lia|].
    rewrite Hunpack, Hbuf.
    destruct (IH data (pos + Z.of_nat 8)
                (Z.land (hash_val + l_value) 0xFFFFFFFFFFFFFFFF))
      as (h' & Hrun & Hsum & _); [lia|lia|].
    exists h'. split; [|split].
    + rewrite Hrun.
      replace (pos + Z.of_nat 8 + 8 * Z.of_nat n)
        with (pos + 8 * Z.of_nat (S n)) by lia.
      reflexivity.
    + rewrite Hsum, mask_is_mod.
      replace (8 * S n)%nat with (8 + 8 * n)%nat by lia.
      rewrite words8_take_step by (fold rest; lia).
      fold rest.
      replace (drop (Z.to_nat (pos + Z.of_nat 8)) data) with (drop 8 rest).
      2:{ subst rest. rewrite drop_drop. f_equal. lia. }
      cbn [sum_Z fold_right]. fold (sum_Z (words8 (take (8 * n) (drop 8 rest)))).
      change (Z.to_nat bytesize) with 8%nat in Hval.
      rewrite <- Hval.
      set (rest_sum := sum_Z (words8 (take (8 * n) (drop 8 rest)))).
      rewrite Z.add_mod_idemp_l by lia.
      replace (hash_val + (l_value mod 2 ^ 64 + rest_sum))
        with (l_value mod 2 ^ 64 + (hash_val + rest_sum)) by ring.
      rewrite Z.add_mod_idemp_l by lia. f_equal. ring.
    + intros _.
      destruct n as [|n'].
      * cbn [hash_loop] in Hrun. injection Hrun as _ <-.
        rewrite mask_is_mod. apply Z.mod_pos_bound. lia.
      * destruct (IH data (pos + Z.of_nat 8)
                    (Z.land (hash_val + l_value) 0xFFFFFFFFFFFFFFFF))
          as (h'' & Hrun' & _ & Hrange); [lia|lia|].
        rewrite Hrun in Hrun'. injection Hrun' as <-. apply Hrange. lia.
Qed.

(** ** The hexadecimal conversion *)

Lemma hex_digit_roundtrip (d : Z) :
  0 ≤ d < 16 → hex_digit_value (hex_digit d) = Some d.
Proof.
  intros Hd.
  assert (d = 0 ∨ d = 1 ∨ d = 2 ∨ d = 3 ∨ d = 4 ∨ d = 5 ∨ d = 6 ∨ d = 7
          ∨ d = 8 ∨ d = 9 ∨ d = 10 ∨ d = 11 ∨ d = 12 ∨ d = 13 ∨ d = 14
          ∨ d = 15) as Hcases by lia.
  repeat (destruct Hcases as [-> | Hcases]; [reflexivity|]).
  subst d. reflexivity.
Qed.

Lemma hex_of_S (k : nat) (v : Z) (acc : string) :
  hex_of (S k) v acc
  = if v / 16 =? 0 then String (hex_digit (v mod 16)) acc
    else hex_of k (v / 16) (String (hex_digit (v mod 16)) acc).
Proof. reflexivity. Qed.

Lemma hex_of_value (fuel : nat) :
  ∀ (m : nat) (v : Z) (acc : string),
    (m ≤ fuel)%nat →
    0 ≤ v < 16 ^ Z.of_nat (S m) →
    ∃ k : nat,
      (1 ≤ k ≤ S m)%nat
      ∧ String.length (hex_of (S fuel) v acc) = (k + String.length acc)%nat
      ∧ ∀ a, hex_value_from a (hex_of (S fuel) v acc)
             = hex_value_from (a * 16 ^ Z.of_nat k + v) acc.
Proof.
  induction fuel as [|fuel IH]; intros m v acc Hm Hv.
  - assert (m = 0%nat) as -> by lia. change (16 ^ Z.of_nat 1) with 16 in Hv.
    rewrite hex_of_S.
    assert (v / 16 = 0) as Hq by (apply Z.div_small; lia).
    rewrite Hq. cbn [Z.eqb].
    exists 1%nat. repeat split; try lia. intros a.
    cbn [hex_value_from]. rewrite hex_digit_roundtrip by (apply Z.mod_pos_bound; lia).
    rewrite Z.mod_small by lia. f_equal. change (16 ^ Z.of_nat 1) with 16. lia.
  - rewrite (hex_of_S (S fuel)). destruct (v / 16 =? 0) eqn:Hq.
    + apply Z.eqb_eq in Hq.
      assert (v < 16).
      { pose proof (Z.div_mod v 16 ltac:(lia)) as Hdm.
        pose proof (Z.mod_pos_bound v 16 ltac:(lia)). lia. }
      exists 1%nat. repeat split; try lia. intros a.
      cbn [hex_value_from].
      rewrite hex_digit_roundtrip by (apply Z.mod_pos_bound; lia).
      rewrite Z.mod_small by lia. f_equal. change (16 ^ Z.of_nat 1) with 16. lia.
    + apply Z.eqb_neq in Hq.
      destruct m as [|m].
      { change (16 ^ Z.of_nat 1) with 16 in Hv.
        exfalso. apply Hq. apply Z.div_small. lia. }
      assert (Hv' : 0 ≤ v / 16 < 16 ^ Z.of_nat (S m)).
      { split; [apply Z.div_pos; lia|].
        apply Z.div_lt_upper_bound; [lia|].
        rewrite (Nat2Z.inj_succ (S m)), Z.pow_succ_r in Hv by lia. lia. }
      destruct (IH m (v / 16) (String (hex_digit (v mod 16)) acc)
                  ltac:(lia) Hv') as (k & Hk & Hlen & Hval).
      exists (S k). split; [lia|]. split.
      * rewrite Hlen. cbn [String.length]. lia.
      * intros a. rewrite Hval. cbn [hex_value_from].
        rewrite hex_digit_roundtrip by (apply Z.mod_pos_bound; lia).
        f_equal. rewrite (Nat2Z.inj_succ k), Z.pow_succ_r by lia.
        pose proof (Z.div_mod v 16 ltac:(lia)). lia.
Qed.

Lemma zeros_length (n : nat) : String.length (zeros n) = n.
Proof.
  induction n as [|n IH]; [reflexivity|].
  cbn [zeros String.length]. now rewrite IH.
Qed.

Lemma string_app_length (s t : string) :
  String.length (s +:+ t) = (String.length s + String.length t)%nat.
Proof.
  induction s as [|c s IH]; [reflexivity|].
  simpl. now rewrite IH.
Qed.

Lemma hex_value_zeros (n : nat) (s : string) :
  hex_value_from 0 (zeros n +:+ s) = hex_value_from 0 s.
Proof. induction n; simpl; auto. Qed.

(** ["%016x"] of a 64-bit value: sixteen lowercase digits that read back
    as the value. *)
Lemma format_016x_digits (v : Z) :
  0 ≤ v < 2 ^ 64 →
  String.length (format_016x v) = 16%nat
  ∧ hex_value (format_016x v) = Some v.
Proof.
  intros Hv. unfold format_016x, format_x, hex_value.
  destruct (v <? 0) eqn:Hneg; [lia|].
  set (m := Z.to_nat (Z.log2 v / 4)).
  assert (Hlog : 0 ≤ Z.log2 v ≤ 63).
  { split; [apply Z.log2_nonneg|].
    destruct (Z.eq_dec v 0) as [->|Hnz]; [simpl; lia|].
    assert (Z.log2 v < 64) by (apply Z.log2_lt_pow2; lia). lia. }
  assert (Hbound : 0 ≤ v < 16 ^ Z.of_nat (S m)).
  { split; [lia|].
    destruct (Z.eq_dec v 0) as [->|Hnz]; [apply Z.pow_pos_nonneg; lia|].
    pose proof (Z.log2_spec v ltac:(lia)) as [_ Hup].
    eapply Z.lt_le_trans; [exact Hup|].
    change 16 with (2 ^ 4). rewrite <- Z.pow_mul_r by lia.
    apply Z.pow_le_mono_r; [lia|].
    subst m. rewrite Nat2Z.inj_succ, Z2Nat.id by (apply Z.div_pos; lia).
    pose proof (Z.div_mod (Z.log2 v) 4 ltac:(lia)).
    pose proof (Z.mod_pos_bound (Z.log2 v) 4 ltac:(lia)). lia. }
  assert (Hfuel : (m ≤ Z.to_nat (Z.log2 v))%nat).
  { subst m. apply Z2Nat.inj_le; [apply Z.div_pos; lia|lia|].
    apply Z.div_le_upper_bound; lia. }
  destruct (hex_of_value (Z.to_nat (Z.log2 v)) m v EmptyString Hfuel Hbound)
    as (k & Hk & Hlen & Hval).
  assert (Hm : (m ≤ 15)%nat).
  { assert (Z.log2 v / 4 < 16) by (apply Z.div_lt_upper_bound; lia).
    subst m. lia. }
  cbn [String.length] in Hlen.
  split.
  - rewrite string_app_length, zeros_length, Hlen. lia.
  - rewrite hex_value_zeros, Hval. cbn [hex_value_from]. f_equal; lia.
Qed.

End Fingerprint.

(** C2. [get_file_hash] depends on the size and contents of the file only.
    For a file of at least 131072 bytes it returns the digest
    ["%016x" % fingerprint]: sixteen lowercase hexadecimal digits whose
    value is the file size plus the sum of the 8-byte little-endian words
    of the first and of the last 65536 bytes, modulo 2^64. For a smaller
    file it returns [None]. *)
Theorem get_file_hash_fingerprint (fs : filesystem) (filepath : Path)
    (data : bytes) :
  fs !! filepath = Some (File data) →
  (131072 ≤ Z.of_nat (length data) →
   get_file_hash fs filepath = Some (format_016x (spec_fingerprint data))
   ∧ String.length (format_016x (spec_fingerprint data)) = 16%nat
   ∧ hex_value (format_016x (spec_fingerprint data))
     = Some (spec_fingerprint data))
  ∧ (Z.of_nat (length data) < 131072 → get_file_hash fs filepath = None).
Proof.
  intros Hfile. unfold get_file_hash, open_rb. rewrite Hfile.
  unfold get_file_hash_body. split.
  - intros Hsize.
    destruct (Z.of_nat (length data) <? 65536 * 2) eqn:Hsmall; [lia|].
    replace (65536 / bytesize) with 8192 by reflexivity.
    destruct (hash_loop_sum (Z.to_nat 8192) data 0 (Z.of_nat (length data)))
      as (h1 & Hrun1 & Hsum1 & _); [lia|lia|].
    rewrite Hrun1. unfold fh_seek. cbn [fh_data].
    rewrite Z.max_r by lia.
    destruct (hash_loop_sum (Z.to_nat 8192) data
                (Z.of_nat (length data) - 65536) h1)
      as (h2 & Hrun2 & Hsum2 & Hrange); [lia|lia|].
    rewrite Hrun2.
    assert (Hh2 : h2 = spec_fingerprint data).
    { rewrite <- (Z.mod_small h2 (2 ^ 64)) by (apply Hrange; lia).
      rewrite Hsum2. unfold spec_fingerprint.
      replace (8 * Z.to_nat 8192)%nat with (Z.to_nat 65536) in * by lia.
      change (Z.to_nat 0) with 0%nat in Hsum1. rewrite drop_0 in Hsum1.
      rewrite (take_ge (drop _ data)) by (rewrite length_drop; lia).
      rewrite <- (Z.add_mod_idemp_l h1), Hsum1 by lia.
      rewrite Z.add_mod_idemp_l by lia. reflexivity. }
    rewrite Hh2.
    assert (Hr : 0 ≤ spec_fingerprint data < 2 ^ 64).
    { unfold spec_fingerprint. apply Z.mod_pos_bound. lia. }
    destruct (format_016x_digits _ Hr) as [Hlen Hval].
    auto.
  - intros Hsize.
    destruct (Z.of_nat (length data) <? 65536 * 2) eqn:Hsmall; [reflexivity|lia].
Qed.

(* ===================================================================== *)
(** * The orchestrator: running the monadic code *)
(* ===================================================================== *)

Ltac unfold_monad :=
  unfold mbind, mret, M_bind, M_ret, result_bind, result_ret, lift, emit,
    _update_status, try_except, get_fs, write_file in *.

(** Case analysis on the innermost scrutinee the goal is stuck on. *)
Ltac innermost_destruct :=
  match goal with
  | |- context [match ?x with _ => _ end] =>
      lazymatch x with
      | context [match _ with _ => _ end] => fail
      | _ => destruct x eqn:?
      end
  end.

Ltac run := unfold_monad; cbn; repeat (innermost_destruct; cbn).

(** Rewrite with the equations the case analysis left in the context. *)
Ltac same_scrutinee :=
  repeat match goal with
         | H : ?t = _ |- context [?t] => rewrite H
         | H1 : ?t = _, H2 : ?t = _ |- _ => rewrite H1 in H2
         end.

Lemma path_name_join (folder : Path) (name : string) :
  path_name (path_join folder name) = name.
Proof. unfold path_name, path_join. apply last_last. Qed.

Lemma path_parent_join (folder : Path) (name : string) :
  path_parent (path_join folder name) = folder.
Proof. unfold path_parent, path_join. apply removelast_last. Qed.

Section Orchestrator.

#[local] Arguments OpenSubtitlesAPI_search : simpl never.
#[local] Arguments OpenSubtitlesAPI_download : simpl never.
#[local] Arguments SubliminalFallback_search_for_video : simpl never.
#[local] Arguments SubliminalFallback_download : simpl never.
#[local] Arguments get_file_hash : simpl never.
#[local] Arguments _extract_subtitle_content : simpl never.
#[local] Arguments build_search_query : simpl never.
#[local] Arguments path_stem : simpl never.
#[local] Arguments path_parent : simpl never.
#[local] Arguments path_name : simpl never.
#[local] Arguments path_join : simpl never.
#[local] Arguments py_str : simpl never.
#[local] Arguments py_get : simpl never.
#[local] Arguments py_index0 : simpl never.
#[local] Arguments py_contains : simpl never.
#[local] Arguments py_len : simpl never.
#[local] Arguments fetch : simpl never.
#[local] Arguments truthy : simpl nomatch.
#[local] Arguments batch_body : simpl never.
#[local] Arguments batch_loop : simpl nomatch.
#[local] Arguments String.append : simpl never.
#[local] Arguments app : simpl never.

Lemma hex_of_nonempty (fuel : nat) :
  ∀ v acc, acc ≠ EmptyString → hex_of fuel v acc ≠ EmptyString.
Proof.
  induction fuel as [|fuel IH]; intros v acc Hacc; [exact Hacc|].
  rewrite hex_of_S. destruct (v / 16 =? 0); [discriminate|].
  apply IH. discriminate.
Qed.

Lemma format_016x_nonempty (v : Z) : format_016x v ≠ EmptyString.
Proof.
  unfold format_016x. destruct (v <? 0); [discriminate|].
  intros Heq. apply (f_equal String.length) in Heq.
  rewrite string_app_length in Heq. cbn [String.length] in Heq.
  assert (Hx : format_x v ≠ EmptyString).
  { unfold format_x. rewrite hex_of_S.
    destruct (v / 16 =? 0); [discriminate|].
    apply hex_of_nonempty. discriminate. }
  destruct (format_x v); [congruence|]. cbn [String.length] in Heq. lia.
Qed.

(** A fingerprint, when there is one, is a non-empty string: [if file_hash]
    tests whether there is one. *)
Lemma get_file_hash_truthy (fs : filesystem) (p : Path) :
  truthy (opt_str (get_file_hash fs p)) = true ↔ is_Some (get_file_hash fs p).
Proof.
  unfold get_file_hash. destruct (open_rb fs p) as [data|]; cbn.
  2:{ split; [discriminate|intros [? ?]; discriminate]. }
  unfold get_file_hash_body.
  destruct (_ <? _); cbn.
  { split; [discriminate|intros [? ?]; discriminate]. }
  destruct (hash_loop _ _ _) as [[f h]|]; cbn.
  2:{ split; [discriminate|intros [? ?]; discriminate]. }
  destruct (hash_loop _ _ _) as [[f' h']|]; cbn.
  2:{ split; [discriminate|intros [? ?]; discriminate]. }
  pose proof (format_016x_nonempty h') as Hne.
  destruct (format_016x h'); [congruence|]. cbn. split; eauto.
Qed.

Lemma stages_app (a b : list event) : stages (a ++ b) = stages a ++ stages b.
Proof. unfold stages. apply omap_app. Qed.

(** The stages of one video, run on their own. *)
Lemma batch_stages_order (w : World) (video_path : Path) (info : parsed_info)
    (st : state) :
  ∃ new results,
    batch_stages w video_path info (get_file_hash (st_fs st) video_path) st
    = ({| st_fs := st_fs st; st_trace := st_trace st ++ new |}, Ok results)
    ∧ announced new = [] ∧ written new = []
    ∧ fallback_order w (st_fs st) video_path info (stages new).
Proof.
  pose proof (get_file_hash_truthy (st_fs st) video_path) as Hhash.
  unfold batch_stages, fallback_order, hash_results, query_results,
    key_configured.
  destruct (truthy (opt_str (get_file_hash (st_fs st) video_path))) eqn:Hh;
    destruct (truthy (VStr (OPENSUBTITLES_API_KEY w))) eqn:Hkey;
    destruct (truthy (OpenSubtitlesAPI_search w None
                (get_file_hash (st_fs st) video_path) (lang_var w)
                None None None)) eqn:Hr1;
    destruct (truthy (OpenSubtitlesAPI_search w
                (Some (build_search_query info)) None (lang_var w) None
                (info_season info) (info_episode info))) eqn:Hr2;
    destruct (SUBLIMINAL_AVAILABLE w) eqn:Hsub;
    unfold_monad;
    repeat progress (cbn; rewrite ?Hr1, ?Hr2, ?Hkey, ?Hsub).
  all: rewrite <- ?app_assoc.
  all: do 2 eexists;
    (split; [first [reflexivity
                   | destruct st; cbn; rewrite (app_nil_r _); reflexivity]|]).
  all: cbv [stages announced written omap list_omap stage_of app].
  all: split; [reflexivity|]; split; [reflexivity|].
  all: split; [repeat constructor|].
  all: rewrite ?elem_of_cons, ?elem_of_nil.
  all: intuition (try congruence; try discriminate).
Qed.

(** [batch_body] is its stages followed by the download of the first
    result. *)
Lemma batch_body_split (w : World) (video_path : Path) (video_name : string)
    (downloaded : Z) (st : state) :
  batch_body w video_path video_name downloaded st
  = (info ← lift (parse_video_filename w video_name);
     results ← batch_stages w video_path info
                 (get_file_hash (st_fs st) video_path);
     batch_download w video_path downloaded results) st.
Proof.
  unfold batch_body, batch_stages, batch_download.
  destruct (parse_video_filename w video_name) as [info|e]; [|reflexivity].
  destruct (truthy (opt_str (get_file_hash (st_fs st) video_path))) eqn:Hh;
    destruct (truthy (VStr (OPENSUBTITLES_API_KEY w))) eqn:Hkey;
    destruct (truthy (OpenSubtitlesAPI_search w None
                (get_file_hash (st_fs st) video_path) (lang_var w)
                None None None)) eqn:Hr1;
    destruct (truthy (OpenSubtitlesAPI_search w
                (Some (build_search_query info)) None (lang_var w) None
                (info_season info) (info_episode info))) eqn:Hr2;
    destruct (SUBLIMINAL_AVAILABLE w) eqn:Hsub;
    unfold_monad;
    repeat progress (cbn; rewrite ?Hh, ?Hr1, ?Hr2, ?Hkey, ?Hsub);
    reflexivity.
Qed.

Lemma batch_download_run (w : World) (video : Path) (d : Z) (results : value)
    (st : state) :
  ∃ new,
    st_trace (batch_download w video d results st).1 = st_trace st ++ new
    ∧ stages new = [] ∧ announced new = []
    ∧ (((batch_download w video d results st).2 = Ok (d + 1)
        ∧ ∃ sub language content,
            py_index0 results = Ok sub
            ∧ result_language sub = Ok language
            ∧ download_yields w sub video content
            ∧ persisted_at st (batch_download w video d results st).1 new
                (subtitle_path w video language)
                (_extract_subtitle_content (zip := zipfile w) content))
       ∨ (((batch_download w video d results st).2 = Ok d
           ∨ ∃ e, (batch_download w video d results st).2 = Raise e)
          ∧ nothing_persisted st (batch_download w video d results st).1 new))
    ∧ (∀ sub provider,
         py_index0 results = Ok sub →
         result_provider sub = Ok provider →
         match py_contains "Subliminal" provider with
         | Ok true =>
             aggregator_downloads new = [sub] ∧ api_downloads new = []
         | _ => aggregator_downloads new = []
         end).
Proof.
  unfold download_yields.
  unfold batch_download, persisted_at, nothing_persisted, result_language,
    result_provider, subtitle_path, subtitle_name.
  run.
  all: rewrite <- ?app_assoc.
  all: eexists; (split; [first [reflexivity | symmetry; apply app_nil_r]|]).
  all: cbv [stages announced written aggregator_downloads api_downloads
            omap list_omap stage_of app].
  all: split; [reflexivity|]; split; [reflexivity|]; split.
  all: try solve
         [ right; split;
           [ first [left; reflexivity | right; eexists; reflexivity]
           | split; reflexivity ]
         | left; split; [reflexivity|];
           do 3 eexists; split; [reflexivity|];
           split; [same_scrutinee; first [eassumption | reflexivity]|];
           split; [|split; reflexivity];
           split; [discriminate|];
           do 2 eexists; split; [first [eassumption | reflexivity]|];
           split; [first [eassumption | reflexivity]|];
           first [ left; split; [first [eassumption | reflexivity]|];
                   first [eassumption | reflexivity]
                 | right; split; [first [eassumption | reflexivity]|];
                   do 4 eexists;
                   repeat (split; [first [eassumption | reflexivity
                                         | apply Z.eqb_eq; assumption]|]);
                   first [eassumption | reflexivity] ] ].
  all: intros sub provider Hsub Hprovider; simplify_eq.
  all: same_scrutinee; simplify_eq.
  all: same_scrutinee; try (split; reflexivity); try reflexivity.
  - unfold py_get in *; destruct sub; simpl in *; congruence.
  - unfold py_index0 in *.
    destruct results as [| | | |s0|b0|l0|d0|]; simpl in *; try congruence;
      [destruct s0|destruct b0|destruct l0]; simpl in *; congruence.
Qed.

Lemma written_app (a b : list event) : written (a ++ b) = written a ++ written b.
Proof. unfold written. apply omap_app. Qed.

Lemma announced_app (a b : list event) :
  announced (a ++ b) = announced a ++ announced b.
Proof. unfold announced. apply omap_app. Qed.

(** One video of the batch: its stages follow the fallback policy, and it
    either writes one subtitle file and counts it, or changes nothing and
    leaves the counter alone. *)
Lemma batch_body_run (w : World) (video : Path) (d : Z) (st : state) :
  ∃ new,
    st_trace (batch_body w video (path_name video) d st).1
    = st_trace st ++ new
    ∧ announced new = []
    ∧ match parse_video_filename w (path_name video) with
      | Ok info => fallback_order w (st_fs st) video info (stages new)
      | Raise _ => stages new = []
      end
    ∧ (((batch_body w video (path_name video) d st).2 = Ok (d + 1)
        ∧ ∃ sub language content,
            result_language sub = Ok language
            ∧ download_yields w sub video content
            ∧ persisted_at st (batch_body w video (path_name video) d st).1
                new (subtitle_path w video language)
                (_extract_subtitle_content (zip := zipfile w) content))
       ∨ (((batch_body w video (path_name video) d st).2 = Ok d
           ∨ ∃ e, (batch_body w video (path_name video) d st).2 = Raise e)
          ∧ nothing_persisted st
              (batch_body w video (path_name video) d st).1 new)).
Proof.
  rewrite batch_body_split.
  change ((info ← lift (parse_video_filename w (path_name video));
           results ← batch_stages w video info
                       (get_file_hash (st_fs st) video);
           batch_download w video d results) st)
    with (match parse_video_filename w (path_name video) with
          | Ok info =>
              match batch_stages w video info
                      (get_file_hash (st_fs st) video) st with
              | (st', Ok results) => batch_download w video d results st'
              | (st', Raise e) => (st', Raise e)
              end
          | Raise e => (st, Raise e)
          end).
  destruct (parse_video_filename w (path_name video)) as [info|e].
  2:{ exists []. cbn. rewrite app_nil_r.
      repeat split; try reflexivity.
      right. split; [right; eauto|]. split; reflexivity. }
  destruct (batch_stages_order w video info st)
    as (new1 & results & Hrun1 & Hann1 & Hwr1 & Horder).
  rewrite Hrun1.
  set (st1 := {| st_fs := st_fs st; st_trace := st_trace st ++ new1 |}).
  destruct (batch_download_run w video d results st1)
    as (new2 & Htr2 & Hst2 & Hann2 & Hpersist & _).
  exists (new1 ++ new2).
  split; [rewrite Htr2; subst st1; cbn; apply eq_sym, app_assoc|].
  split; [rewrite announced_app, Hann1, Hann2; reflexivity|].
  split; [rewrite stages_app, Hst2, app_nil_r; exact Horder|].
  unfold persisted_at, nothing_persisted in *.
  rewrite written_app, Hwr1. cbn [app].
  subst st1. cbn [st_fs] in Hpersist.
  destruct Hpersist
    as [(Hok & sub & language & content & _ & Hlang & Hdl & Hps)|Hnone].
  - left. split; [exact Hok|]. exists sub, language, content. auto.
  - right. exact Hnone.
Qed.

(** The stages of the single-video search. *)
Lemma _do_search_order (w : World) (video_path : Path) (st : state) :
  ∃ new,
    st_trace (_do_search w video_path st).1 = st_trace st ++ new
    ∧ match parse_video_filename w (path_name video_path) with
      | Ok info => fallback_order w (st_fs st) video_path info (stages new)
      | Raise _ => stages new = []
      end.
Proof.
  pose proof (get_file_hash_truthy (st_fs st) video_path) as Hhash.
  unfold _do_search, fallback_order, hash_results, query_results,
    key_configured.
  destruct (parse_video_filename w (path_name video_path)) as [info|e].
  2:{ unfold_monad. cbn. eexists. split; reflexivity. }
  destruct (truthy (opt_str (get_file_hash (st_fs st) video_path))) eqn:Hh;
    destruct (truthy (VStr (OPENSUBTITLES_API_KEY w))) eqn:Hkey;
    destruct (truthy (OpenSubtitlesAPI_search w None
                (get_file_hash (st_fs st) video_path) (lang_var w)
                None None None)) eqn:Hr1;
    destruct (truthy (OpenSubtitlesAPI_search w
                (Some (build_search_query info)) None (lang_var w) None
                (info_season info) (info_episode info))) eqn:Hr2;
    destruct (SUBLIMINAL_AVAILABLE w) eqn:Hsub;
    unfold_monad;
    repeat progress (cbn; rewrite ?Hh, ?Hr1, ?Hr2, ?Hkey, ?Hsub).
  all: repeat (innermost_destruct; cbn).
  all: rewrite <- ?app_assoc.
  all: eexists; (split; [reflexivity|]).
  all: cbv [stages omap list_omap stage_of app].
  all: split; [repeat constructor|].
  all: rewrite ?elem_of_cons, ?elem_of_nil.
  all: intuition (try congruence; try discriminate).
Qed.

(** The loop of the batch: every video gets its segment, whatever happened
    to the videos before it, and the counter grows by the number of
    segments with a write. *)
Lemma batch_loop_run (w : World) (total : Z) (videos : list Path) :
  ∀ (i d : Z) (st : state),
    ∃ st' segments,
      batch_loop w total i videos d st
      = (st', Ok (d + Z.of_nat (length (List.filter wrote segments))))
      ∧ st_trace st' = st_trace st ++ concat segments
      ∧ batch_segments w total i videos segments.
Proof.
  induction videos as [|video videos IH]; intros i d st.
  - exists st, []. cbn. rewrite app_nil_r, Z.add_0_r. auto.
  - cbn [batch_loop].
    set (st0 := {| st_fs := st_fs st;
                   st_trace := st_trace st
                               ++ [EvStatus (StProcessing (i + 1) total
                                               (path_name video))] |}).
    destruct (batch_body_run w video d st0)
      as (new0 & Htrace0 & Hann0 & _ & Hpersist0).
    unfold_monad. cbn. fold st0.
    destruct (batch_body w video (path_name video) d st0) as [st1 r] eqn:Hrun.
    cbn [fst snd] in *.
    assert (Hstep : ∃ d1,
               (d1 = d + (if wrote new0 then 1 else 0))
               ∧ match r with Ok a => (st1, Ok a) | Raise _ => (st1, Ok d) end
                 = (st1, Ok d1)
               ∧ (written new0 = []
                  ∨ ∃ language data,
                      written new0 = [(subtitle_path w video language, data)])).
    { unfold persisted_at, nothing_persisted, wrote in *.
      destruct Hpersist0 as [(-> & sub & language & data & _ & _ & Hw & _)
                            |([->|[e ->]] & Hw & _)];
        rewrite Hw; eexists; (split; [reflexivity|]);
        (split; [f_equal; f_equal; lia|]); eauto. }
    destruct Hstep as (d1 & Hd1 & Hr & Hwritten).
    assert (Hloop : (let (st', r0) :=
                       match r with
                       | Ok a => (st1, Ok a)
                       | Raise _ => (st1, Ok d)
                       end in
                     match r0 with
                     | Ok a => batch_loop w total (i + 1) videos a st'
                     | Raise e => (st', Raise e)
                     end)
                    = batch_loop w total (i + 1) videos d1 st1).
    { destruct r; injection Hr as <-; reflexivity. }
    destruct (IH (i + 1) d1 st1) as (st' & segments & Hrest & Htr & Hsegs).
    exists st',
      ((EvStatus (StProcessing (i + 1) total (path_name video)) :: new0)
       :: segments).
    split; [|split].
    + etransitivity; [|etransitivity; [exact Hrest|]].
      * destruct r; cbn; try reflexivity.
        -- injection Hr as <-. reflexivity.
        -- injection Hr as <-. reflexivity.
      * do 2 f_equal. cbn [List.filter].
        assert (wrote (EvStatus (StProcessing (i + 1) total (path_name video))
                       :: new0) = wrote new0) as -> by reflexivity.
        subst d1. destruct (wrote new0); cbn [length]; lia.
    + rewrite Htr, Htrace0. subst st0. cbn [st_trace concat].
      rewrite <- !app_assoc. reflexivity.
    + cbn [batch_segments]. split; [|exact Hsegs].
      eexists. split; [reflexivity|]. split; assumption.
Qed.

End Orchestrator.

Section Download.

#[local] Arguments OpenSubtitlesAPI_search : simpl never.
#[local] Arguments OpenSubtitlesAPI_download : simpl never.
#[local] Arguments SubliminalFallback_search_for_video : simpl never.
#[local] Arguments SubliminalFallback_download : simpl never.
#[local] Arguments get_file_hash : simpl never.
#[local] Arguments _extract_subtitle_content : simpl never.
#[local] Arguments path_stem : simpl never.
#[local] Arguments path_parent : simpl never.
#[local] Arguments path_name : simpl never.
#[local] Arguments path_join : simpl never.
#[local] Arguments py_str : simpl never.
#[local] Arguments py_get : simpl never.
#[local] Arguments py_index0 : simpl never.
#[local] Arguments py_contains : simpl never.
#[local] Arguments fetch : simpl never.
#[local] Arguments truthy : simpl nomatch.
#[local] Arguments String.append : simpl never.
#[local] Arguments app : simpl never.
#[local] Arguments write_file : simpl never.

(** One download of a selected result: where the file goes and which
    download mechanism is called. *)
Lemma _do_download_run (w : World) (video : Path) (subtitle : value)
    (st : state) :
  ∃ new,
    st_trace (_do_download w video subtitle st).1 = st_trace st ++ new
    ∧ ((∃ language content,
          result_language subtitle = Ok language
          ∧ download_yields w subtitle video content
          ∧ persisted_at st (_do_download w video subtitle st).1 new
              (subtitle_path w video language)
              (_extract_subtitle_content (zip := zipfile w) content))
       ∨ nothing_persisted st (_do_download w video subtitle st).1 new)
    ∧ (∀ provider,
         result_provider subtitle = Ok provider →
         match py_contains "Subliminal" provider with
         | Ok true =>
             aggregator_downloads new = [subtitle] ∧ api_downloads new = []
         | Ok false =>
             aggregator_downloads new = []
             ∧ api_downloads new
               = match result_file_id subtitle with
                 | Some file_id => two_step_download w file_id
                 | None => []
                 end
         | Raise _ => aggregator_downloads new = [] ∧ api_downloads new = []
         end).
Proof.
  unfold download_yields, result_file_id, two_step_download.
  unfold _do_download, persisted_at, nothing_persisted, result_language,
    result_provider, subtitle_path, subtitle_name.
  run.
  all: rewrite <- ?app_assoc.
  all: eexists; (split; [first [reflexivity | symmetry; apply app_nil_r]|]).
  all: cbv [written aggregator_downloads api_downloads omap list_omap app].
  all: split.
  all: try solve
         [ right; split; reflexivity
         | left; do 2 eexists; split; [reflexivity|];
           split; [|split; reflexivity];
           split; [discriminate|];
           do 2 eexists; split; [reflexivity|];
           split; [first [eassumption | reflexivity]|];
           first [ left; split; [first [eassumption | reflexivity]|];
                   first [eassumption|reflexivity]
                 | right; split; [first [eassumption | reflexivity]|];
                   do 4 eexists;
                   repeat (split; [first [eassumption | reflexivity
                                         | apply Z.eqb_eq; assumption]|]);
                   first [eassumption | reflexivity] ] ].
  all: intros provider Hprovider; simplify_eq.
  all: same_scrutinee; simplify_eq.
  all: same_scrutinee; try (split; reflexivity); try reflexivity.
  unfold py_get in *; destruct subtitle; simpl in *; congruence.
Qed.



End Download.

(** C1. For a video processed by the single-video search or by one
    iteration of the batch, the provider stages entered form a sublist
    of hash search, query search, aggregator fallback, in that order. The
    hash search is entered exactly when a fingerprint is available and the
    API key is configured; the query search exactly when the key is
    configured and the hash search, if it ran, found nothing; the
    fallback exactly when the aggregator is available and every earlier
    stage that ran found nothing. A stage that finds something is the last
    one entered. When the file name cannot be parsed, no stage is
    entered. *)
Theorem provider_stages_in_fixed_order (w : World) (video_path : Path)
    (downloaded : Z) (st : state) :
  ∃ searched batched,
    st_trace (_do_search w video_path st).1 = st_trace st ++ searched
    ∧ st_trace (batch_body w video_path (path_name video_path) downloaded st).1
      = st_trace st ++ batched
    ∧ match parse_video_filename w (path_name video_path) with
      | Ok info =>
          fallback_order w (st_fs st) video_path info (stages searched)
          ∧ fallback_order w (st_fs st) video_path info (stages batched)
      | Raise _ => stages searched = [] ∧ stages batched = []
      end.
Proof.
  destruct (_do_search_order w video_path st) as (searched & Hs & Hsearch).
  destruct (batch_body_run w video_path downloaded st)
    as (batched & Hb & _ & Hbatch & _).
  exists searched, batched. split; [exact Hs|]. split; [exact Hb|].
  destruct (parse_video_filename w (path_name video_path)); split; assumption.
Qed.


(** A persisted file replaces whatever was stored under its name and
    leaves every other path alone. *)
Lemma persisted_at_overwrites (st st' : state) (new : list event)
    (path : Path) (data : bytes) :
  persisted_at st st' new path data →
  st_fs st' !! path = Some (File data)
  ∧ ∀ other, other ≠ path → st_fs st' !! other = st_fs st !! other.
Proof.
  intros (_ & ->). split.
  - apply lookup_insert_eq.
  - intros other Hne. apply lookup_insert_ne. congruence.
Qed.


(* ===================================================================== *)
(** * Properties of _extract_subtitle_content *)
(* ===================================================================== *)

Section Extraction.
Context {zip : ZipLibrary}.

Lemma bytes_eqb_eq (a b : bytes) : bytes_eqb a b = true ↔ a = b.
Proof.
  revert b. induction a as [|x a IH]; intros [|y b]; cbn; try easy.
  rewrite andb_true_iff, IH. split.
  - intros [Hxy ->]. apply Byte.byte_dec_bl in Hxy. now subst.
  - intros [= -> ->]. split; [|reflexivity]. now apply Byte.byte_dec_lb.
Qed.

(** The loop over the names stops at the first name with the suffix. *)
Lemma first_srt_filter (names : list string) :
  first_srt names = head (List.filter is_srt names).
Proof.
  induction names as [|name names IH]; [reflexivity|].
  cbn [first_srt List.filter]. unfold is_srt at 1.
  destruct (endswith name ".srt"); [reflexivity|exact IH].
Qed.


End Extraction.

(** C3. Bytes that do not begin with the ZIP local-file-header signature
    are returned unchanged. For bytes that begin with it and open as an
    archive with exactly one member whose name ends in [.srt], a member
    the archive can read, the result is exactly the bytes read for that
    member. *)
Theorem extract_subtitle_content_roundtrip `{zip : ZipLibrary}
    (content : bytes) :
  (take 4 content ≠ ZIP_SIGNATURE →
   _extract_subtitle_content content = content)
  ∧ (∀ zf name data,
       take 4 content = ZIP_SIGNATURE →
       ZipFile content = Ok zf →
       List.filter is_srt (namelist zf) = [name] →
       zf_read zf name = Ok data →
       _extract_subtitle_content content = data).
Proof.
  unfold _extract_subtitle_content. split.
  - intros Hsig.
    destruct (bytes_eqb (take 4 content) ZIP_SIGNATURE) eqn:Heq;
      [|reflexivity].
    apply bytes_eqb_eq in Heq. contradiction.
  - intros zf name data Hsig Hopen Hone Hread.
    apply bytes_eqb_eq in Hsig. rewrite Hsig.
    unfold extract_from_archive. rewrite Hopen. cbn.
    rewrite first_srt_filter, Hone. cbn. rewrite Hread. reflexivity.
Qed.


(* ===================================================================== *)
(** * Properties of rename_subtitle *)
(* ===================================================================== *)

Section Rename.
Variable fs : filesystem.
Variables subtitle_path video_path : Path.

Lemma string_app_inj_r (x y suffix : string) :
  x +:+ suffix = y +:+ suffix → x = y.
Proof.
  revert y. induction x as [|c x IH]; intros [|c' y] Heq.
  - reflexivity.
  - apply (f_equal String.length) in Heq.
    rewrite !string_app_length in Heq. cbn [String.length] in Heq. lia.
  - apply (f_equal String.length) in Heq.
    rewrite !string_app_length in Heq. cbn [String.length] in Heq. lia.
  - change (String c (x +:+ suffix) = String c' (y +:+ suffix)) in Heq.
    injection Heq as -> Heq. f_equal. apply IH, Heq.
Qed.

Lemma numbered_name_inj (j k : Z) :
  numbered_name subtitle_path video_path j
  = numbered_name subtitle_path video_path k → j = k.
Proof.
  unfold numbered_name, path_join. intros Heq.
  apply app_inj_tail in Heq as [_ Heq].
  apply String.app_inj in Heq. apply String.app_inj in Heq.
  apply string_app_inj_r in Heq. apply (inj pretty) in Heq. exact Heq.
Qed.

Lemma path_exists_spec (p : Path) :
  path_exists fs p = true ↔ is_Some (fs !! p).
Proof. unfold path_exists. apply bool_decide_eq_true. Qed.

Lemma path_exists_false (p : Path) :
  path_exists fs p = false ↔ fs !! p = None.
Proof.
  unfold path_exists. rewrite bool_decide_eq_false.
  rewrite eq_None_not_Some. reflexivity.
Qed.

(** The loop returns the first free candidate. *)
Lemma free_path_first (fuel : nat) :
  ∀ (new_path : Path) (counter : Z) (p : Path),
    free_path fuel fs (path_parent video_path) (path_stem video_path)
      (path_suffix subtitle_path) new_path counter = Some p →
    fs !! p = None
    ∧ (p = new_path
       ∨ is_Some (fs !! new_path)
         ∧ ∃ k, counter ≤ k
                ∧ p = numbered_name subtitle_path video_path k
                ∧ ∀ j, counter ≤ j < k →
                       is_Some (fs !! numbered_name subtitle_path video_path j)).
Proof.
  induction fuel as [|fuel IH]; intros new_path counter p; cbn [free_path].
  - destruct (path_exists fs new_path) eqn:Hex; [discriminate|].
    intros [= <-]. apply path_exists_false in Hex. auto.
  - destruct (path_exists fs new_path) eqn:Hex.
    + intros Hrun. apply IH in Hrun as [Hfree Hwhich].
      split; [exact Hfree|]. right.
      apply path_exists_spec in Hex. split; [exact Hex|].
      fold (numbered_name subtitle_path video_path counter) in Hwhich.
      destruct Hwhich as [->|(Hc & k & Hk & -> & Hbelow)].
      * exists counter. split; [lia|]. split; [reflexivity|]. intros j Hj. lia.
      * exists k. split; [lia|]. split; [reflexivity|].
        intros j Hj. destruct (Z.eq_dec j counter) as [->|Hne]; [exact Hc|].
        apply Hbelow. lia.
    + intros [= <-]. apply path_exists_false in Hex. auto.
Qed.

(** When the loop runs out of fuel, the path it started from and that
    many numbered names are taken. *)
Lemma free_path_exhausted_start (fuel : nat) (new_path : Path) (counter : Z) :
  free_path fuel fs (path_parent video_path) (path_stem video_path)
    (path_suffix subtitle_path) new_path counter = None →
  is_Some (fs !! new_path).
Proof.
  intros Hrun. apply path_exists_spec.
  destruct fuel; cbn [free_path] in Hrun;
    destruct (path_exists fs new_path); [reflexivity|discriminate
                                        |reflexivity|discriminate].
Qed.

Lemma free_path_exhausted (fuel : nat) :
  ∀ (new_path : Path) (counter : Z),
    free_path fuel fs (path_parent video_path) (path_stem video_path)
      (path_suffix subtitle_path) new_path counter = None →
    ∀ j, counter ≤ j < counter + Z.of_nat fuel →
         is_Some (fs !! numbered_name subtitle_path video_path j).
Proof.
  induction fuel as [|fuel IH]; intros new_path counter; cbn [free_path].
  - intros _ j Hj. lia.
  - destruct (path_exists fs new_path) eqn:Hex; [|discriminate].
    intros Hrun j Hj.
    fold (numbered_name subtitle_path video_path counter) in Hrun.
    destruct (Z.eq_dec j counter) as [->|Hne].
    + eapply free_path_exhausted_start, Hrun.
    + eapply IH; [exact Hrun|]. lia.
Qed.

(** Distinct names need distinct entries. *)
Lemma numbered_names_need_room (n : nat) :
  ∀ (counter : Z) (taken : gset Path),
    (∀ j, counter ≤ j < counter + Z.of_nat n →
          numbered_name subtitle_path video_path j ∈ taken) →
    (n ≤ size taken)%nat.
Proof.
  induction n as [|n IH]; intros counter taken Hall; [lia|].
  assert (Hin : numbered_name subtitle_path video_path counter ∈ taken)
    by (apply Hall; lia).
  specialize (IH (counter + 1)
                (taken ∖ {[numbered_name subtitle_path video_path counter]})).
  assert (Hsize : size taken
                  = S (size (taken
                             ∖ {[numbered_name subtitle_path video_path
                                   counter]}))).
  { rewrite size_difference by set_solver. rewrite size_singleton.
    assert (size ({[numbered_name subtitle_path video_path counter]}
                   : gset Path) ≤ size taken)%nat as Hle
      by (apply subseteq_size; set_solver).
    rewrite size_singleton in Hle. lia. }
  rewrite Hsize. apply le_n_S, IH.
  intros j Hj. apply elem_of_difference. split; [apply Hall; lia|].
  intros Heq%elem_of_singleton. apply numbered_name_inj in Heq. lia.
Qed.

Lemma free_path_terminates (new_path : Path) :
  is_Some
    (free_path (S (size fs)) fs (path_parent video_path)
       (path_stem video_path) (path_suffix subtitle_path) new_path 1).
Proof.
  destruct (free_path _ _ _ _ _ _ _) as [p|] eqn:Hrun; [eauto|].
  exfalso.
  pose proof (free_path_exhausted _ _ _ Hrun) as Hall.
  assert (Hroom : (S (size fs) ≤ size (dom fs))%nat).
  { apply (numbered_names_need_room _ 1). intros j Hj.
    apply elem_of_dom, Hall, Hj. }
  rewrite size_dom in Hroom. lia.
Qed.

(** The path the loop settles on lies in the folder of the video. *)
Lemma free_path_parent (fuel : nat) :
  ∀ (name : string) (counter : Z) (p : Path),
    free_path fuel fs (path_parent video_path) (path_stem video_path)
      (path_suffix subtitle_path)
      (path_join (path_parent video_path) name) counter = Some p →
    path_parent p = path_parent video_path.
Proof.
  induction fuel as [|fuel IH]; intros name counter p; cbn [free_path].
  - destruct (path_exists fs _); [discriminate|].
    intros [= <-]. apply path_parent_join.
  - destruct (path_exists fs _).
    + apply IH.
    + intros [= <-]. apply path_parent_join.
Qed.

(** Moving a tree leaves the entries outside it as they are. *)
Lemma move_tree_keeps (src dst other : Path) (x : entry) :
  fs !! other = Some x →
  ¬ src `prefix_of` other →
  move_tree fs src dst !! other = Some x.
Proof.
  intros Hother Hout. unfold move_tree.
  apply lookup_union_Some_l, map_lookup_filter_Some. split; assumption.
Qed.

(** What the rename does once the loop has settled on [p]. *)
Lemma fs_rename_outcome (p : Path) :
  fs !! p = None →
  match fs_rename fs subtitle_path p with
  | Ok fs' =>
      (∃ e, fs !! subtitle_path = Some e
            ∧ fs !! path_parent p = Some Dir
            ∧ (e = Dir → ¬ subtitle_path `prefix_of` p))
      ∧ (∀ other x, fs !! other = Some x →
                    ¬ subtitle_path `prefix_of` other →
                    fs' !! other = Some x)
      ∧ (∀ data, fs !! subtitle_path = Some (File data) →
                 fs' = <[p := File data]> (delete subtitle_path fs))
  | Raise _ =>
      ¬ ∃ e, fs !! subtitle_path = Some e
             ∧ fs !! path_parent p = Some Dir
             ∧ (e = Dir → ¬ subtitle_path `prefix_of` p)
  end.
Proof.
  intros Hfree. unfold fs_rename.
  destruct (fs !! subtitle_path) as [e|] eqn:Hsub.
  2:{ intros (e & ? & _). discriminate. }
  destruct (fs !! path_parent p) as [[data'|]|] eqn:Hparent.
  1,3: intros (e' & _ & ? & _); discriminate.
  destruct e as [data|].
  - split; [|split].
    + exists (File data). repeat split. discriminate.
    + intros other x Hother Hout.
      rewrite lookup_insert_ne by (intros <-; congruence).
      rewrite lookup_delete_ne by (intros <-; apply Hout; reflexivity).
      exact Hother.
    + intros data0 [= <-]. reflexivity.
  - destruct (bool_decide (subtitle_path `prefix_of` p)) eqn:Hbelow.
    + apply bool_decide_eq_true in Hbelow.
      intros (e' & [= <-] & _ & Hout). apply Hout; [reflexivity|exact Hbelow].
    + apply bool_decide_eq_false in Hbelow. split; [|split].
      * exists Dir. repeat split. intros _. exact Hbelow.
      * intros other x Hother Hout. apply move_tree_keeps; assumption.
      * intros data0 [=].
Qed.

End Rename.

(** C8. [rename_subtitle] always returns, and the name it settles on is
    one that did not exist: the video's stem with the subtitle's suffix
    when that name is free, else the name numbered with the least
    [k >= 1] that is free, in the folder of the video. It moves the
    subtitle there exactly when the subtitle exists and the folder of the
    video is a directory (a subtitle that is itself a directory cannot
    move below itself); otherwise the rename raises and nothing is moved.
    When it moves the subtitle, every entry outside the subtitle keeps its
    content, and a subtitle that is a regular file is the only entry that
    changes its place. *)
Theorem rename_subtitle_never_overwrites (fs : filesystem)
    (subtitle_path video_path : Path) :
  ∃ new_path,
    fs !! new_path = None
    ∧ path_parent new_path = path_parent video_path
    ∧ ((fs !! plain_name subtitle_path video_path = None
        ∧ new_path = plain_name subtitle_path video_path)
       ∨ (is_Some (fs !! plain_name subtitle_path video_path)
          ∧ ∃ k, 1 ≤ k
                 ∧ new_path = numbered_name subtitle_path video_path k
                 ∧ ∀ j, 1 ≤ j < k →
                        is_Some
                          (fs !! numbered_name subtitle_path video_path j)))
    ∧ let movable :=
        ∃ e, fs !! subtitle_path = Some e
             ∧ fs !! path_parent video_path = Some Dir
             ∧ (e = Dir → ¬ subtitle_path `prefix_of` new_path) in
      (movable →
       ∃ fs',
         rename_subtitle fs subtitle_path video_path
         = Some (Ok (new_path, fs'))
         ∧ (∀ other x, fs !! other = Some x →
                       ¬ subtitle_path `prefix_of` other →
                       fs' !! other = Some x)
         ∧ (∀ data, fs !! subtitle_path = Some (File data) →
                    fs' = <[new_path := File data]> (delete subtitle_path fs)))
      ∧ (¬ movable →
         ∃ e, rename_subtitle fs subtitle_path video_path = Some (Raise e)).
Proof.
  unfold rename_subtitle, rename_subtitle_fuel.
  fold (plain_name subtitle_path video_path).
  destruct (free_path_terminates fs subtitle_path video_path
              (plain_name subtitle_path video_path)) as [p Hrun].
  rewrite Hrun.
  destruct (free_path_first fs subtitle_path video_path _ _ _ _ Hrun)
    as [Hfree Hwhich].
  pose proof (free_path_parent fs subtitle_path video_path _ _ _ _ Hrun)
    as Hparent.
  exists p. split; [exact Hfree|]. split; [exact Hparent|]. split.
  { destruct Hwhich as [->|(Hplain & k & Hk & -> & Hbelow)].
    - left. auto.
    - right. split; [exact Hplain|]. exists k. auto. }
  pose proof (fs_rename_outcome fs subtitle_path p Hfree) as Hout.
  rewrite Hparent in Hout. cbn zeta.
  destruct (fs_rename fs subtitle_path p) as [fs'|e]; cbn.
  - destruct Hout as (Hmov & Hkeep & Hfile). split.
    + intros _. exists fs'. auto.
    + intros Hno. contradiction.
  - split.
    + intros Hmov. contradiction.
    + intros _. eauto.
Qed.

(* ===================================================================== *)
(** * Provider boundaries: result caps, failures, isolation *)
(* ===================================================================== *)

Section Providers.

(** [OpenSubtitlesAPI.search] hands back the whole page of the response. *)
Lemma OpenSubtitlesAPI_search_whole_page (w : World)
    (query file_hash : option string) (languages : string)
    (imdb_id : option string) (season episode : option Z)
    (page : value) (data : bytes) :
  (∀ url params headers,
     requests_get w url params headers
     = Ok {| status_code := 200;
             json := Ok (VDict [("data", page)]);
             resp_content := data;
             resp_text := EmptyString;
             resp_url := EmptyString |}) →
  OpenSubtitlesAPI_search w query file_hash languages imdb_id season episode
  = page.
Proof.
  intros Hget. unfold OpenSubtitlesAPI_search. rewrite Hget. reflexivity.
Qed.

Lemma take_15_length {A} (l : list A) : (length (take 15 l) ≤ 15)%nat.
Proof. rewrite length_take. lia. Qed.

Lemma OpenSubtitlesProvider_search_capped (self : OpenSubtitlesProvider)
    (w : World) (query : string) (language : option Language) :
  (length (OpenSubtitlesProvider_search self w query language).2 ≤ 15)%nat.
Proof.
  unfold OpenSubtitlesProvider_search.
  destruct (negb _); [cbn; lia|].
  destruct (_ ≫= _) as [[code|results]|e]; cbn [snd];
    first [apply take_15_length | cbn; lia].
Qed.

Lemma SubDivXProvider_search_capped (sc : Scraping) (self : SubDivXProvider)
    (query : string) (language : option Language) :
  (length (SubDivXProvider_search sc self query language).2 ≤ 15)%nat.
Proof.
  unfold SubDivXProvider_search.
  destruct (negb (PLAYWRIGHT_AVAILABLE sc)); [cbn; lia|].
  destruct (_init_browser sc self) as [[self' printed] ready].
  destruct (negb ready); [cbn; lia|].
  destruct (browser self'); [|apply take_15_length].
  destruct (open_page _ _ _); [|apply take_15_length].
  destruct (context_cookies _ _); [|apply take_15_length].
  destruct (page_soup _ _); [|apply take_15_length].
  destruct (context_close _ _); apply take_15_length.
Qed.

Lemma collect_subliminal_length (video : N) (subs : list subliminal_subtitle) :
  ∀ results,
    (length (collect_subliminal video subs results)
     ≤ length results + length subs)%nat.
Proof.
  induction subs as [|sub subs IH]; intros results; cbn [collect_subliminal].
  - cbn. lia.
  - destruct (release_of sub); [|cbn; lia].
    etransitivity; [apply IH|]. rewrite length_app. cbn. lia.
Qed.

Lemma SubliminalFallback_search_capped (w : World) (video_path : Path)
    (languages : string) :
  ∃ results,
    SubliminalFallback_search_for_video w video_path languages = VList results
    ∧ (length results ≤ 15)%nat.
Proof.
  unfold SubliminalFallback_search_for_video.
  destruct (negb _); [exists []; split; [reflexivity|cbn; lia]|].
  destruct (_ ≫= _) as [[video subs]|e].
  - eexists. split; [reflexivity|].
    etransitivity; [apply collect_subliminal_length|].
    cbn [length]. pose proof (take_15_length subs). lia.
  - exists []. split; [reflexivity|cbn; lia].
Qed.

(** The loop over the items keeps the convertible ones, in order. *)
Lemma convert_items_omap (w : World) (items : list value) :
  ∀ results,
    convert_items w items results = results ++ omap (item_result w) items.
Proof.
  induction items as [|item items IH]; intros results;
    cbn [convert_items omap list_omap].
  - now rewrite app_nil_r.
  - unfold item_result at 1.
    destruct (convert_item w item) as [[result|]|e]; rewrite IH.
    + now rewrite <- app_assoc.
    + reflexivity.
    + reflexivity.
Qed.

End Providers.

(** C5 (evidence of the defect). Asked of a service that answers with a
    page of sixteen items, [OpenSubtitlesAPI.search], the search the
    orchestrator calls, returns all sixteen. *)
Theorem OpenSubtitlesAPI_search_exceeds_cap :
  OpenSubtitlesAPI_search big_page_world (Some "Show S01E02") None "es"
    None None None
  = VList sixteen_items
  ∧ length sixteen_items = 16%nat.
Proof. split; reflexivity. Qed.

Section SearchFailures.





End SearchFailures.



(** C9 (as stated, refuted). The subliminal provider lists a subtitle
    whose id reads as a number; handed to the download of the
    structured-API provider, a different provider, the result is not
    rejected: the id is requested from the API as a file id, and the file
    the API serves is saved and its path returned. *)
Lemma foreign_numeric_reference_is_downloaded :
  SubliminalProvider_search_for_video open_handed_world ["videos"; "v.mkv"]
    None
  = [subliminal_provider_result 1 numeric_sub]
  ∧ provider (subliminal_provider_result 1 numeric_sub)
    = "Subliminal (tvsubtitles)"
  ∧ OpenSubtitlesProvider_name = "OpenSubtitles"
  ∧ (OpenSubtitlesProvider_download keyed_provider open_handed_world
       (subliminal_provider_result 1 numeric_sub) ["subs"] two_folders).2
    = Ok (Some ["subs"; "other.srt"])
  ∧ written
      (st_trace
         (OpenSubtitlesProvider_download keyed_provider open_handed_world
            (subliminal_provider_result 1 numeric_sub) ["subs"]
            two_folders).1)
    = [(["subs"; "other.srt"], [x31; x0a])].
Proof. repeat split; vm_compute; reflexivity. Qed.

Section References.

(** What makes a letter no part of an integer literal. *)
Lemma letter_is_no_digit (c : ascii) :
  is_ascii_letter c = true →
  int_char (byte_of c) = Some c
  ∧ (byte_of c <? 128) = true
  ∧ is_blank c = false
  ∧ digit_value c = None
  ∧ c ≠ "-"%char ∧ c ≠ "+"%char ∧ c ≠ "_"%char.
Proof.
  destruct c as [[] [] [] [] [] [] [] []]; vm_compute;
    first [discriminate | intros _; repeat split; discriminate].
Qed.

Lemma drop_trailing_blanks_head (c : ascii) (s : string) :
  is_blank c = false →
  ∃ r, drop_trailing_blanks (String c s) = String c r.
Proof.
  intros Hc. cbn [drop_trailing_blanks]. rewrite Hc.
  destruct (drop_trailing_blanks s); eauto.
Qed.

(** A string that starts with a letter has no integer value. *)
Lemma py_int_letter (c : ascii) (s : string) :
  is_ascii_letter c = true →
  py_int (String c s) = Raise (Exception "ValueError").
Proof.
  intros Hletter.
  destruct (letter_is_no_digit c Hletter)
    as (Hchar & Hascii & Hblank & Hdigit & Hminus & Hplus & Hunder).
  unfold py_int, int_text.
  assert (Hfirst : ∃ ch rest,
             chars (String c s) = ch :: rest
             ∧ (int_char (code_point ch) = None
                ∨ int_char (code_point ch) = Some c)).
  { cbn [chars]. destruct s as [|c' s'].
    - exists (String c EmptyString), []. split; [reflexivity|]. right.
      unfold code_point. fold (byte_of c). rewrite Hascii. exact Hchar.
    - destruct (is_continuation c').
      + destruct (chars (String c' s')) as [|ch rest].
        * eexists _, _. split; [reflexivity|]. right.
          unfold code_point. fold (byte_of c). rewrite Hascii. exact Hchar.
        * eexists _, _. split; [reflexivity|].
          unfold code_point. fold (byte_of c). rewrite Hascii.
          destruct ch as [|c0 ch]; cbn [list_ascii_of_string length].
          -- right. exact Hchar.
          -- left. reflexivity.
      + eexists _, _. split; [reflexivity|]. right.
        unfold code_point. fold (byte_of c). rewrite Hascii. exact Hchar. }
  destruct Hfirst as (ch & rest & -> & [Hnone|Hsome]);
    cbn [map mapM]; unfold mbind, option_bind.
  - rewrite Hnone. reflexivity.
  - rewrite Hsome.
    destruct (mapM int_char (map code_point rest)) as [text|];
      [|reflexivity].
    cbn [mret option_ret string_of_list_ascii].
    unfold int_literal. cbn [skip_blanks]. rewrite Hblank.
    destruct (drop_trailing_blanks_head c (string_of_list_ascii text) Hblank)
      as [r ->].
    assert (Hbody : (let '(negative, body) :=
                       match String c r with
                       | String "-" r0 => (true, r0)
                       | String "+" r0 => (false, r0)
                       | _ => (false, String c r)
                       end in
                     match digits_from 0 false body with
                     | Some n => Ok (if negative : bool then - n else n)
                     | None => Raise (Exception "ValueError")
                     end)
                    = match digits_from 0 false (String c r) with
                      | Some n => Ok n
                      | None => Raise (Exception "ValueError")
                      end).
    { destruct c as [[] [] [] [] [] [] [] []]; try reflexivity;
        congruence. }
    rewrite Hbody. cbn [digits_from]. rewrite Hdigit.
    rewrite andb_false_r. reflexivity.
Qed.

End References.

(** C9 (amended). The orchestrator chooses the download mechanism by the
    provider name of the result. With ['Subliminal'] in the name the
    aggregator's download is called with that result and the
    structured-API download is not. With any other name the aggregator's
    download is not called and the structured-API two-step download is:
    for the file id of the result the download link is requested and,
    when one came back, fetched; a result without a file id is not
    downloaded at all. The results of the aggregator carry such a name
    and the results without a provider key are taken for the structured
    API's. A download handed a foreign result fails where it cannot read
    the reference: the aggregator's download returns [None] for a result
    without its library handle, and the structured-API provider's download
    returns [None], writing nothing, for a reference that is not an
    integer literal, as no reference that starts with a letter is. *)
Theorem download_dispatch_by_provider_name :
  (∀ (w : World) (video : Path) (subtitle provider : value) (st : state),
     result_provider subtitle = Ok provider →
     ∃ new,
       st_trace (_do_download w video subtitle st).1 = st_trace st ++ new
       ∧ match py_contains "Subliminal" provider with
         | Ok true =>
             aggregator_downloads new = [subtitle] ∧ api_downloads new = []
         | Ok false =>
             aggregator_downloads new = []
             ∧ api_downloads new
               = match result_file_id subtitle with
                 | Some file_id => two_step_download w file_id
                 | None => []
                 end
         | Raise _ => aggregator_downloads new = [] ∧ api_downloads new = []
         end)
  ∧ (∀ (video : N) (sub : subliminal_subtitle) (release : string),
       result_provider (subliminal_result video sub release)
       = Ok (VStr ("Subliminal (" +:+ sub_provider_name sub +:+ ")"))
       ∧ py_contains "Subliminal"
           (VStr ("Subliminal (" +:+ sub_provider_name sub +:+ ")"))
         = Ok true)
  ∧ (∀ d : list (string * value),
       assoc_get d "provider" = None →
       result_provider (VDict d) = Ok (VStr "OpenSubtitles")
       ∧ py_contains "Subliminal" (VStr "OpenSubtitles") = Ok false)
  ∧ (∀ (w : World) (subtitle_data : value) (destination : Path),
       (∀ h, py_get subtitle_data "_subliminal_sub" VNone ≠ Ok (VObj h)) →
       SubliminalFallback_download w subtitle_data destination = None)
  ∧ (∀ (self : OpenSubtitlesProvider) (w : World) (subtitle : SubtitleResult)
       (destination : Path) (st : state) (e : exn),
       py_int_of (download_url subtitle) = Raise e →
       OpenSubtitlesProvider_download self w subtitle destination st
       = (st, Ok None))
  ∧ (∀ (c : ascii) (s : string),
       is_ascii_letter c = true →
       py_int_of (VStr (String c s)) = Raise (Exception "ValueError")).
Proof.
  split; [|split; [|split; [|split; [|split]]]].
  - intros w video subtitle provider st Hprovider.
    destruct (_do_download_run w video subtitle st) as (new & Htr & _ & Hd).
    exists new. split; [exact Htr|]. apply Hd, Hprovider.
  - intros video sub release. split; reflexivity.
  - intros d Hd. unfold result_provider, py_get. rewrite Hd.
    split; reflexivity.
  - intros w subtitle_data destination Hforeign.
    unfold SubliminalFallback_download.
    destruct (negb (SUBLIMINAL_AVAILABLE w)); [reflexivity|].
    destruct (py_get subtitle_data "_subliminal_sub" VNone) as [sub|e] eqn:Hs;
      [|reflexivity].
    cbn.
    destruct (py_get subtitle_data "_subliminal_video" VNone) as [video|e];
      [|reflexivity].
    cbn.
    destruct (negb (truthy sub) || negb (truthy video)); [reflexivity|].
    destruct sub; try reflexivity.
    exfalso. eapply Hforeign. reflexivity.
  - intros self w subtitle destination st e Hint.
    unfold OpenSubtitlesProvider_download.
    destruct (negb (truthy (VStr (api_key self)))); [reflexivity|].
    unfold try_except, mbind, M_bind, lift. rewrite Hint. reflexivity.
  - intros c s Hletter. apply py_int_letter, Hletter.
Qed.

(* ===================================================================== *)
(** * The properties at concrete inputs *)
(* ===================================================================== *)

(** The building blocks on small inputs. *)
Example unpack_q_is_signed :
  unpack_q (replicate 8 xff) = Some (-1)
  ∧ unpack_q [x01; x00; x00; x00; x00; x00; x00; x80] = Some (1 - 2 ^ 63)
  ∧ unpack_q [x01; x02] = None.
Proof. repeat split; reflexivity. Qed.

Example format_016x_pads :
  format_016x 255 = "00000000000000ff"
  ∧ format_016x (2 ^ 64 - 1) = "ffffffffffffffff"
  ∧ hex_value "00000000000000ff" = Some 255
  ∧ hex_value "00000000000000FF" = None.
Proof. repeat split; reflexivity. Qed.

Example stem_and_suffix :
  name_stem "Show.S01E02.mkv" = "Show.S01E02"
  ∧ name_suffix "Show.S01E02.mkv" = ".mkv"
  ∧ name_stem ".hidden" = ".hidden"
  ∧ name_suffix "archive.tar.gz" = ".gz".
Proof. repeat split; reflexivity. Qed.

Example query_of_an_episode :
  build_search_query {| info_title := Some "Show"; info_year := Some "2020";
                        info_season := Some 1; info_episode := Some 2 |}
  = "Show 2020 S01E02".
Proof. reflexivity. Qed.

Example int_of_padded_literal : py_int " -4_2 " = Ok (-42).
Proof. reflexivity. Qed.

(** A file of 128 KiB has a fingerprint, a file of one byte has none. *)
Lemma get_file_hash_fingerprint_witness :
  (get_file_hash two_videos ["videos"; "large.mkv"]
   = Some (format_016x (spec_fingerprint large_file))
   ∧ String.length (format_016x (spec_fingerprint large_file)) = 16%nat
   ∧ hex_value (format_016x (spec_fingerprint large_file))
     = Some (spec_fingerprint large_file))
  ∧ get_file_hash two_videos ["videos"; "small.mkv"] = None.
Proof.
  split.
  - apply (get_file_hash_fingerprint two_videos ["videos"; "large.mkv"]
             large_file).
    + apply lookup_insert_eq.
    + unfold large_file. rewrite length_replicate. lia.
  - apply (get_file_hash_fingerprint two_videos ["videos"; "small.mkv"] [x01]).
    + unfold two_videos. rewrite lookup_insert_ne by discriminate.
      apply lookup_singleton_eq.
    + cbn. lia.
Defined.

(** Plain text passes through; the archive with one [.srt] member gives
    that member. *)
Lemma extract_subtitle_content_roundtrip_witness :
  _extract_subtitle_content (zip := two_archives) plain_subtitle
  = plain_subtitle
  ∧ _extract_subtitle_content (zip := two_archives) srt_archive
    = [x31; x0a].
Proof.
  split.
  - apply (extract_subtitle_content_roundtrip (zip := two_archives)
             plain_subtitle).
    discriminate.
  - apply (proj2 (extract_subtitle_content_roundtrip (zip := two_archives)
                    srt_archive)
             [("readme.txt", [x72]); ("ep.srt", [x31; x0a])] "ep.srt");
      reflexivity.
Defined.


(** With the plain name and the first numbered name taken, the subtitle
    goes to a path that was free. *)
Lemma rename_subtitle_never_overwrites_witness :
  ∃ new_path,
    rename_subtitle crowded_folder ["downloads"; "sub.srt"]
      ["videos"; "Show.mkv"]
    = Some (Ok (new_path,
                <[new_path := File [x31]]>
                  (delete ["downloads"; "sub.srt"] crowded_folder)))
    ∧ crowded_folder !! new_path = None.
Proof.
  destruct (rename_subtitle_never_overwrites crowded_folder
              ["downloads"; "sub.srt"] ["videos"; "Show.mkv"])
    as (new_path & Hfree & _ & _ & Hmoves & _).
  destruct Hmoves as (fs' & Hrun & _ & Hfile).
  - exists (File [x31]). split; [reflexivity|]. split; [reflexivity|].
    discriminate.
  - exists new_path. split; [|exact Hfree].
    rewrite Hrun, (Hfile [x31] eq_refl). reflexivity.
Defined.

(** The path chosen there is the one numbered 2. *)
Example rename_subtitle_second_number :
  fst <$> rename_subtitle crowded_folder ["downloads"; "sub.srt"]
            ["videos"; "Show.mkv"] ≫= (λ r, match r with
                                            | Ok x => Some x
                                            | Raise _ => None
                                            end)
  = Some ["videos"; "Show.2.srt"].
Proof. vm_compute. reflexivity. Qed.



(** What was there before is gone. *)
Example subtitle_is_replaced :
  st_fs subtitled_folder !! ["videos"; "a.es.srt"] = Some (File [x30])
  ∧ st_fs (_do_download serving_world ["videos"; "a.mkv"]
             (api_item "Show.S01E02.WEB" 7) subtitled_folder).1
    !! ["videos"; "a.es.srt"] = Some (File [x31; x0a]).
Proof. split; vm_compute; reflexivity. Qed.

(** Without the folder of the video nothing is written. *)
Example no_folder_no_subtitle :
  written (st_trace (_do_download serving_world ["videos"; "a.mkv"]
                       (api_item "Show.S01E02.WEB" 7) empty_state).1) = []
  ∧ st_fs (_do_download serving_world ["videos"; "a.mkv"]
             (api_item "Show.S01E02.WEB" 7) empty_state).1 = ∅.
Proof. split; vm_compute; reflexivity. Qed.

(** A result of the structured API is downloaded in two steps. *)
Example api_result_is_downloaded_in_two_steps :
  api_downloads (st_trace (_do_download serving_world ["videos"; "a.mkv"]
                             (api_item "Show.S01E02.WEB" 7) two_folders).1)
  = [VInt 7; VStr "https://dl.example/7"].
Proof. vm_compute. reflexivity. Qed.

(** The service finds nothing for the query: the fallback is asked next. *)
Example fallback_after_empty_query :
  stages (st_trace (_do_search barren_world ["videos"; "a.mkv"]
                      empty_state).1)
  = [QuerySearch; FallbackSearch].
Proof. vm_compute. reflexivity. Qed.

(** The service finds a subtitle for the query: no fallback. *)
Example query_hit_stops_the_search :
  stages (st_trace (_do_search serving_world ["videos"; "a.mkv"]
                      empty_state).1)
  = [QuerySearch].
Proof. vm_compute. reflexivity. Qed.

(** Three videos, the second of which makes the parser raise: all three
    are announced, the first and the third are written and counted. *)
Example batch_of_three_with_a_failure :
  let run := _do_download_all serving_world
               [["videos"; "a.mkv"]; ["videos"; "b.mkv"]; ["videos"; "c.mkv"]]
               two_folders in
  run.2 = Ok 2
  ∧ announced (st_trace run.1)
    = [(1, 3, "a.mkv"); (2, 3, "b.mkv"); (3, 3, "c.mkv")]
  ∧ written (st_trace run.1)
    = [(["videos"; "a.es.srt"], [x31; x0a]);
       (["videos"; "c.es.srt"], [x31; x0a])].
Proof. vm_compute. repeat split; reflexivity. Qed.

(** A reference that is a URL is not an integer literal. *)
Example url_reference_is_not_an_integer :
  py_int "https://www.subdivx.com/X6XNjI2" = Raise (Exception "ValueError").
Proof. reflexivity. Qed.

(** The result of a page reader, handed to the download of the
    structured-API provider: its reference is a URL, and nothing is
    requested or written. *)
Lemma download_dispatch_by_provider_name_witness :
  OpenSubtitlesProvider_download keyed_provider open_handed_world
    (scraped "Argenteam" "Show" SPANISH_LATAM "https://argenteam.net/movie/1"
       EmptyString (Finite 0))
    ["subs"] two_folders
  = (two_folders, Ok None).
Proof.
  apply (proj1 (proj2 (proj2 (proj2 (proj2
           download_dispatch_by_provider_name))))
           keyed_provider open_handed_world _ ["subs"] two_folders
           (Exception "ValueError")).
  apply (proj2 (proj2 (proj2 (proj2 (proj2
           download_dispatch_by_provider_name))))).
  reflexivity.
Defined.

(** [int] reads the decimal digits of any script and skips the white
    space of any script: Arabic-Indic forty-two, and a five after a
    no-break space. *)
Example int_of_digits_of_any_script :
  py_int (String (ascii_of_nat 217) (String (ascii_of_nat 164)
           (String (ascii_of_nat 217) (String (ascii_of_nat 162)
              EmptyString)))) = Ok 42
  ∧ py_int (String (ascii_of_nat 194) (String (ascii_of_nat 160) "5")) = Ok 5
  ∧ py_int (String (ascii_of_nat 28) "5") = Raise (Exception "ValueError").
Proof. repeat split; reflexivity. Qed.

(** [float] rounds a long integer to the nearest double and overflows
    beyond the largest one; an item of the response with such a rating is
    skipped. *)
Example float_of_long_integers :
  float_of_int (2 ^ 53 + 1) = Ok (Finite (inject_Z (2 ^ 53)))
  ∧ float_of_int (2 ^ 53 + 3) = Ok (Finite (inject_Z (2 ^ 53 + 4)))
  ∧ float_of_int (2 ^ 1024 - 2 ^ 970) = Raise (Exception "OverflowError")
  ∧ item_result big_page_world
      (VDict [("attributes",
               VDict [("files", VList [VDict [("file_id", VInt 1)]]);
                      ("ratings", VInt (10 ^ 400))])])
    = None.
Proof. repeat split; vm_compute; reflexivity. Qed.

(** A slice counts characters, not bytes. *)
Example slice_counts_characters :
  str_take 2 "ñandú" = "ña"
  ∧ str_len "ñandú" = 5%nat
  ∧ String.length "ñandú" = 7%nat.
Proof. repeat split; reflexivity. Qed.

(** [os.path.join] lets an absolute name replace the destination and
    keeps a step up. *)
Example os_path_join_of_unusual_names :
  os_path_join ["subs"] (VStr "/tmp/evil.srt") = Ok ["/"; "tmp"; "evil.srt"]
  ∧ os_path_join ["subs"] (VStr "../evil.srt") = Ok ["subs"; ".."; "evil.srt"]
  ∧ os_path_join ["subs"] (VStr "a.srt") = Ok ["subs"; "a.srt"]
  ∧ os_path_join ["subs"] (VInt 1) = Raise (Exception "TypeError").
Proof. repeat split; reflexivity. Qed.

(** Without the folder of the video the rename raises. *)
Example rename_subtitle_without_folder :
  rename_subtitle {[ ["downloads"] := Dir;
                     ["downloads"; "sub.srt"] := File [x31] ]}
    ["downloads"; "sub.srt"] ["videos"; "Show.mkv"]
  = Some (Raise (Exception "FileNotFoundError")).
Proof. vm_compute. reflexivity. Qed.

(* ===================================================================== *)
(** * The video files of a folder *)
(* ===================================================================== *)

#[local] Instance name_le_trans : Transitive name_le.
Proof. intros p q r. unfold name_le. apply transitivity. Qed.

#[local] Instance name_le_total : Total name_le.
Proof. intros p q. unfold name_le. apply total, _. Qed.

Section VideoFiles.

Lemma is_file_spec (fs : filesystem) (p : Path) :
  is_file fs p = true ↔ ∃ data, fs !! p = Some (File data).
Proof.
  unfold is_file. destruct (fs !! p) as [[data|]|]; split;
    try discriminate; eauto; intros [? ?]; discriminate.
Qed.

(** The entries [iterdir] yields: the paths of the file system one
    component below the folder, each once. *)
Lemma elem_of_iterdir (fs : filesystem) (folder : Path) (files : list Path) :
  iterdir fs folder = Ok files →
  NoDup files
  ∧ ∀ p, p ∈ files ↔ is_Some (fs !! p) ∧ ∃ name, p = path_join folder name.
Proof.
  unfold iterdir. destruct (fs !! folder) as [[data|]|]; try discriminate.
  intros [= <-]. split.
  - apply NoDup_filter, NoDup_elements.
  - intros p. rewrite list_elem_of_filter, elem_of_elements, elem_of_dom.
    split.
    + intros [Heq Hin]. eauto.
    + intros [Hin [name ->]]. split; [|exact Hin].
      now rewrite path_name_join.
Qed.

(** Strings with a common prefix compare as what follows the prefix. *)
Lemma common_prefix_le (prefix a b : string) :
  String.le (prefix +:+ a) (prefix +:+ b) ↔ String.le a b.
Proof.
  unfold String.le, String.leb.
  induction prefix as [|c prefix IH]; [reflexivity|].
  change (String c prefix +:+ a) with (String c (prefix +:+ a)).
  change (String c prefix +:+ b) with (String c (prefix +:+ b)).
  assert (Hhead : ∀ x y, String.compare (String c x) (String c y)
                         = String.compare x y).
  { intros x y. simpl. unfold Ascii.compare.
    now rewrite N.compare_refl. }
  rewrite Hhead. exact IH.
Qed.

(** A list in name order whose names are pairwise distinct is strictly
    increasing. *)
Lemma sorted_distinct_names (l : list Path) :
  StronglySorted name_le l → NoDup (path_name <$> l) →
  StronglySorted name_lt l.
Proof.
  induction 1 as [|p l Hsorted IH Hall]; intros Hnames; constructor.
  - apply IH. now apply NoDup_cons in Hnames.
  - apply NoDup_cons in Hnames as [Hp _].
    rewrite Forall_forall in *. intros q Hq. split; [now apply Hall|].
    intros Heq. apply Hp. rewrite Heq. now apply list_elem_of_fmap_2.
Qed.

(** What the loop of [get_video_files] keeps. *)
Lemma kept_is_video (fs : filesystem) (folder : Path) (files : list Path) :
  iterdir fs folder = Ok files →
  ∀ p, p ∈ filter (λ file, is_file fs file = true
                          ∧ lower (path_suffix file) ∈ VIDEO_EXTENSIONS) files
       ↔ video_in fs folder p.
Proof.
  intros [_ Hfiles]%elem_of_iterdir p.
  rewrite list_elem_of_filter, Hfiles, is_file_spec. unfold video_in. split.
  - intros [[[data Hdata] Hext] [_ [name ->]]].
    exists name, data. unfold path_suffix in Hext.
    now rewrite path_name_join in Hext.
  - intros (name & data & -> & Hdata & Hext). split; [split|]; eauto.
    unfold path_suffix. now rewrite path_name_join.
Qed.

(** The listing of a directory. *)
Lemma get_video_files_dir (fs : filesystem) (folder : Path) :
  fs !! folder = Some Dir →
  ∃ video_files,
    get_video_files fs folder = Ok video_files
    ∧ ∀ p, p ∈ video_files ↔ video_in fs folder p.
Proof.
  intros Hfolder. unfold get_video_files, path_exists.
  rewrite bool_decide_eq_true_2 by eauto. cbn.
  destruct (iterdir fs folder) as [files|e] eqn:Hiter.
  2:{ unfold iterdir in Hiter. now rewrite Hfolder in Hiter. }
  cbn. eexists. split; [reflexivity|].
  intros p. unfold sorted. rewrite merge_sort_Permutation.
  now apply kept_is_video.
Qed.

End VideoFiles.

(** X1. [get_video_files] answers by the kind of the folder: a path that
    does not exist gives the empty list, a regular file makes the listing
    raise, and a directory gives exactly the regular files directly inside
    it whose suffix, lower-cased, is one of the video extensions, so no
    sub-directory, no file deeper down and no file of another folder. *)
Theorem get_video_files_lists_the_videos (fs : filesystem) (folder : Path) :
  match fs !! folder with
  | None => get_video_files fs folder = Ok []
  | Some (File _) =>
      get_video_files fs folder = Raise (Exception "NotADirectoryError")
  | Some Dir =>
      ∃ video_files,
        get_video_files fs folder = Ok video_files
        ∧ ∀ p, p ∈ video_files ↔ video_in fs folder p
  end.
Proof.
  destruct (fs !! folder) as [[data|]|] eqn:Hfolder.
  - unfold get_video_files, path_exists, iterdir. rewrite Hfolder.
    rewrite bool_decide_eq_true_2 by eauto. reflexivity.
  - now apply get_video_files_dir.
  - unfold get_video_files, path_exists. rewrite Hfolder.
    rewrite bool_decide_eq_false_2; [reflexivity|].
    intros [? ?]. discriminate.
Qed.

(** X2. The list [get_video_files] returns is in strictly increasing
    order of file name, byte by byte: it is sorted and no video is listed
    twice. *)
Theorem get_video_files_sorted_by_name (fs : filesystem) (folder : Path)
    (video_files : list Path) :
  get_video_files fs folder = Ok video_files →
  StronglySorted name_lt video_files.
Proof.
  unfold get_video_files.
  destruct (negb (path_exists fs folder)).
  { intros [= <-]. constructor. }
  destruct (iterdir fs folder) as [files|e] eqn:Hiter; [|discriminate].
  cbn. intros [= <-].
  destruct (elem_of_iterdir _ _ _ Hiter) as [Hnodup Hfiles].
  apply sorted_distinct_names.
  - unfold sorted. apply StronglySorted_merge_sort; apply _.
  - unfold sorted. rewrite merge_sort_Permutation.
    apply NoDup_fmap_2_strong; [|now apply NoDup_filter].
    intros p q [_ Hp]%list_elem_of_filter [_ Hq]%list_elem_of_filter Heq.
    apply Hfiles in Hp as [_ [a ->]]. apply Hfiles in Hq as [_ [b ->]].
    rewrite !path_name_join in Heq. now subst.
Qed.

(* ===================================================================== *)
(** * Videos that already have a subtitle *)
(* ===================================================================== *)

Section Subtitled.

#[local] Arguments existsb : simpl never.

Lemma substring_length (s : string) :
  ∀ i n : nat,
    (i + n ≤ String.length s)%nat → String.length (substring i n s) = n.
Proof.
  induction s as [|c s IH]; intros [|i] [|n] Hle; cbn in *;
    try reflexivity; try lia.
  all: first [f_equal; apply IH; lia | apply IH; lia].
Qed.

(** Stem and suffix split the name: with a suffix, the stem is the name
    without its last [len(suffix)] characters. *)
Lemma name_stem_suffix (name : string) :
  (name_suffix name = EmptyString ∧ name_stem name = name)
  ∨ (name_suffix name ≠ EmptyString
     ∧ name_stem name
       = substring 0 (String.length name - String.length (name_suffix name))
           name).
Proof.
  unfold name_suffix, name_stem.
  destruct (rfind "." name) as [i|]; [|left; split; reflexivity].
  destruct ((0 <? i)%nat && (i <? String.length name - 1)%nat) eqn:Hin;
    [|left; split; reflexivity].
  apply andb_true_iff in Hin as [Hpos%Nat.ltb_lt Hlast%Nat.ltb_lt].
  right. rewrite substring_length by lia. split.
  - intros Heq. apply (f_equal String.length) in Heq.
    rewrite substring_length in Heq by lia. cbn in Heq. lia.
  - f_equal. lia.
Qed.

Lemma truthy_name (name : string) :
  truthy (VStr name) = true ↔ name ≠ EmptyString.
Proof.
  cbn. rewrite negb_true_iff. apply String.eqb_neq.
Qed.

Lemma with_suffix_stem (p : Path) (suffix : string) :
  path_name p ≠ EmptyString →
  with_suffix p suffix
  = Ok (path_join (path_parent p) (path_stem p +:+ suffix)).
Proof.
  intros Hname%truthy_name. unfold with_suffix, path_stem.
  rewrite Hname. cbn [negb].
  destruct (name_stem_suffix (path_name p)) as [[-> ->]|[Hsuffix ->]].
  - reflexivity.
  - apply truthy_name in Hsuffix. now rewrite Hsuffix.
Qed.

Lemma with_suffix_empty_name (p : Path) (suffix : string) :
  path_name p = EmptyString →
  with_suffix p suffix = Raise (Exception "ValueError").
Proof. intros Hname. unfold with_suffix. now rewrite Hname. Qed.

(** The candidate of a video for a language tag and an extension. *)
Lemma elem_of_subtitle_candidates (video p : Path) :
  p ∈ subtitle_candidates video
  ↔ ∃ ext tag,
      ext ∈ SUBTITLE_EXTENSIONS
      ∧ tag ∈ EmptyString :: LANGUAGE_TAGS
      ∧ p = path_join (path_parent video) (path_stem video +:+ tag +:+ ext).
Proof.
  unfold subtitle_candidates. rewrite list_elem_of_bind. split.
  - intros (ext & Hp & Hext). apply list_elem_of_bind in Hp as (tag & Hp & Htag).
    apply list_elem_of_singleton in Hp. eauto.
  - intros (ext & tag & Hext & Htag & ->). exists ext. split; [|exact Hext].
    apply list_elem_of_bind. exists tag. split; [|exact Htag].
    now apply list_elem_of_singleton.
Qed.

(** The loop over any list of extensions. *)
Lemma _has_subtitle_loop_spec (fs : filesystem) (video : Path)
    (exts : list string) :
  path_name video ≠ EmptyString →
  ∃ b,
    _has_subtitle_loop fs video exts = Ok b
    ∧ (b = true
       ↔ ∃ ext tag,
           ext ∈ exts
           ∧ tag ∈ EmptyString :: LANGUAGE_TAGS
           ∧ is_Some (fs !! path_join (path_parent video)
                              (path_stem video +:+ tag +:+ ext))).
Proof.
  intros Hname. induction exts as [|ext exts (b & IH & Hb)];
    cbn [_has_subtitle_loop].
  - exists false. split; [reflexivity|]. split; [discriminate|].
    intros (ext & tag & Hext & _). now apply elem_of_nil in Hext.
  - rewrite with_suffix_stem by exact Hname. cbn.
    destruct (path_exists fs (path_join (path_parent video)
                                (path_stem video +:+ ext))) eqn:Hplain.
    { exists true. split; [reflexivity|]. split; [|reflexivity]. intros _.
      exists ext, EmptyString.
      split; [apply list_elem_of_here|]. split; [apply list_elem_of_here|].
      now apply path_exists_spec in Hplain. }
    destruct (existsb
                (λ lang, path_exists fs
                           (path_join (path_parent video)
                              (path_stem video +:+ lang +:+ ext)))
                LANGUAGE_TAGS) eqn:Htagged.
    { exists true. split; [reflexivity|]. split; [|reflexivity]. intros _.
      apply existsb_exists in Htagged as (tag & Htag & Hexists).
      exists ext, tag. split; [apply list_elem_of_here|].
      split; [apply list_elem_of_further, list_elem_of_In, Htag|].
      now apply path_exists_spec in Hexists. }
    exists b. split; [exact IH|]. rewrite Hb. split.
    + intros (ext' & tag & Hext & Htag & Hsome).
      exists ext', tag. split; [now apply list_elem_of_further|]. auto.
    + intros (ext' & tag & Hext & Htag & Hsome).
      apply elem_of_cons in Hext as [->|Hext]; [|eauto].
      exfalso. apply elem_of_cons in Htag as [->|Htag].
      * apply path_exists_false in Hplain.
        change (EmptyString +:+ ext) with ext in Hsome.
        rewrite Hplain in Hsome. now destruct Hsome.
      * assert (existsb
                  (λ lang, path_exists fs
                             (path_join (path_parent video)
                                (path_stem video +:+ lang +:+ ext)))
                  LANGUAGE_TAGS = true) as Hfound; [|congruence].
        apply existsb_exists. exists tag.
        split; [now apply list_elem_of_In|]. now apply path_exists_spec.
Qed.

Lemma _has_subtitle_spec (fs : filesystem) (video : Path) :
  path_name video ≠ EmptyString →
  ∃ b,
    _has_subtitle fs video = Ok b
    ∧ (b = true ↔ ∃ p, p ∈ subtitle_candidates video ∧ is_Some (fs !! p)).
Proof.
  intros Hname.
  destruct (_has_subtitle_loop_spec fs video SUBTITLE_EXTENSIONS Hname)
    as (b & Hrun & Hb).
  exists b. split; [exact Hrun|]. rewrite Hb. split.
  - intros (ext & tag & Hext & Htag & Hsome). eexists. split; [|exact Hsome].
    apply elem_of_subtitle_candidates. eauto.
  - intros (p & (ext & tag & Hext & Htag & ->)%elem_of_subtitle_candidates
              & Hsome).
    eauto.
Qed.

(** A video without a subtitle has none of its candidates on disk. *)
Lemma _has_subtitle_false (fs : filesystem) (video : Path) :
  _has_subtitle fs video = Ok false →
  ∀ p, p ∈ subtitle_candidates video → fs !! p = None.
Proof.
  intros Hrun p Hp.
  destruct (decide (path_name video = EmptyString)) as [Hname|Hname].
  { unfold _has_subtitle in Hrun. cbn [SUBTITLE_EXTENSIONS _has_subtitle_loop]
      in Hrun.
    rewrite (with_suffix_empty_name video ".srt" Hname) in Hrun.
    discriminate. }
  destruct (_has_subtitle_spec fs video Hname) as (b & Hb & Hiff).
  rewrite Hrun in Hb. injection Hb as <-.
  apply eq_None_not_Some. intros Hsome.
  assert (false = true) by (apply Hiff; eauto). discriminate.
Qed.

(** The file the orchestrator writes for a language whose tag
    [_has_subtitle] knows is one of the candidates. *)
Lemma subtitle_path_candidate (w : World) (video : Path) (language : value) :
  "." +:+ py_str w language ∈ LANGUAGE_TAGS →
  subtitle_path w video language ∈ subtitle_candidates video.
Proof.
  intros Htag. apply elem_of_subtitle_candidates.
  exists ".srt", ("." +:+ py_str w language).
  split; [apply list_elem_of_here|].
  split; [now apply list_elem_of_further|]. reflexivity.
Qed.

Lemma video_has_name (fs : filesystem) (folder p : Path) :
  video_in fs folder p → path_name p ≠ EmptyString.
Proof.
  intros (name & data & -> & _ & Hext). rewrite path_name_join.
  intros ->. vm_compute in Hext.
  repeat (apply elem_of_cons in Hext as [Hext|Hext]; [discriminate|]).
  now apply elem_of_nil in Hext.
Qed.

End Subtitled.

(** X3. [_has_subtitle] raises for a path without a file name and is
    defined for every other: it answers [True] exactly when the file
    system holds an entry named by the video's stem, optionally followed by
    [.es], [.en], [.spa] or [.eng], and one of the five subtitle
    extensions, in the video's directory. Nothing else is looked at, and
    the order in which the extensions are tried does not change the
    answer. *)
Theorem _has_subtitle_looks_beside_the_video (fs : filesystem)
    (video : Path) :
  (path_name video = EmptyString →
   _has_subtitle fs video = Raise (Exception "ValueError"))
  ∧ (path_name video ≠ EmptyString →
     ∃ b,
       _has_subtitle fs video = Ok b
       ∧ (b = true
          ↔ ∃ p, p ∈ subtitle_candidates video ∧ is_Some (fs !! p)))
  ∧ (∀ exts,
       exts ≡ₚ SUBTITLE_EXTENSIONS →
       _has_subtitle_loop fs video exts = _has_subtitle fs video)
  ∧ (∀ fs',
       (∀ p, p ∈ subtitle_candidates video → fs' !! p = fs !! p) →
       _has_subtitle fs' video = _has_subtitle fs video).
Proof.
  split; [|split; [|split]].
  - intros Hname. unfold _has_subtitle.
    cbn [SUBTITLE_EXTENSIONS _has_subtitle_loop].
    now rewrite (with_suffix_empty_name video ".srt" Hname).
  - apply _has_subtitle_spec.
  - intros exts Hperm. unfold _has_subtitle.
    destruct (decide (path_name video = EmptyString)) as [Hname|Hname].
    + destruct exts as [|ext exts].
      { apply Permutation_nil_l in Hperm. discriminate. }
      cbn [SUBTITLE_EXTENSIONS _has_subtitle_loop].
      now rewrite !with_suffix_empty_name.
    + destruct (_has_subtitle_loop_spec fs video exts Hname)
        as (b & -> & Hb).
      destruct (_has_subtitle_loop_spec fs video SUBTITLE_EXTENSIONS Hname)
        as (b' & -> & Hb').
      f_equal. apply eq_true_iff_eq. rewrite Hb, Hb'.
      split; intros (ext & tag & Hext & Hrest); exists ext, tag;
        (split; [|exact Hrest]); [rewrite <- Hperm|rewrite Hperm]; exact Hext.
  - intros fs' Hsame.
    destruct (decide (path_name video = EmptyString)) as [Hname|Hname].
    + unfold _has_subtitle. cbn [SUBTITLE_EXTENSIONS _has_subtitle_loop].
      now rewrite !with_suffix_empty_name.
    + destruct (_has_subtitle_spec fs video Hname) as (b & -> & Hb).
      destruct (_has_subtitle_spec fs' video Hname) as (b' & -> & Hb').
      f_equal. apply eq_true_iff_eq. rewrite Hb, Hb'.
      split; intros (p & Hp & Hsome); exists p; (split; [exact Hp|]).
      * now rewrite <- Hsame.
      * now rewrite Hsame.
Qed.

(* ===================================================================== *)
(** * What the orchestrator leaves on disk *)
(* ===================================================================== *)

Section Disk.

#[local] Arguments batch_body : simpl never.
#[local] Arguments batch_loop : simpl nomatch.
#[local] Arguments path_name : simpl never.
#[local] Arguments path_stem : simpl never.
#[local] Arguments path_parent : simpl never.
#[local] Arguments path_join : simpl never.
#[local] Arguments String.append : simpl never.
#[local] Arguments app : simpl never.

Lemma replay_app (a b : list (Path * bytes)) (fs : filesystem) :
  replay (a ++ b) fs = replay b (replay a fs).
Proof. unfold replay. apply foldl_app. Qed.

Lemma replay_cons (p : Path) (data : bytes) (writes : list (Path * bytes))
    (fs : filesystem) :
  replay ((p, data) :: writes) fs = replay writes (<[p := File data]> fs).
Proof. reflexivity. Qed.

(** Replaying writes deletes nothing and changes only the written paths,
    each of which holds a regular file afterwards. *)
Lemma replay_keeps (writes : list (Path * bytes)) :
  ∀ (fs : filesystem) (p : Path),
    is_Some (fs !! p) → is_Some (replay writes fs !! p).
Proof.
  induction writes as [|[q data] writes IH]; intros fs p Hp; [exact Hp|].
  rewrite replay_cons. apply IH. destruct (decide (q = p)) as [->|Hne].
  - rewrite lookup_insert_eq. eauto.
  - now rewrite lookup_insert_ne.
Qed.

Lemma replay_frame (writes : list (Path * bytes)) :
  ∀ (fs : filesystem) (p : Path),
    p ∉ writes.*1 → replay writes fs !! p = fs !! p.
Proof.
  induction writes as [|[q data] writes IH]; intros fs p Hp; [reflexivity|].
  rewrite fmap_cons in Hp. apply not_elem_of_cons in Hp as [Hne Hp].
  rewrite replay_cons, IH by exact Hp. now apply lookup_insert_ne.
Qed.

Lemma replay_written (writes : list (Path * bytes)) :
  ∀ (fs : filesystem) (p : Path),
    p ∈ writes.*1 → ∃ data, replay writes fs !! p = Some (File data).
Proof.
  induction writes as [|[q data] writes IH]; intros fs p Hp.
  { now apply elem_of_nil in Hp. }
  rewrite fmap_cons in Hp. rewrite replay_cons.
  destruct (decide (p ∈ writes.*1)) as [Hin|Hout]; [now apply IH|].
  apply elem_of_cons in Hp as [->|Hp]; [|contradiction].
  rewrite replay_frame by exact Hout. cbn [fst].
  rewrite lookup_insert_eq. eauto.
Qed.

(** The loop of the batch, seen from the file system: the files written
    along the trace, replayed on the initial file system, give the final
    one, and every one of them is the subtitle file of a video of the
    batch. *)
Lemma batch_loop_files (w : World) (total : Z) (videos : list Path) :
  ∀ (i d : Z) (st : state),
    ∃ new,
      st_trace (batch_loop w total i videos d st).1 = st_trace st ++ new
      ∧ st_fs (batch_loop w total i videos d st).1
        = replay (written new) (st_fs st)
      ∧ Forall (λ pd, ∃ video language,
                        video ∈ videos
                        ∧ pd.1 = subtitle_path w video language)
               (written new).
Proof.
  induction videos as [|video videos IH]; intros i d st.
  - exists []. cbn. rewrite app_nil_r. auto.
  - cbn [batch_loop].
    set (st0 := {| st_fs := st_fs st;
                   st_trace := st_trace st
                               ++ [EvStatus (StProcessing (i + 1) total
                                               (path_name video))] |}).
    destruct (batch_body_run w video d st0)
      as (new0 & Htrace0 & _ & _ & Hpersist0).
    unfold_monad. cbn. fold st0.
    destruct (batch_body w video (path_name video) d st0) as [st1 r] eqn:Hrun.
    cbn [fst snd] in *.
    assert (Hstep : st_fs st1 = replay (written new0) (st_fs st)
                    ∧ Forall (λ pd, ∃ language,
                                pd.1 = subtitle_path w video language)
                             (written new0)).
    { unfold persisted_at, nothing_persisted in Hpersist0.
      destruct Hpersist0 as [(_ & sub & language & data & _ & _ & Hw & Hfs)
                            |(_ & Hw & Hfs)];
        rewrite Hw, Hfs; split; try reflexivity.
      - repeat constructor. eauto.
      - constructor. }
    destruct Hstep as [Hfs1 Hnew0].
    assert (Hnext : ∃ d1,
               (let (st', r0) :=
                  match r with
                  | Ok a => (st1, Ok a)
                  | Raise _ => (st1, Ok d)
                  end in
                match r0 with
                | Ok a => batch_loop w total (i + 1) videos a st'
                | Raise e => (st', Raise e)
                end)
               = batch_loop w total (i + 1) videos d1 st1).
    { destruct r; eexists; reflexivity. }
    destruct Hnext as [d1 ->].
    destruct (IH (i + 1) d1 st1) as (rest & Htr & Hfs & Hall).
    exists ([EvStatus (StProcessing (i + 1) total (path_name video))]
            ++ new0 ++ rest).
    assert (Hstatus : written [EvStatus (StProcessing (i + 1) total
                                           (path_name video))] = [])
      by reflexivity.
    rewrite !written_app, Hstatus, app_nil_l.
    split; [|split].
    + rewrite Htr, Htrace0. subst st0. cbn [st_trace].
      now rewrite <- !app_assoc.
    + rewrite Hfs, Hfs1, replay_app. reflexivity.
    + apply Forall_app. split.
      * eapply Forall_impl; [exact Hnew0|].
        intros pd [language Hpd]. exists video, language.
        split; [apply list_elem_of_here|exact Hpd].
      * eapply Forall_impl; [exact Hall|].
        intros pd (v & language & Hv & Hpd). exists v, language.
        split; [now apply list_elem_of_further|exact Hpd].
Qed.

Lemma _do_download_all_files (w : World) (videos : list Path) (st : state) :
  ∃ new,
    st_trace (_do_download_all w videos st).1 = st_trace st ++ new
    ∧ st_fs (_do_download_all w videos st).1 = replay (written new) (st_fs st)
    ∧ Forall (λ pd, ∃ video language,
                      video ∈ videos
                      ∧ pd.1 = subtitle_path w video language)
             (written new).
Proof.
  destruct (batch_loop_files w (Z.of_nat (length videos)) videos 0 0 st)
    as (new & Htr & Hfs & Hall).
  unfold _do_download_all. unfold_monad.
  destruct (batch_loop w (Z.of_nat (length videos)) 0 videos 0 st)
    as [st1 [downloaded|e]]; cbn [fst snd st_trace st_fs] in *.
  - exists (new ++ [EvStatus (StCompleted downloaded
                                (Z.of_nat (length videos)))]).
    unfold emit. cbn [fst snd st_trace st_fs].
    rewrite Htr, written_app, app_assoc.
    cbn [written omap list_omap]. rewrite app_nil_r. auto.
  - exists new. auto.
Qed.

(** The videos kept by the filter had no subtitle. *)
Lemma videos_sin_sub_spec (fs : filesystem) (video_files : list Path) :
  ∀ missing,
    videos_sin_sub fs video_files = Ok missing →
    ∀ v, v ∈ missing ↔ v ∈ video_files ∧ _has_subtitle fs v = Ok false.
Proof.
  induction video_files as [|video rest IH]; intros missing;
    cbn [videos_sin_sub]; unfold mbind, result_bind.
  - intros [= <-] v. rewrite !elem_of_nil. tauto.
  - destruct (_has_subtitle fs video) as [has|e] eqn:Hhas; [|discriminate].
    destruct (videos_sin_sub fs rest) as [kept|e]; [|discriminate].
    intros [= <-] v. specialize (IH kept eq_refl v).
    destruct has.
    + rewrite IH, elem_of_cons. split; [tauto|].
      intros [[->|Hv] Hno]; [congruence|tauto].
    + rewrite !elem_of_cons, IH. split.
      * intros [->|[Hv Hno]]; auto.
      * intros [[->|Hv] Hno]; auto.
Qed.

End Disk.

(** X4. When [_do_download] writes the subtitle of a result whose
    language attribute is [es], [en], [spa] or [eng], the video has a
    subtitle for [_has_subtitle] afterwards: the list box ticks it and a
    later batch leaves it out. *)
Theorem downloaded_subtitle_is_recognised (w : World) (video : Path)
    (subtitle : value) (tag : string) (st : state) (new : list event) :
  path_name video ≠ EmptyString →
  result_language subtitle = Ok (VStr tag) →
  "." +:+ tag ∈ LANGUAGE_TAGS →
  st_trace (_do_download w video subtitle st).1 = st_trace st ++ new →
  written new ≠ [] →
  _has_subtitle (st_fs (_do_download w video subtitle st).1) video = Ok true.
Proof.
  intros Hname Hlanguage Htag Htrace Hwritten.
  destruct (_do_download_run w video subtitle st)
    as (new' & Htrace' & Hpersist & _).
  rewrite Htrace in Htrace'. apply app_inv_head in Htrace' as <-.
  destruct Hpersist as [(language & content & Hl & _ & _ & Hfs)|[Hw _]];
    [|contradiction].
  rewrite Hlanguage in Hl. injection Hl as <-.
  destruct (_has_subtitle_spec (st_fs (_do_download w video subtitle st).1)
              video Hname) as (b & -> & Hb).
  f_equal. apply Hb.
  exists (subtitle_path w video (VStr tag)). split.
  - now apply subtitle_path_candidate.
  - rewrite Hfs, lookup_insert_eq. eauto.
Qed.

(** X5. The batch changes the file system only by the subtitle files it
    writes: the final file system is the initial one with the written
    files put in place in the order of the trace, each of them the
    [<stem>.<language>.srt] of a video of the batch. No entry is deleted
    and a path that was not written keeps its content. *)
Theorem batch_only_writes_subtitle_files (w : World) (videos : list Path)
    (st : state) :
  ∃ new,
    st_trace (_do_download_all w videos st).1 = st_trace st ++ new
    ∧ st_fs (_do_download_all w videos st).1 = replay (written new) (st_fs st)
    ∧ Forall (λ pd, ∃ video language,
                      video ∈ videos
                      ∧ pd.1 = subtitle_path w video language)
             (written new)
    ∧ (∀ p, is_Some (st_fs st !! p) →
            is_Some (st_fs (_do_download_all w videos st).1 !! p))
    ∧ (∀ p, p ∉ (written new).*1 →
            st_fs (_do_download_all w videos st).1 !! p = st_fs st !! p).
Proof.
  destruct (_do_download_all_files w videos st) as (new & Htr & Hfs & Hall).
  exists new. rewrite Hfs. repeat split; try assumption.
  - intros p. apply replay_keeps.
  - intros p. apply replay_frame.
Qed.

(** X6. After the batch, every video for which it wrote a subtitle in
    [es], [en], [spa] or [eng] has a subtitle for [_has_subtitle], whatever
    the batch did afterwards. *)
Theorem batch_subtitles_are_recognised (w : World) (videos : list Path)
    (st : state) (new : list event) (video : Path) (language : value)
    (data : bytes) :
  st_trace (_do_download_all w videos st).1 = st_trace st ++ new →
  (subtitle_path w video language, data) ∈ written new →
  path_name video ≠ EmptyString →
  "." +:+ py_str w language ∈ LANGUAGE_TAGS →
  _has_subtitle (st_fs (_do_download_all w videos st).1) video = Ok true.
Proof.
  intros Htrace Hin Hname Htag.
  destruct (_do_download_all_files w videos st) as (new' & Htr & Hfs & _).
  rewrite Htrace in Htr. apply app_inv_head in Htr as <-.
  destruct (_has_subtitle_spec (st_fs (_do_download_all w videos st).1)
              video Hname) as (b & -> & Hb).
  f_equal. apply Hb.
  exists (subtitle_path w video language). split.
  - now apply subtitle_path_candidate.
  - rewrite Hfs.
    destruct (replay_written (written new) (st_fs st)
                (subtitle_path w video language)) as [data' ->]; [|eauto].
    apply list_elem_of_fmap. now exists (subtitle_path w video language, data).
Qed.

(** X7. [_download_all] starts its batch on the loaded videos that have no
    subtitle yet, so a file it writes under a language tag that
    [_has_subtitle] knows did not exist before: subtitles that were already
    in the folder are not replaced. Without loaded videos, without a video
    that lacks a subtitle, or when the confirmation is declined, nothing is
    done at all. *)
Theorem _download_all_spares_existing_subtitles (w : World)
    (video_files : list Path) (askyesno : Z → bool) (st : state) :
  ∃ new,
    st_trace (_download_all w video_files askyesno st).1 = st_trace st ++ new
    ∧ st_fs (_download_all w video_files askyesno st).1
      = replay (written new) (st_fs st)
    ∧ Forall (λ pd, ∃ video language,
                      video ∈ video_files
                      ∧ _has_subtitle (st_fs st) video = Ok false
                      ∧ pd.1 = subtitle_path w video language
                      ∧ ("." +:+ py_str w language ∈ LANGUAGE_TAGS →
                         st_fs st !! pd.1 = None))
             (written new)
    ∧ ((∀ downloaded,
          (_download_all w video_files askyesno st).2
          ≠ Ok (Completed downloaded)) →
       new = []).
Proof.
  unfold _download_all.
  destruct video_files as [|video rest].
  { exists []. cbn. rewrite app_nil_r. repeat split; auto. }
  unfold_monad.
  destruct (videos_sin_sub (st_fs st) (video :: rest)) as [missing|e] eqn:Hsin.
  2:{ exists []. cbn. rewrite app_nil_r. repeat split; auto. }
  destruct missing as [|m missing].
  { exists []. cbn. rewrite app_nil_r. repeat split; auto. }
  destruct (askyesno _).
  2:{ exists []. cbn. rewrite app_nil_r. repeat split; auto. }
  pose proof (videos_sin_sub_spec _ _ _ Hsin) as Hmissing.
  destruct (_do_download_all_files w (m :: missing) st)
    as (new & Htr & Hfs & Hall).
  destruct (batch_loop_run w (Z.of_nat (length (m :: missing)))
              (m :: missing) 0 0 st) as (st1 & segments & Hrun & _).
  assert (Hok : ∃ n, (_do_download_all w (m :: missing) st).2 = Ok n).
  { unfold _do_download_all. unfold_monad. rewrite Hrun.
    unfold emit. cbn. eauto. }
  destruct (_do_download_all w (m :: missing) st) as [st2 r].
  cbn [fst snd] in *. destruct Hok as [n ->]. cbn [fst snd].
  exists new. split; [exact Htr|]. split; [exact Hfs|]. split.
  - eapply Forall_impl; [exact Hall|].
    intros pd (v & language & Hv & Hpd).
    apply Hmissing in Hv as [Hv Hno].
    exists v, language. repeat split; try assumption.
    intros Htag. rewrite Hpd.
    eapply _has_subtitle_false; [exact Hno|].
    now apply subtitle_path_candidate.
  - intros Hnot. exfalso. eapply Hnot. reflexivity.
Qed.

(* ===================================================================== *)
(** * Loading a folder *)
(* ===================================================================== *)

Section Loading.

Lemma is_dir_spec (fs : filesystem) (p : Path) :
  is_dir fs p = true ↔ fs !! p = Some Dir.
Proof.
  unfold is_dir. destruct (fs !! p) as [[data|]|]; split;
    try discriminate; reflexivity.
Qed.

(** The rows of videos that all have a file name. *)
Lemma listbox_rows_spec (fs : filesystem) (video_files : list Path) :
  Forall (λ video, path_name video ≠ EmptyString) video_files →
  ∃ rows,
    listbox_rows fs video_files = Ok rows
    ∧ Forall2 (λ video row,
                 row.2 = path_name video
                 ∧ (row.1 = true
                    ↔ ∃ p, p ∈ subtitle_candidates video
                           ∧ is_Some (fs !! p)))
              video_files rows.
Proof.
  induction 1 as [|video video_files Hname _ (rows & IH & Hrows)];
    cbn [listbox_rows].
  - exists []. split; [reflexivity|constructor].
  - destruct (_has_subtitle_spec fs video Hname) as (b & -> & Hb).
    rewrite IH. eexists. split; [reflexivity|].
    constructor; [split; [reflexivity|exact Hb]|exact Hrows].
Qed.

End Loading.

(** X8. On a directory, [_load_videos] does not fail: it loads the videos
    [get_video_files] lists, shows one row per video, in the same order,
    with the file name of the video and a tick exactly when a subtitle of
    the video is in the folder, and reports their number. When the folder
    is not a directory, or none is given, it shows the error box and the
    loaded videos stay as they were. *)
Theorem _load_videos_ticks_subtitled_videos (fs : filesystem)
    (video_files : list Path) :
  (∀ folder,
     is_dir fs folder = true →
     ∃ loaded rows,
       get_video_files fs folder = Ok loaded
       ∧ _load_videos fs (Some folder) video_files
         = (loaded, Ok (Loaded rows (Z.of_nat (length loaded))))
       ∧ Forall2 (λ video row,
                    row.2 = path_name video
                    ∧ (row.1 = true
                       ↔ ∃ p, p ∈ subtitle_candidates video
                              ∧ is_Some (fs !! p)))
                 loaded rows)
  ∧ (∀ folder,
       is_dir fs folder = false →
       _load_videos fs (Some folder) video_files
       = (video_files, Ok InvalidFolder))
  ∧ _load_videos fs None video_files = (video_files, Ok InvalidFolder).
Proof.
  split; [|split; [|reflexivity]].
  - intros folder Hdir. unfold _load_videos. rewrite Hdir. cbn [negb].
    apply is_dir_spec in Hdir.
    destruct (get_video_files_dir fs folder Hdir) as (loaded & -> & Hloaded).
    destruct (listbox_rows_spec fs loaded) as (rows & -> & Hrows).
    { apply Forall_forall. intros video Hvideo.
      eapply video_has_name, Hloaded, Hvideo. }
    exists loaded, rows. auto.
  - intros folder Hdir. unfold _load_videos. now rewrite Hdir.
Qed.

(* ===================================================================== *)
(** * The fingerprint: what it sees of a file *)
(* ===================================================================== *)

Section Collisions.

(** The digest of a file of at least 128 KiB. *)
Lemma get_file_hash_body_digest (data : bytes) :
  131072 ≤ Z.of_nat (length data) →
  get_file_hash_body data = Some (format_016x (spec_fingerprint data)).
Proof.
  intros Hsize. unfold get_file_hash_body.
  destruct (Z.of_nat (length data) <? 65536 * 2) eqn:Hsmall; [lia|].
  replace (65536 / bytesize) with 8192 by reflexivity.
  destruct (hash_loop_sum (Z.to_nat 8192) data 0 (Z.of_nat (length data)))
    as (h1 & Hrun1 & Hsum1 & _); [lia|lia|].
  rewrite Hrun1. unfold fh_seek. cbn [fh_data].
  rewrite Z.max_r by lia.
  destruct (hash_loop_sum (Z.to_nat 8192) data
              (Z.of_nat (length data) - 65536) h1)
    as (h2 & Hrun2 & Hsum2 & Hrange); [lia|lia|].
  rewrite Hrun2. do 2 f_equal.
  rewrite <- (Z.mod_small h2 (2 ^ 64)) by (apply Hrange; lia).
  rewrite Hsum2. unfold spec_fingerprint.
  replace (8 * Z.to_nat 8192)%nat with (Z.to_nat 65536) in * by lia.
  change (Z.to_nat 0) with 0%nat in Hsum1. rewrite drop_0 in Hsum1.
  rewrite (take_ge (drop _ data)) by (rewrite length_drop; lia).
  rewrite <- (Z.add_mod_idemp_l h1), Hsum1 by lia.
  rewrite Z.add_mod_idemp_l by lia. reflexivity.
Qed.

Lemma get_file_hash_body_small (data : bytes) :
  Z.of_nat (length data) < 131072 → get_file_hash_body data = None.
Proof.
  intros Hsize. unfold get_file_hash_body.
  destruct (Z.of_nat (length data) <? 65536 * 2) eqn:Hsmall; [reflexivity|lia].
Qed.

Lemma spec_fingerprint_range (data : bytes) :
  0 ≤ spec_fingerprint data < 2 ^ 64.
Proof. unfold spec_fingerprint. apply Z.mod_pos_bound. lia. Qed.

End Collisions.

(** X9. The fingerprint sees the size of a file and its first and last
    64 KiB, nothing else: two files of the same size that agree on those
    two blocks get the same answer from [get_file_hash], whatever lies in
    between and wherever they are stored. *)
Theorem get_file_hash_ignores_the_middle (fs fs' : filesystem)
    (filepath filepath' : Path) (data data' : bytes) :
  fs !! filepath = Some (File data) →
  fs' !! filepath' = Some (File data') →
  length data = length data' →
  take (Z.to_nat 65536) data = take (Z.to_nat 65536) data' →
  drop (length data - Z.to_nat 65536) data
  = drop (length data' - Z.to_nat 65536) data' →
  get_file_hash fs filepath = get_file_hash fs' filepath'.
Proof.
  intros Hfile Hfile' Hlen Hhead Htail.
  unfold get_file_hash, open_rb. rewrite Hfile, Hfile'.
  destruct (Z_lt_ge_dec (Z.of_nat (length data)) 131072) as [Hsmall|Hlarge].
  - rewrite !get_file_hash_body_small by lia. reflexivity.
  - rewrite !get_file_hash_body_digest by lia. do 2 f_equal.
    unfold spec_fingerprint. rewrite <- Hlen, <- Hhead.
    replace (Z.to_nat (Z.of_nat (length data) - 65536))
      with (length data - Z.to_nat 65536)%nat by lia.
    rewrite Htail at 1. rewrite <- Hlen. reflexivity.
Qed.

(** X10. The size always counts: two files of different sizes, both of
    at least 128 KiB and below 2^64 bytes, whose first 64 KiB agree and
    whose last 64 KiB agree, get different fingerprints. *)
Theorem get_file_hash_tells_sizes_apart (fs fs' : filesystem)
    (filepath filepath' : Path) (data data' : bytes) :
  fs !! filepath = Some (File data) →
  fs' !! filepath' = Some (File data') →
  131072 ≤ Z.of_nat (length data) < 2 ^ 64 →
  131072 ≤ Z.of_nat (length data') < 2 ^ 64 →
  length data ≠ length data' →
  take (Z.to_nat 65536) data = take (Z.to_nat 65536) data' →
  drop (length data - Z.to_nat 65536) data
  = drop (length data' - Z.to_nat 65536) data' →
  is_Some (get_file_hash fs filepath)
  ∧ is_Some (get_file_hash fs' filepath')
  ∧ get_file_hash fs filepath ≠ get_file_hash fs' filepath'.
Proof.
  intros Hfile Hfile' Hsize Hsize' Hlen Hhead Htail.
  unfold get_file_hash, open_rb. rewrite Hfile, Hfile'.
  rewrite !get_file_hash_body_digest by lia.
  split; [eauto|]. split; [eauto|].
  intros [= Heq].
  apply (f_equal hex_value) in Heq.
  destruct (format_016x_digits _ (spec_fingerprint_range data)) as [_ Hv].
  destruct (format_016x_digits _ (spec_fingerprint_range data')) as [_ Hv'].
  rewrite Hv, Hv' in Heq. injection Heq as Heq.
  unfold spec_fingerprint in Heq. rewrite <- Hhead in Heq.
  replace (Z.to_nat (Z.of_nat (length data) - 65536))
    with (length data - Z.to_nat 65536)%nat in Heq by lia.
  replace (Z.to_nat (Z.of_nat (length data') - 65536))
    with (length data' - Z.to_nat 65536)%nat in Heq by lia.
  rewrite <- Htail in Heq.
  set (head := sum_Z (words8 (take (Z.to_nat 65536) data))) in Heq.
  set (tail := sum_Z (words8 (drop (length data - Z.to_nat 65536) data)))
    in Heq.
  clearbody head tail.
  assert (Hdiff : (Z.of_nat (length data) - Z.of_nat (length data'))
                  mod 2 ^ 64 = 0).
  { replace (Z.of_nat (length data) - Z.of_nat (length data'))
      with ((Z.of_nat (length data) + head + tail)
            - (Z.of_nat (length data') + head + tail)) by lia.
    rewrite Zminus_mod, Heq, Z.sub_diag. reflexivity. }
  apply Z.mod_divide in Hdiff as [k Hk]; [|lia].
  assert (k = 0) by nia. lia.
Qed.

(* ===================================================================== *)
(** * Renaming: failures and repeated use *)
(* ===================================================================== *)

Section Renaming.

(** [rename_subtitle] on a regular file, for a video whose folder is
    there. *)
Lemma rename_subtitle_run (fs : filesystem) (subtitle_path video_path : Path)
    (data : bytes) :
  fs !! subtitle_path = Some (File data) →
  fs !! path_parent video_path = Some Dir →
  ∃ new_path,
    rename_subtitle fs subtitle_path video_path
    = Some (Ok (new_path, <[new_path := File data]> (delete subtitle_path fs)))
    ∧ fs !! new_path = None.
Proof.
  intros Hsub Hfolder. unfold rename_subtitle, rename_subtitle_fuel.
  destruct (free_path_terminates fs subtitle_path video_path
              (path_join (path_parent video_path)
                 (path_stem video_path +:+ path_suffix subtitle_path)))
    as [p Hrun].
  rewrite Hrun.
  destruct (free_path_first fs subtitle_path video_path _ _ _ _ Hrun)
    as [Hfree _].
  apply free_path_parent in Hrun.
  exists p. unfold fs_rename. rewrite Hsub, Hrun, Hfolder. auto.
Qed.

(** [rename_subtitle] for a video whose folder is not there. *)
Lemma rename_subtitle_no_folder (fs : filesystem)
    (subtitle_path video_path : Path) :
  fs !! path_parent video_path ≠ Some Dir →
  ∃ e, rename_subtitle fs subtitle_path video_path = Some (Raise e).
Proof.
  intros Hfolder. unfold rename_subtitle, rename_subtitle_fuel.
  destruct (free_path_terminates fs subtitle_path video_path
              (path_join (path_parent video_path)
                 (path_stem video_path +:+ path_suffix subtitle_path)))
    as [p Hrun].
  rewrite Hrun. apply free_path_parent in Hrun.
  unfold fs_rename. rewrite Hrun.
  destruct (fs !! subtitle_path); [|eauto].
  destruct (fs !! path_parent video_path) as [[?|]|]; [eauto|congruence|eauto].
Qed.

(** The path [rename_subtitle] returns lies in the folder of the video. *)
Lemma rename_subtitle_parent (fs fs' : filesystem)
    (subtitle_path video_path new_path : Path) :
  rename_subtitle fs subtitle_path video_path = Some (Ok (new_path, fs')) →
  path_parent new_path = path_parent video_path.
Proof.
  unfold rename_subtitle, rename_subtitle_fuel.
  destruct (free_path _ _ _ _ _ _ _) as [p|] eqn:Hrun; [|discriminate].
  apply free_path_parent in Hrun.
  destruct (fs_rename fs subtitle_path p); [|discriminate].
  intros [= <- _]. exact Hrun.
Qed.

End Renaming.

(** X11. [rename_subtitle] on a subtitle that does not exist fails with
    the error of the rename, after its search for a free name has ended:
    no file is created or changed. *)
Theorem rename_subtitle_missing_source (fs : filesystem)
    (subtitle_path video_path : Path) :
  fs !! subtitle_path = None →
  rename_subtitle fs subtitle_path video_path
  = Some (Raise (Exception "FileNotFoundError")).
Proof.
  intros Hsub. unfold rename_subtitle, rename_subtitle_fuel.
  destruct (free_path_terminates fs subtitle_path video_path
              (path_join (path_parent video_path)
                 (path_stem video_path +:+ path_suffix subtitle_path)))
    as [p ->].
  unfold fs_rename. now rewrite Hsub.
Qed.

(** X12. Renaming two different subtitles, both regular files, for the
    same video, one after the other: when the folder of the video is a
    directory both renames succeed and both subtitles are kept, under two
    different names in that folder, each with its own content, and the
    second rename does not touch the file of the first; when the folder
    of the video is not a directory the first rename already raises. *)
Theorem rename_subtitle_twice_keeps_both (fs : filesystem)
    (first second video_path : Path) (data1 data2 : bytes) :
  fs !! first = Some (File data1) →
  fs !! second = Some (File data2) →
  first ≠ second →
  (fs !! path_parent video_path = Some Dir →
   ∃ p1 fs1 p2 fs2,
     rename_subtitle fs first video_path = Some (Ok (p1, fs1))
     ∧ rename_subtitle fs1 second video_path = Some (Ok (p2, fs2))
     ∧ p1 ≠ p2
     ∧ path_parent p1 = path_parent video_path
     ∧ path_parent p2 = path_parent video_path
     ∧ fs2 !! p1 = Some (File data1)
     ∧ fs2 !! p2 = Some (File data2)
     ∧ fs2 !! second = None)
  ∧ (fs !! path_parent video_path ≠ Some Dir →
     ∃ e, rename_subtitle fs first video_path = Some (Raise e)).
Proof.
  intros Hfirst Hsecond Hne.
  split; [|apply rename_subtitle_no_folder].
  intros Hfolder.
  destruct (rename_subtitle_run fs first video_path data1 Hfirst Hfolder)
    as (p1 & Hrun1 & Hfree1).
  set (fs1 := <[p1 := File data1]> (delete first fs)) in *.
  assert (Hp1 : p1 ≠ second) by congruence.
  assert (Hsecond1 : fs1 !! second = Some (File data2)).
  { subst fs1. rewrite lookup_insert_ne by exact Hp1.
    rewrite lookup_delete_ne by exact Hne. exact Hsecond. }
  assert (Hfolder1 : fs1 !! path_parent video_path = Some Dir).
  { subst fs1. rewrite lookup_insert_ne by congruence.
    rewrite lookup_delete_ne by congruence. exact Hfolder. }
  destruct (rename_subtitle_run fs1 second video_path data2 Hsecond1 Hfolder1)
    as (p2 & Hrun2 & Hfree2).
  assert (Hp12 : p1 ≠ p2).
  { intros ->. subst fs1. rewrite lookup_insert_eq in Hfree2. discriminate. }
  exists p1, fs1, p2, (<[p2 := File data2]> (delete second fs1)).
  split; [exact Hrun1|]. split; [exact Hrun2|]. split; [exact Hp12|].
  split; [|split; [|split; [|split]]].
  - eapply rename_subtitle_parent, Hrun1.
  - eapply rename_subtitle_parent, Hrun2.
  - rewrite lookup_insert_ne by congruence.
    rewrite lookup_delete_ne by congruence.
    subst fs1. apply lookup_insert_eq.
  - apply lookup_insert_eq.
  - rewrite lookup_insert_ne by congruence. apply lookup_delete_eq.
Qed.

(* ===================================================================== *)
(** * File ids between search and download *)
(* ===================================================================== *)

Section FileIds.

Lemma pretty_N_char_digit (d : N) :
  (d < 10)%N → digit_value (pretty_N_char d) = Some (Z.of_N d).
Proof.
  intros Hd.
  assert (d = 0 ∨ d = 1 ∨ d = 2 ∨ d = 3 ∨ d = 4 ∨ d = 5 ∨ d = 6 ∨ d = 7
          ∨ d = 8 ∨ d = 9)%N as Hcases by lia.
  repeat (destruct Hcases as [->|Hcases]; [reflexivity|]).
  subst. reflexivity.
Qed.

Lemma pretty_N_char_plain (d : N) :
  is_blank (pretty_N_char d) = false
  ∧ pretty_N_char d ≠ "-"%char ∧ pretty_N_char d ≠ "+"%char
  ∧ (nat_of_ascii (pretty_N_char d) < 127)%nat.
Proof.
  unfold pretty_N_char.
  repeat case_match; repeat split;
    first [reflexivity | discriminate | apply Nat.ltb_lt; reflexivity].
Qed.

Lemma pretty_N_go_digits (x : N) :
  ∀ s, all_digits s → all_digits (pretty_N_go x s).
Proof.
  induction (N.lt_wf_0 x) as [x _ IH]; intros s Hs.
  assert (x = 0 ∨ 0 < x)%N as [->|Hpos] by lia.
  - now rewrite pretty_N_go_0.
  - rewrite pretty_N_go_step by exact Hpos.
    apply IH; [now apply N.div_lt|]. split; [eauto|exact Hs].
Qed.

Lemma pretty_N_go_nonempty (x : N) :
  ∀ s, s ≠ EmptyString → pretty_N_go x s ≠ EmptyString.
Proof.
  induction (N.lt_wf_0 x) as [x _ IH]; intros s Hs.
  assert (x = 0 ∨ 0 < x)%N as [->|Hpos] by lia.
  - now rewrite pretty_N_go_0.
  - rewrite pretty_N_go_step by exact Hpos.
    apply IH; [now apply N.div_lt|discriminate].
Qed.

(** Reading the digits of a positive number back. *)
Lemma pretty_N_go_value (x : N) :
  (0 < x)%N →
  ∀ s, ∃ k, 0 ≤ k
            ∧ ∀ acc b,
                digits_from acc b (pretty_N_go x s)
                = digits_from (acc * 10 ^ k + Z.of_N x) true s.
Proof.
  induction (N.lt_wf_0 x) as [x _ IH]; intros Hpos s.
  rewrite pretty_N_go_step by exact Hpos.
  pose proof (N.mod_lt x 10 ltac:(lia)) as Hmod.
  pose proof (N.div_mod x 10 ltac:(lia)) as Hdiv.
  assert (x `div` 10 = 0 ∨ 0 < x `div` 10)%N as [Hzero|Hmore] by lia.
  - rewrite Hzero, pretty_N_go_0. exists 1. split; [lia|].
    intros acc b. cbn [digits_from].
    rewrite pretty_N_char_digit by exact Hmod. f_equal. lia.
  - destruct (IH (x `div` 10)%N ltac:(now apply N.div_lt) Hmore
                (String (pretty_N_char (x `mod` 10)) s)) as (k & Hk & Hread).
    exists (k + 1). split; [lia|].
    intros acc b. rewrite Hread. cbn [digits_from].
    rewrite pretty_N_char_digit by exact Hmod. f_equal.
    rewrite Z.pow_add_r by lia. lia.
Qed.

Lemma all_digits_plain (s : string) : all_digits s → plain s.
Proof.
  induction s as [|c s IH]; [trivial|]. intros [[d ->] Hs].
  split; [apply pretty_N_char_plain|apply IH, Hs].
Qed.

Lemma chars_plain (c : ascii) (s : string) :
  plain s → chars (String c s) = String c EmptyString :: chars s.
Proof.
  destruct s as [|c' s]; [reflexivity|]. intros [Hc' _].
  cbn [chars]. unfold is_continuation.
  destruct (128 <=? nat_of_ascii c')%nat eqn:Hhigh; [|reflexivity].
  apply Nat.leb_le in Hhigh. lia.
Qed.

Lemma int_char_plain (c : ascii) :
  (nat_of_ascii c < 127)%nat →
  int_char (code_point (String c EmptyString)) = Some c.
Proof.
  intros Hc. unfold code_point, byte_of. cbn [list_ascii_of_string length].
  destruct (Z.of_nat (nat_of_ascii c) <? 128) eqn:Hlow; [|lia].
  destruct (decide (0 = 0)%nat); [|congruence].
  unfold int_char.
  destruct ((0 <=? Z.of_nat (nat_of_ascii c))
            && (Z.of_nat (nat_of_ascii c) <? 127)) eqn:Hrange.
  - now rewrite Nat2Z.id, ascii_nat_embedding.
  - apply andb_false_iff in Hrange as [Hneg|Hbig]; lia.
Qed.

(** [int] reads plain text as it stands. *)
Lemma int_text_plain (s : string) : plain s → int_text s = Some s.
Proof.
  unfold int_text. induction s as [|c s IH]; [reflexivity|]. intros [Hc Hs].
  rewrite chars_plain by exact Hs. cbn [map mapM].
  rewrite int_char_plain by exact Hc. cbn [mbind option_bind].
  specialize (IH Hs).
  destruct (mapM int_char (map code_point (chars s))) as [text|];
    [|discriminate].
  injection IH as <-. reflexivity.
Qed.

Lemma skip_blanks_digits (s : string) : all_digits s → skip_blanks s = s.
Proof.
  destruct s as [|c s]; [reflexivity|]. intros [[d ->] _]. cbn.
  now rewrite (proj1 (pretty_N_char_plain d)).
Qed.

Lemma drop_trailing_blanks_digits (s : string) :
  all_digits s → drop_trailing_blanks s = s.
Proof.
  induction s as [|c s IH]; [reflexivity|]. intros [[d ->] Hs].
  cbn [drop_trailing_blanks]. rewrite IH by exact Hs.
  rewrite (proj1 (pretty_N_char_plain d)). now destruct s.
Qed.

Lemma sign_of_digits (s : string) :
  all_digits s →
  match s with
  | String "-" r => (true, r)
  | String "+" r => (false, r)
  | _ => (false, s)
  end = (false, s).
Proof.
  destruct s as [|c s]; [reflexivity|]. intros [[d ->] _].
  destruct (pretty_N_char_plain d) as (_ & Hminus & Hplus & _).
  destruct (pretty_N_char d) as [[] [] [] [] [] [] [] []];
    try reflexivity; congruence.
Qed.

Lemma py_int_positive (p : positive) :
  py_int (pretty_N_go (N.pos p) EmptyString) = Ok (Z.pos p)
  ∧ py_int ("-" +:+ pretty_N_go (N.pos p) EmptyString) = Ok (Z.neg p).
Proof.
  assert (Hdigits : all_digits (pretty_N_go (N.pos p) EmptyString))
    by now apply pretty_N_go_digits.
  assert (Hne : pretty_N_go (N.pos p) EmptyString ≠ EmptyString).
  { rewrite pretty_N_go_step by lia. now apply pretty_N_go_nonempty. }
  destruct (pretty_N_go_value (N.pos p) ltac:(lia) EmptyString)
    as (k & Hk & Hread).
  split; unfold py_int.
  - rewrite int_text_plain by now apply all_digits_plain.
    unfold int_literal.
    rewrite skip_blanks_digits, drop_trailing_blanks_digits by exact Hdigits.
    rewrite sign_of_digits by exact Hdigits.
    rewrite Hread. reflexivity.
  - change ("-" +:+ pretty_N_go (N.pos p) EmptyString)
      with (String "-" (pretty_N_go (N.pos p) EmptyString)).
    rewrite int_text_plain
      by (split; [apply Nat.ltb_lt; reflexivity|now apply all_digits_plain]).
    unfold int_literal.
    assert (Hl : ∀ r, skip_blanks (String "-" r) = String "-" r)
      by reflexivity.
    rewrite Hl. cbn [drop_trailing_blanks].
    rewrite drop_trailing_blanks_digits by exact Hdigits.
    destruct (pretty_N_go (N.pos p) EmptyString) as [|c r] eqn:Hs;
      [contradiction|].
    rewrite Hread. reflexivity.
Qed.

(** [int(str(n))] is [n]. *)
Lemma py_int_pretty (n : Z) : py_int (pretty n) = Ok n.
Proof.
  destruct n as [|p|p].
  - reflexivity.
  - apply (py_int_positive p).
  - apply (py_int_positive p).
Qed.

End FileIds.

(** X13. A result of [OpenSubtitlesProvider.search] carries the file id of
    the first file of its item as text, and [download] reads it back: for
    an integer file id [n] the reference of the result is an integer
    literal with value [n], so [download] asks the service for the file
    the search found. An item whose file has no id gives a reference
    that [download] cannot read. *)
Theorem search_result_names_its_file (w : World) (item : value)
    (result : SubtitleResult) :
  convert_item w item = Ok (Some result) →
  ∃ file_id,
    first_file_id item = Ok file_id
    ∧ download_url result = VStr (py_str w file_id)
    ∧ (∀ n, file_id = VInt n → py_int_of (download_url result) = Ok n)
    ∧ (file_id = VStr EmptyString →
       py_int_of (download_url result) = Raise (Exception "ValueError")).
Proof.
  unfold convert_item, first_file_id, mbind, mret, result_bind, result_ret.
  destruct (py_get item "attributes" (VDict [])) as [attributes|e];
    [|discriminate].
  destruct (py_get attributes "language" (VStr "es")) as [lang_code|e];
    [|discriminate].
  destruct (py_get attributes "files" (VList [])) as [files|e];
    [|discriminate].
  destruct (negb (truthy files)); [discriminate|].
  destruct (py_index0 files) as [file_info|e]; [|discriminate].
  destruct (py_get attributes "release" _) as [release|e]; [|discriminate].
  destruct (py_get file_info "file_id" _) as [file_id|e]; [|discriminate].
  destruct (py_get attributes "comments" _) as [comments|e]; [|discriminate].
  destruct (py_get attributes "download_count" _) as [count|e];
    [|discriminate].
  destruct (py_get attributes "ratings" _) as [ratings|e]; [|discriminate].
  destruct (py_float w ratings) as [rating|e]; [|discriminate].
  intros [= <-]. exists file_id. cbn [download_url].
  split; [reflexivity|]. split; [reflexivity|]. split.
  - intros n ->. apply py_int_pretty.
  - intros ->. reflexivity.
Qed.

(* ===================================================================== *)
(** * The providers: what a download leaves, what a search returns *)
(* ===================================================================== *)

Section ProviderResults.

#[local] Arguments py_int : simpl never.
#[local] Arguments py_get : simpl never.
#[local] Arguments fetch : simpl never.
#[local] Arguments truthy : simpl nomatch.
#[local] Arguments path_join : simpl never.
#[local] Arguments String.append : simpl never.

(** The results of the structured-API search are converted items. *)
Lemma OpenSubtitlesProvider_search_items (self : OpenSubtitlesProvider)
    (w : World) (query : string) (language : option Language) :
  ∃ items,
    (OpenSubtitlesProvider_search self w query language).2
    = take 15 (omap (item_result w) items).
Proof.
  unfold OpenSubtitlesProvider_search.
  destruct (negb _); [exists []; reflexivity|].
  destruct (_ ≫= _) as [[code|results]|e] eqn:Hrun;
    try (exists []; reflexivity).
  revert Hrun. unfold mbind, mret, result_bind, result_ret.
  destruct (requests_get w _ _ _) as [response|e]; [|discriminate].
  destruct (negb _); [discriminate|].
  destruct (json response) as [data|e]; [|discriminate].
  destruct (py_get data "data" _) as [found|e]; [|discriminate].
  destruct (py_iter found) as [items|e]; [|discriminate].
  intros [= <-]. exists items. cbn [snd].
  now rewrite convert_items_omap.
Qed.

Lemma item_result_fields (w : World) (item : value) (result : SubtitleResult) :
  item_result w item = Some result →
  provider result = OpenSubtitlesProvider_name
  ∧ (language result = ENGLISH ∨ language result = SPANISH_LATAM)
  ∧ (language result = ENGLISH
     ↔ (attributes ← py_get item "attributes" (VDict []);
        py_get attributes "language" (VStr "es")) = Ok (VStr "en")).
Proof.
  unfold item_result, convert_item, mbind, mret, result_bind, result_ret.
  destruct (py_get item "attributes" (VDict [])) as [attributes|e];
    [|discriminate].
  destruct (py_get attributes "language" (VStr "es")) as [lang_code|e];
    [|discriminate].
  destruct (py_get attributes "files" (VList [])) as [files|e];
    [|discriminate].
  destruct (negb (truthy files)); [discriminate|].
  destruct (py_index0 files) as [file_info|e]; [|discriminate].
  destruct (py_get attributes "release" _) as [release|e]; [|discriminate].
  destruct (py_get file_info "file_id" _) as [file_id|e]; [|discriminate].
  destruct (py_get attributes "comments" _) as [comments|e]; [|discriminate].
  destruct (py_get attributes "download_count" _) as [count|e];
    [|discriminate].
  destruct (py_get attributes "ratings" _) as [ratings|e]; [|discriminate].
  destruct (py_float w ratings) as [rating|e]; [|discriminate].
  intros [= <-]. cbn [provider language]. split; [reflexivity|].
  destruct lang_code as [| | | |s| | | |];
    try (split; [right; reflexivity|split; discriminate]).
  destruct (decide (s = "en")) as [->|Hs].
  - split; [left; reflexivity|]. split; reflexivity.
  - assert (match s with
            | "en" => ENGLISH
            | _ => SPANISH_LATAM
            end = SPANISH_LATAM) as ->.
    { repeat (destruct s as [|[[] [] [] [] [] [] [] []] s];
              try reflexivity; try congruence). }
    split; [right; reflexivity|].
    split; [discriminate|]. intros [= ->]. contradiction.
Qed.

(** A slice holds no more characters than it asks for. *)
Lemma str_len_take (s : string) :
  ∀ n : nat, (str_len (str_take n s) ≤ n)%nat.
Proof.
  induction s as [|c s IH]; intros n; cbn [str_take str_len]; [lia|].
  destruct (is_continuation c) eqn:Hc.
  - cbn [str_len]. rewrite Hc. apply IH.
  - destruct n as [|n]; cbn [str_len]; [lia|].
    rewrite Hc. specialize (IH n). lia.
Qed.

(** The results of the browser-automation search come from the page. *)
Lemma SubDivXProvider_search_page (sc : Scraping) (self : SubDivXProvider)
    (query : string) (language : option Language) :
  (SubDivXProvider_search sc self query language).2 = []
  ∨ ∃ page,
      (SubDivXProvider_search sc self query language).2
      = take 15 (_parse_results sc page).
Proof.
  unfold SubDivXProvider_search.
  destruct (negb (PLAYWRIGHT_AVAILABLE sc)); [left; reflexivity|].
  destruct (_init_browser sc self) as [[self' printed] ready].
  destruct (negb ready); [left; reflexivity|].
  destruct (browser self'); [|left; reflexivity].
  destruct (open_page _ _ _); [|left; reflexivity].
  destruct (context_cookies _ _); [|left; reflexivity].
  destruct (page_soup _ _) as [page|e]; [|left; reflexivity].
  right. exists page. destruct (context_close _ _); reflexivity.
Qed.

Lemma _extract_result_fields (sc : Scraping) (element : element)
    (result : SubtitleResult) :
  _extract_result sc element = Some result →
  provider result = SubDivXProvider_name
  ∧ language result = SPANISH_LATAM
  ∧ ∃ text, description result = VStr text
            ∧ (str_len text ≤ 200)%nat.
Proof.
  unfold _extract_result, mbind, mret, result_bind, result_ret.
  destruct (el_find_a element) as [[link|]|e]; try discriminate.
  intros [= <-]. cbn [provider language description].
  split; [reflexivity|]. split; [reflexivity|].
  eexists. split; [reflexivity|].
  destruct (match el_detalle_id element with
            | Some d => Some d
            | None => el_detalle_class element
            end); [apply str_len_take|cbn; lia].
Qed.

Lemma link_result_fields (sc : Scraping) (link : anchor)
    (result : SubtitleResult) :
  link_result sc link = Some result →
  provider result = SubDivXProvider_name
  ∧ language result = SPANISH_LATAM
  ∧ ∃ text, description result = VStr text
            ∧ (str_len text ≤ 200)%nat.
Proof.
  unfold link_result. destruct (truthy _); [|discriminate].
  intros [= <-]. cbn [provider language description].
  split; [reflexivity|]. split; [reflexivity|].
  exists EmptyString. split; [reflexivity|cbn; lia].
Qed.

Lemma _parse_results_fields (sc : Scraping) (page : soup)
    (result : SubtitleResult) :
  result ∈ _parse_results sc page →
  provider result = SubDivXProvider_name
  ∧ language result = SPANISH_LATAM
  ∧ ∃ text, description result = VStr text
            ∧ (str_len text ≤ 200)%nat.
Proof.
  unfold _parse_results.
  destruct (omap (_extract_result sc) (by_id_menu_titulo page))
    as [|r1 l1] eqn:H1.
  - destruct (omap (_extract_result sc) (by_class_titulo_menu page))
      as [|r2 l2] eqn:H2.
    + intros (link & _ & Hlink)%list_elem_of_omap.
      eapply link_result_fields, Hlink.
    + rewrite <- H2. intros (element & _ & Hel)%list_elem_of_omap.
      eapply _extract_result_fields, Hel.
  - rewrite <- H1. intros (element & _ & Hel)%list_elem_of_omap.
    eapply _extract_result_fields, Hel.
Qed.

(** The results of the aggregator's search are built from the subtitles
    the library listed. *)
Lemma elem_of_collect_subliminal (video : N) (subs : list subliminal_subtitle) :
  ∀ results item,
    item ∈ collect_subliminal video subs results →
    item ∈ results
    ∨ ∃ sub release, sub ∈ subs ∧ item = subliminal_result video sub release.
Proof.
  induction subs as [|sub subs IH]; intros results item;
    cbn [collect_subliminal]; [auto|].
  destruct (release_of sub) as [release|e]; [|auto].
  intros [Hin|(sub' & release' & Hsub & ->)]%IH.
  - apply elem_of_app in Hin as [Hin|Hin%list_elem_of_singleton]; [auto|].
    right. exists sub, release. split; [apply list_elem_of_here|exact Hin].
  - right. exists sub', release'. split; [now apply list_elem_of_further|].
    reflexivity.
Qed.

Lemma SubliminalFallback_search_results (w : World) (video_path : Path)
    (languages : string) :
  ∃ results,
    SubliminalFallback_search_for_video w video_path languages = VList results
    ∧ (length results ≤ 15)%nat
    ∧ ∀ item, item ∈ results →
              ∃ video sub release, item = subliminal_result video sub release.
Proof.
  destruct (SubliminalFallback_search_capped w video_path languages)
    as (results & Hrun & Hlen).
  exists results. split; [exact Hrun|]. split; [exact Hlen|].
  revert Hrun. unfold SubliminalFallback_search_for_video.
  destruct (negb _).
  { intros [= <-] item Hin. now apply elem_of_nil in Hin. }
  destruct (_ ≫= _) as [[video subs]|e].
  - intros [= <-] item [Hin|(sub & release & _ & ->)]%elem_of_collect_subliminal.
    + now apply elem_of_nil in Hin.
    + eauto.
  - intros [= <-] item Hin. now apply elem_of_nil in Hin.
Qed.

End ProviderResults.

(** X14. [OpenSubtitlesProvider.search] returns at most fifteen results,
    every one labelled with the provider name [OpenSubtitles] and with the
    language English, when the item says [en], or Latin American Spanish,
    for anything else: whatever language was asked for, no result is
    labelled as Spanish of Spain. *)
Theorem OpenSubtitlesProvider_search_labels_its_results
    (self : OpenSubtitlesProvider) (w : World) (query : string)
    (asked : option Language) :
  (length (OpenSubtitlesProvider_search self w query asked).2 ≤ 15)%nat
  ∧ ∀ result,
      result ∈ (OpenSubtitlesProvider_search self w query asked).2 →
      provider result = "OpenSubtitles"
      ∧ (language result = ENGLISH ∨ language result = SPANISH_LATAM).
Proof.
  split; [apply OpenSubtitlesProvider_search_capped|].
  destruct (OpenSubtitlesProvider_search_items self w query asked)
    as [items ->].
  intros result Hin%subseteq_take.
  apply list_elem_of_omap in Hin as (item & _ & Hitem).
  destruct (item_result_fields w item result Hitem) as (Hp & Hl & _). auto.
Qed.

(** X15. [SubDivXProvider.search] returns at most fifteen results, every
    one labelled with the provider name [SubDivX] and the language Latin
    American Spanish, with a description of at most 200 characters
    (characters, not bytes: accented text of 200 characters is longer
    than 200 bytes). *)
Theorem SubDivXProvider_search_labels_its_results (sc : Scraping)
    (self : SubDivXProvider) (query : string) (asked : option Language) :
  (length (SubDivXProvider_search sc self query asked).2 ≤ 15)%nat
  ∧ ∀ result,
      result ∈ (SubDivXProvider_search sc self query asked).2 →
      provider result = "SubDivX"
      ∧ language result = SPANISH_LATAM
      ∧ ∃ text, description result = VStr text
                ∧ (str_len text ≤ 200)%nat.
Proof.
  split; [apply SubDivXProvider_search_capped|].
  destruct (SubDivXProvider_search_page sc self query asked)
    as [->|[page ->]].
  - intros result Hin. now apply elem_of_nil in Hin.
  - intros result Hin%subseteq_take.
    now apply _parse_results_fields in Hin.
Qed.

(* ===================================================================== *)
(** * Downloads: routing, outcome and what the user is told *)
(* ===================================================================== *)

Section Outcomes.

#[local] Arguments OpenSubtitlesAPI_search : simpl never.
#[local] Arguments OpenSubtitlesAPI_download : simpl never.
#[local] Arguments SubliminalFallback_search_for_video : simpl never.
#[local] Arguments SubliminalFallback_download : simpl never.
#[local] Arguments get_file_hash : simpl never.
#[local] Arguments _extract_subtitle_content : simpl never.
#[local] Arguments path_stem : simpl never.
#[local] Arguments path_parent : simpl never.
#[local] Arguments path_name : simpl never.
#[local] Arguments path_join : simpl never.
#[local] Arguments py_str : simpl never.
#[local] Arguments py_get : simpl never.
#[local] Arguments py_int : simpl never.
#[local] Arguments py_int_of : simpl never.
#[local] Arguments py_index0 : simpl never.
#[local] Arguments py_contains : simpl never.
#[local] Arguments fetch : simpl never.
#[local] Arguments truthy : simpl nomatch.
#[local] Arguments String.append : simpl never.
#[local] Arguments app : simpl never.

Lemma statuses_app (a b : list event) :
  statuses (a ++ b) = statuses a ++ statuses b.
Proof. unfold statuses. apply omap_app. Qed.

(** What [_do_download] tells the user, next to what it wrote. *)
Lemma _do_download_statuses (w : World) (video : Path) (subtitle : value)
    (st : state) :
  ∃ new,
    st_trace (_do_download w video subtitle st).1 = st_trace st ++ new
    ∧ match (_do_download w video subtitle st).2 with
      | Ok _ =>
          (∃ sub_name data,
             written new = [(path_join (path_parent video) sub_name, data)]
             ∧ last (statuses new) = Some (StDownloaded sub_name))
          ∨ (written new = []
             ∧ (last (statuses new) = Some StDownloadFailed
                ∨ ∃ e, last (statuses new) = Some (StSaveError e)))
      | Raise _ => written new = []
      end.
Proof.
  unfold _do_download.
  run.
  all: rewrite <- ?app_assoc.
  all: eexists; (split; [first [reflexivity | symmetry; apply app_nil_r]|]).
  all: cbv [written statuses omap list_omap app last].
  all: try reflexivity.
  all: try solve [ left; do 2 eexists; split; reflexivity
                 | right; split; [reflexivity|]; left; reflexivity
                 | right; split; [reflexivity|]; right; eexists; reflexivity ].
Qed.

(** A path without a step up leads to itself. *)
Lemma resolve_from_plain (fs : filesystem) (parts : list string) :
  ∀ reached,
    ".." ∉ parts → resolve_from fs reached parts = Ok (reached ++ parts).
Proof.
  induction parts as [|part parts IH]; intros reached Hplain;
    cbn [resolve_from].
  - now rewrite app_nil_r.
  - apply not_elem_of_cons in Hplain as [Hpart Hparts].
    destruct (String.eqb part "..") eqn:Hup.
    + apply String.eqb_eq in Hup. congruence.
    + rewrite IH by exact Hparts. now rewrite <- app_assoc.
Qed.

(** The path joined for a file name of one part. *)
Lemma os_path_join_single (fs : filesystem) (destination : Path)
    (filename : string) :
  single_name filename →
  ".." ∉ destination →
  os_path_join destination (VStr filename)
  = Ok (path_join destination filename)
  ∧ resolve fs (path_join destination filename)
    = Ok (path_join destination filename).
Proof.
  intros (Hparts & Hname & Hrelative) Hplain.
  unfold os_path_join, resolve, path_join.
  rewrite Hrelative, Hparts. split; [reflexivity|].
  apply (resolve_from_plain fs (destination ++ [filename]) []).
  intros [Hin|Hin%list_elem_of_singleton]%elem_of_app; auto.
Qed.

(** What [OpenSubtitlesProvider.download] does, step by step. *)
Lemma OpenSubtitlesProvider_download_run (self : OpenSubtitlesProvider)
    (w : World) (subtitle : SubtitleResult) (destination : Path)
    (st : state) :
  OpenSubtitlesProvider_download self w subtitle destination st = (st, Ok None)
  ∨ ∃ file_id answer data link body filename filepath target,
      api_key self ≠ EmptyString
      ∧ py_int_of (download_url subtitle) = Ok file_id
      ∧ download_request self w file_id = Ok answer
      ∧ status_code answer = 200
      ∧ json answer = Ok data
      ∧ py_get data "link" VNone = Ok link
      ∧ truthy link = true
      ∧ fetch w link = Ok body
      ∧ py_get data "file_name" (VStr "subtitle.srt") = Ok (VStr filename)
      ∧ os_path_join destination (VStr filename) = Ok filepath
      ∧ resolve (st_fs st) filepath = Ok target
      ∧ st_fs st !! path_parent target = Some Dir
      ∧ st_fs st !! target ≠ Some Dir
      ∧ OpenSubtitlesProvider_download self w subtitle destination st
        = ({| st_fs := <[target := File (resp_content body)]> (st_fs st);
              st_trace := st_trace st
                          ++ [EvWrite target (resp_content body)] |},
           Ok (Some filepath)).
Proof.
  unfold OpenSubtitlesProvider_download, download_request.
  destruct (negb (truthy (VStr (api_key self)))) eqn:Hkey; [left; reflexivity|].
  unfold try_except, mbind, mret, M_bind, M_ret, lift, write_joined,
    write_file.
  destruct (py_int_of (download_url subtitle)) as [file_id|e] eqn:Hid;
    [|left; reflexivity].
  destruct (requests_post w _ _ _) as [answer|e] eqn:Hpost;
    [|left; reflexivity].
  destruct (status_code answer =? 200) eqn:Hstatus; cbn [negb];
    [|left; reflexivity].
  destruct (json answer) as [data|e] eqn:Hjson; [|left; reflexivity].
  destruct (py_get data "link" VNone) as [link|e] eqn:Hlink;
    [|left; reflexivity].
  destruct (truthy link) eqn:Htruthy; cbn [negb]; [|left; reflexivity].
  destruct (fetch w link) as [body|e] eqn:Hfetch; [|left; reflexivity].
  destruct (py_get data "file_name" (VStr "subtitle.srt")) as [name|e]
    eqn:Hname; [|left; reflexivity].
  destruct (os_path_join destination name) as [filepath|e] eqn:Hjoin;
    [|left; reflexivity].
  destruct name as [| | | |filename| | | |]; try discriminate.
  destruct (names_directory (VStr filename)); [left; reflexivity|].
  destruct (resolve (st_fs st) filepath) as [target|e] eqn:Htarget;
    [|left; reflexivity].
  destruct (st_fs st !! path_parent target) as [[held|]|] eqn:Hfolder;
    try (left; reflexivity).
  destruct (st_fs st !! target) as [[old|]|] eqn:Hold;
    try (left; reflexivity);
    (destruct (writable w target); [|left; reflexivity]).
  all: right; exists file_id, answer, data, link, body, filename, filepath,
         target.
  all: repeat split; try assumption; try reflexivity; try discriminate.
  all: try (apply Z.eqb_eq; assumption).
  all: try congruence.
  all: intros Hempty; rewrite Hempty in Hkey; discriminate.
Qed.

(** The download that goes through writes the file. *)
Lemma OpenSubtitlesProvider_download_writes (self : OpenSubtitlesProvider)
    (w : World) (subtitle : SubtitleResult) (destination : Path)
    (st : state) (file_id : Z) (answer : response) (data link : value)
    (body : response) (filename : string) :
  api_key self ≠ EmptyString →
  py_int_of (download_url subtitle) = Ok file_id →
  download_request self w file_id = Ok answer →
  status_code answer = 200 →
  json answer = Ok data →
  py_get data "link" VNone = Ok link →
  truthy link = true →
  fetch w link = Ok body →
  py_get data "file_name" (VStr "subtitle.srt") = Ok (VStr filename) →
  names_directory (VStr filename) = false →
  single_name filename →
  ".." ∉ destination →
  st_fs st !! destination = Some Dir →
  st_fs st !! path_join destination filename ≠ Some Dir →
  writable w (path_join destination filename) = true →
  OpenSubtitlesProvider_download self w subtitle destination st
  = ({| st_fs := <[path_join destination filename
                   := File (resp_content body)]> (st_fs st);
        st_trace := st_trace st
                    ++ [EvWrite (path_join destination filename)
                          (resp_content body)] |},
     Ok (Some (path_join destination filename))).
Proof.
  intros Hkey Hid Hpost Hstatus Hjson Hlink Htruthy Hfetch Hname Hfile
    Hsingle Hplain Hfolder Hfree Hwritable.
  destruct (os_path_join_single (st_fs st) destination filename Hsingle Hplain)
    as [Hjoin Htarget].
  unfold OpenSubtitlesProvider_download.
  unfold download_request in Hpost.
  destruct (api_key self) as [|c key] eqn:Hself; [congruence|].
  cbn [truthy negb String.eqb].
  unfold try_except, mbind, mret, M_bind, M_ret, lift, write_joined,
    write_file.
  rewrite Hid, Hpost, Hstatus. cbn [Z.eqb Pos.eqb negb].
  rewrite Hjson, Hlink, Htruthy. cbn [negb].
  rewrite Hfetch, Hname, Hjoin, Hfile. cbv beta iota. rewrite Htarget.
  unfold path_join at 1. unfold path_parent. rewrite removelast_last.
  rewrite Hfolder.
  fold (path_join destination filename). rewrite Hwritable.
  destruct (st_fs st !! path_join destination filename) as [[old|]|];
    [reflexivity|congruence|reflexivity].
Qed.

End Outcomes.

(** X16. The aggregator's search returns at most fifteen results, each in
    the language [es] or [en], and [_do_download] sends every one of them
    back to the aggregator: its download is called with that result and
    the structured-API download is not. The file written for it, if any,
    is [<stem>.es.srt] or [<stem>.en.srt] beside the video. *)
Theorem fallback_results_go_through_the_fallback (w : World)
    (video_path : Path) (languages : string) :
  ∃ results,
    SubliminalFallback_search_for_video w video_path languages = VList results
    ∧ (length results ≤ 15)%nat
    ∧ ∀ item,
        item ∈ results →
        ∃ tag,
          (tag = "es" ∨ tag = "en")
          ∧ result_language item = Ok (VStr tag)
          ∧ ∀ (video : Path) (st : state),
              ∃ new,
                st_trace (_do_download w video item st).1 = st_trace st ++ new
                ∧ aggregator_downloads new = [item]
                ∧ api_downloads new = []
                ∧ (written new = []
                   ∨ ∃ data,
                       written new
                       = [(subtitle_path w video (VStr tag), data)]).
Proof.
  destruct (SubliminalFallback_search_results w video_path languages)
    as (results & Hrun & Hlen & Hitems).
  exists results. split; [exact Hrun|]. split; [exact Hlen|].
  intros item (handle & sub & release & ->)%Hitems.
  exists (if String.eqb (sub_language sub) "spa" then "es" else "en").
  split; [destruct (String.eqb _ _); auto|]. split; [reflexivity|].
  intros video st.
  destruct (_do_download_run w video (subliminal_result handle sub release) st)
    as (new & Htrace & Hpersist & Hroute).
  exists new. split; [exact Htrace|].
  specialize (Hroute _ eq_refl).
  change (py_contains "Subliminal"
            (VStr ("Subliminal (" +:+ sub_provider_name sub +:+ ")")))
    with (Ok (A := bool) true) in Hroute.
  destruct Hroute as [Hagg Hapi].
  split; [exact Hagg|]. split; [exact Hapi|].
  destruct Hpersist as [(language & content & Hl & _ & Hw & _)|[Hw _]];
    [|left; exact Hw].
  right. injection Hl as <-. eauto.
Qed.

(** X17. [OpenSubtitlesProvider.download] never raises and does all or
    nothing. Either it returns [None] and leaves the file system as it
    was, or it returns the path [os.path.join] makes of the destination
    and the file name the service gave ([subtitle.srt] when it gives
    none) and has written one file, at the place that path leads to,
    holding the body of the answer to fetching the download link, with
    whatever status that answer came. For a file name of one part and a
    destination without a step up, that place is the file of that name
    inside the destination folder, and the download does go through when
    the service answers, the folder is there and the file can be
    written. A file name with a slash in front or a step up in it leads
    elsewhere. *)
Theorem OpenSubtitlesProvider_download_outcome (self : OpenSubtitlesProvider)
    (w : World) (subtitle : SubtitleResult) (destination : Path)
    (st : state) :
  (OpenSubtitlesProvider_download self w subtitle destination st
   = (st, Ok None)
   ∨ ∃ file_id answer data link body filename filepath target,
       api_key self ≠ EmptyString
       ∧ py_int_of (download_url subtitle) = Ok file_id
       ∧ download_request self w file_id = Ok answer
       ∧ status_code answer = 200
       ∧ json answer = Ok data
       ∧ py_get data "link" VNone = Ok link
       ∧ truthy link = true
       ∧ fetch w link = Ok body
       ∧ py_get data "file_name" (VStr "subtitle.srt") = Ok (VStr filename)
       ∧ os_path_join destination (VStr filename) = Ok filepath
       ∧ resolve (st_fs st) filepath = Ok target
       ∧ st_fs st !! path_parent target = Some Dir
       ∧ st_fs st !! target ≠ Some Dir
       ∧ OpenSubtitlesProvider_download self w subtitle destination st
         = ({| st_fs := <[target := File (resp_content body)]> (st_fs st);
               st_trace := st_trace st
                           ++ [EvWrite target (resp_content body)] |},
            Ok (Some filepath))
       ∧ (single_name filename → ".." ∉ destination →
          filepath = path_join destination filename ∧ target = filepath))
  ∧ (∀ file_id answer data link body filename,
       api_key self ≠ EmptyString →
       py_int_of (download_url subtitle) = Ok file_id →
       download_request self w file_id = Ok answer →
       status_code answer = 200 →
       json answer = Ok data →
       py_get data "link" VNone = Ok link →
       truthy link = true →
       fetch w link = Ok body →
       py_get data "file_name" (VStr "subtitle.srt") = Ok (VStr filename) →
       names_directory (VStr filename) = false →
       single_name filename →
       ".." ∉ destination →
       st_fs st !! destination = Some Dir →
       st_fs st !! path_join destination filename ≠ Some Dir →
       writable w (path_join destination filename) = true →
       OpenSubtitlesProvider_download self w subtitle destination st
       = ({| st_fs := <[path_join destination filename
                        := File (resp_content body)]> (st_fs st);
             st_trace := st_trace st
                         ++ [EvWrite (path_join destination filename)
                               (resp_content body)] |},
          Ok (Some (path_join destination filename)))).
Proof.
  split; [|apply OpenSubtitlesProvider_download_writes].
  destruct (OpenSubtitlesProvider_download_run self w subtitle destination st)
    as [Hnone|(file_id & answer & data & link & body & filename & filepath
               & target & Hrun)]; [left; exact Hnone|].
  right. exists file_id, answer, data, link, body, filename, filepath, target.
  repeat (split; [apply Hrun|]).
  intros Hsingle Hplain.
  destruct (os_path_join_single (st_fs st) destination filename Hsingle Hplain)
    as [Hjoin Htarget].
  destruct Hrun as (_ & _ & _ & _ & _ & _ & _ & _ & _ & Hjoin' & Htarget' & _).
  rewrite Hjoin in Hjoin'. injection Hjoin' as <-.
  rewrite Htarget in Htarget'. injection Htarget' as <-. auto.
Qed.

(** X18. [_do_download] tells the user what it did. When it returns, its
    last status line is the success line, naming the file, exactly when
    that file was written beside the video, and the failure line or the
    save-error line when nothing was written. When an exception leaves it,
    as it does for a malformed result, nothing was written. *)
Theorem _do_download_reports_what_it_did (w : World) (video : Path)
    (subtitle : value) (st : state) :
  ∃ new,
    st_trace (_do_download w video subtitle st).1 = st_trace st ++ new
    ∧ match (_do_download w video subtitle st).2 with
      | Ok _ =>
          (∃ sub_name data,
             written new = [(path_join (path_parent video) sub_name, data)]
             ∧ last (statuses new) = Some (StDownloaded sub_name))
          ∨ (written new = []
             ∧ (last (statuses new) = Some StDownloadFailed
                ∨ ∃ e, last (statuses new) = Some (StSaveError e)))
      | Raise _ => written new = []
      end.
Proof. apply _do_download_statuses. Qed.

(* ===================================================================== *)
(** * The text query and the parameters of the API search *)
(* ===================================================================== *)

Section Queries.

Lemma string_app_nonempty_l (a b : string) :
  a ≠ EmptyString → a +:+ b ≠ EmptyString.
Proof. destruct a; [contradiction|discriminate]. Qed.

Lemma concat_cons_nonempty (sep part : string) (parts : list string) :
  part ≠ EmptyString → String.concat sep (part :: parts) ≠ EmptyString.
Proof.
  intros Hpart. destruct parts as [|next parts]; [exact Hpart|].
  cbn [String.concat]. now apply string_app_nonempty_l.
Qed.

End Queries.

(** X19. [build_search_query] gives the empty string exactly when there is
    nothing to search for: no title, no year (an empty one counts as
    none), and season or episode unknown. Season 0 and episode 0 are
    known numbers: they give the tag [S00E00]. *)
Theorem build_search_query_empty (info : parsed_info) :
  (build_search_query info = EmptyString
   ↔ truthy (opt_str (info_title info)) = false
     ∧ truthy (opt_str (info_year info)) = false
     ∧ (info_season info = None ∨ info_episode info = None))
  ∧ build_search_query {| info_title := None; info_year := None;
                          info_season := Some 0; info_episode := Some 0 |}
    = "S00E00".
Proof.
  split; [|reflexivity].
  destruct info as [title year season episode]. unfold build_search_query.
  cbn [info_title info_year info_season info_episode opt_str].
  destruct title as [[|c title]|]; destruct year as [[|c' year]|];
    destruct season as [s|]; destruct episode as [e|];
    cbn [truthy String.eqb negb app].
  all: split;
    [ intros Hq; try (exfalso; revert Hq; apply concat_cons_nonempty;
                      discriminate);
      repeat split; auto
    | intros (Ht & Hy & [Hs|He]); try discriminate; reflexivity ].
Qed.

(** X20. What the two API stages of the orchestrator ask the service. The
    hash stage sends the languages and the fingerprint, and no query. The
    text stage sends the languages, the query unless it is empty, and the
    season and episode numbers unless they are unknown or zero: for an
    episode of season 0 the query text carries [S00] and no season number
    is sent. It never sends a fingerprint. *)
Theorem api_stages_send_their_criteria (w : World) (file_hash : string)
    (info : parsed_info) :
  (file_hash ≠ EmptyString →
   api_search_request w None (Some file_hash) (lang_var w) None None None
   = requests_get w (API_URL w +:+ "/subtitles")
       [("languages", VStr (lang_var w)); ("moviehash", VStr file_hash)]
       (OpenSubtitlesAPI_headers w))
  ∧ (let params :=
       api_search_params (Some (build_search_query info)) None (lang_var w)
         None (info_season info) (info_episode info) in
     api_search_request w (Some (build_search_query info)) None (lang_var w)
       None (info_season info) (info_episode info)
     = requests_get w (API_URL w +:+ "/subtitles") params
         (OpenSubtitlesAPI_headers w)
     ∧ assoc_get params "languages" = Some (VStr (lang_var w))
     ∧ assoc_get params "moviehash" = None
     ∧ assoc_get params "query"
       = (if String.eqb (build_search_query info) EmptyString then None
          else Some (VStr (build_search_query info)))
     ∧ assoc_get params "season_number"
       = match info_season info with
         | Some n => if n =? 0 then None else Some (VInt n)
         | None => None
         end
     ∧ assoc_get params "episode_number"
       = match info_episode info with
         | Some n => if n =? 0 then None else Some (VInt n)
         | None => None
         end).
Proof.
  split.
  - intros Hhash. unfold api_search_request.
    cbn [set_if_str set_if_int truthy].
    destruct file_hash; [contradiction|reflexivity].
  - cbv zeta. split; [reflexivity|].
    unfold api_search_params.
    generalize (build_search_query info) as query. intros query.
    unfold set_if_str, set_if_int, truthy.
    destruct (String.eqb query EmptyString);
      destruct (info_season info) as [s|]; try destruct (s =? 0);
      destruct (info_episode info) as [e|]; try destruct (e =? 0);
      repeat split; reflexivity.
Qed.

(* ===================================================================== *)
(** * Unpacking a downloaded archive *)
(* ===================================================================== *)

Section Unpack.

Lemma extract_member_outcome (u : Unpacking) {archive : Type}
    (extract : archive → string → Path → filesystem
               → filesystem * result unit)
    (zf : archive) (names : list string) (destination : Path)
    (fs : filesystem) :
  unpacks_first_subtitle u extract zf names destination fs
    (match extract_member u extract zf names destination fs with
     | (fs', Ok extracted_subtitle) => (fs', extracted_subtitle)
     | (fs', Raise _) => (fs', None)
     end).
Proof.
  unfold unpacks_first_subtitle, extract_member.
  destruct (first_subtitle_member u names) as [name|]; [|reflexivity].
  destruct (extract zf name destination fs) as [fs' [[]|e]]; reflexivity.
Qed.

(** The member chosen is the first, in the order of the archive, whose
    suffix is a subtitle extension. *)
Lemma first_subtitle_member_spec (u : Unpacking) (names : list string) :
  match first_subtitle_member u names with
  | Some name =>
      ∃ before after,
        names = before ++ name :: after
        ∧ lower (path_suffix (path_of_string u name)) ∈ SUBTITLE_EXTENSIONS
        ∧ Forall (λ other, lower (path_suffix (path_of_string u other))
                           ∉ SUBTITLE_EXTENSIONS) before
  | None =>
      Forall (λ other, lower (path_suffix (path_of_string u other))
                       ∉ SUBTITLE_EXTENSIONS) names
  end.
Proof.
  induction names as [|name names IH]; cbn [first_subtitle_member].
  - constructor.
  - destruct (bool_decide _) eqn:Hsub.
    + apply bool_decide_eq_true in Hsub.
      exists [], names. split; [reflexivity|]. split; [exact Hsub|constructor].
    + apply bool_decide_eq_false in Hsub.
      destruct (first_subtitle_member u names) as [found|].
      * destruct IH as (before & after & -> & Hfound & Hbefore).
        exists (name :: before), after.
        split; [reflexivity|]. split; [exact Hfound|]. now constructor.
      * now constructor.
Qed.

Lemma subtitle_extension_is_no_archive (suffix : string) :
  suffix ∈ SUBTITLE_EXTENSIONS →
  String.eqb suffix ".zip" = false ∧ String.eqb suffix ".rar" = false.
Proof.
  unfold SUBTITLE_EXTENSIONS. intros Hin.
  repeat (apply elem_of_cons in Hin as [->|Hin]; [split; reflexivity|]).
  now apply elem_of_nil in Hin.
Qed.

End Unpack.

(** X21. [extract_subtitle] leaves the file system alone unless it has an
    archive to open. A path whose suffix, lower-cased, is a subtitle
    extension is returned as it is. A path with any other suffix that is
    not [.zip], and not [.rar] with the RAR library installed, gives
    [None]: so does a [.rar] archive without the library. *)
Theorem extract_subtitle_without_archive (u : Unpacking)
    (archive_path destination : Path) (fs : filesystem) :
  (lower (path_suffix archive_path) ∈ SUBTITLE_EXTENSIONS →
   extract_subtitle u archive_path destination fs = (fs, Some archive_path))
  ∧ (lower (path_suffix archive_path) ∉ SUBTITLE_EXTENSIONS →
     lower (path_suffix archive_path) ≠ ".zip" →
     lower (path_suffix archive_path) ≠ ".rar" ∨ RAR_SUPPORT u = false →
     extract_subtitle u archive_path destination fs = (fs, None)).
Proof.
  unfold extract_subtitle. split.
  - intros Hsub.
    destruct (subtitle_extension_is_no_archive _ Hsub) as [-> ->].
    cbn [andb]. now rewrite bool_decide_eq_true_2.
  - intros Hsub Hzip Hrar.
    apply String.eqb_neq in Hzip. rewrite Hzip.
    assert (String.eqb (lower (path_suffix archive_path)) ".rar"
            && RAR_SUPPORT u = false) as ->.
    { destruct Hrar as [Hrar%String.eqb_neq| ->].
      - now rewrite Hrar.
      - apply andb_false_r. }
    now rewrite bool_decide_eq_false_2.
Qed.

(** X22. From an archive, [extract_subtitle] unpacks at most one member:
    the first, in the order of the archive, whose suffix is a subtitle
    extension in any letter case. It returns that member's path under the
    destination, or [None] when the extraction fails. When no member is a
    subtitle, when the archive file cannot be read or when the library
    cannot open it, it returns [None] and extracts nothing. A [.rar]
    archive is treated the same way when the RAR library is installed. *)
Theorem extract_subtitle_unpacks_first_subtitle (u : Unpacking)
    (archive_path destination : Path) (fs : filesystem) :
  (lower (path_suffix archive_path) = ".zip" →
   match open_rb fs archive_path with
   | None => extract_subtitle u archive_path destination fs = (fs, None)
   | Some content =>
       match ZipFile (ZipLibrary := zip_library u) content with
       | Raise _ => extract_subtitle u archive_path destination fs = (fs, None)
       | Ok zf =>
           unpacks_first_subtitle u (zip_extract u) zf
             (namelist (ZipLibrary := zip_library u) zf) destination fs
             (extract_subtitle u archive_path destination fs)
       end
   end)
  ∧ (lower (path_suffix archive_path) = ".rar" →
     RAR_SUPPORT u = true →
     match open_rb fs archive_path with
     | None => extract_subtitle u archive_path destination fs = (fs, None)
     | Some content =>
         match ZipFile (ZipLibrary := rar_library u) content with
         | Raise _ =>
             extract_subtitle u archive_path destination fs = (fs, None)
         | Ok rf =>
             unpacks_first_subtitle u (rar_extract u) rf
               (namelist (ZipLibrary := rar_library u) rf) destination fs
               (extract_subtitle u archive_path destination fs)
         end
     end)
  ∧ (∀ names,
       match first_subtitle_member u names with
       | Some name =>
           ∃ before after,
             names = before ++ name :: after
             ∧ lower (path_suffix (path_of_string u name))
               ∈ SUBTITLE_EXTENSIONS
             ∧ Forall (λ other, lower (path_suffix (path_of_string u other))
                                ∉ SUBTITLE_EXTENSIONS) before
       | None =>
           Forall (λ other, lower (path_suffix (path_of_string u other))
                            ∉ SUBTITLE_EXTENSIONS) names
       end).
Proof.
  split; [|split].
  - intros Hzip. unfold extract_subtitle. rewrite Hzip. cbn [String.eqb].
    change (Ascii.eqb "." "." && _) with true. cbv iota.
    destruct (open_rb fs archive_path) as [content|]; [|reflexivity].
    destruct (ZipFile content) as [zf|e]; [|reflexivity].
    apply extract_member_outcome.
  - intros Hrar Hsupport. unfold extract_subtitle.
    rewrite Hrar, Hsupport.
    change (String.eqb ".rar" ".zip") with false.
    change (String.eqb ".rar" ".rar" && true) with true. cbv iota.
    destruct (open_rb fs archive_path) as [content|]; [|reflexivity].
    destruct (ZipFile content) as [rf|e]; [|reflexivity].
    apply extract_member_outcome.
  - apply first_subtitle_member_spec.
Qed.

(* ===================================================================== *)
(** * What the search tells the user *)
(* ===================================================================== *)

Section SearchReport.

#[local] Arguments OpenSubtitlesAPI_search : simpl never.
#[local] Arguments SubliminalFallback_search_for_video : simpl never.
#[local] Arguments get_file_hash : simpl never.
#[local] Arguments build_search_query : simpl never.
#[local] Arguments path_name : simpl never.
#[local] Arguments py_get : simpl never.
#[local] Arguments py_index0 : simpl never.
#[local] Arguments py_len : simpl never.
#[local] Arguments truthy : simpl nomatch.
#[local] Arguments String.append : simpl never.
#[local] Arguments app : simpl never.
#[local] Arguments search_report : simpl never.

Lemma search_report_run (video_name : string) (results : value) (st : state) :
  ∃ new,
    st_trace (search_report video_name results st).1 = st_trace st ++ new
    ∧ match (search_report video_name results st).2 with
      | Ok returned =>
          returned = results
          ∧ if truthy results then
              ∃ first provider n,
                py_index0 results = Ok first
                ∧ py_get first "provider" (VStr "OpenSubtitles") = Ok provider
                ∧ py_len results = Ok n
                ∧ new = [EvStatus (StFound n provider)]
            else new = [EvStatus (StNotFound video_name)]
      | Raise _ => truthy results = true ∧ new = []
      end.
Proof.
  unfold search_report. unfold_monad.
  destruct (truthy results) eqn:Htruthy.
  - destruct (py_index0 results) as [first|e] eqn:Hfirst.
    2:{ exists []. cbn. rewrite app_nil_r. auto. }
    destruct (py_get first "provider" (VStr "OpenSubtitles"))
      as [provider|e] eqn:Hprovider.
    2:{ exists []. cbn. rewrite app_nil_r. auto. }
    destruct (py_len results) as [n|e] eqn:Hlen.
    2:{ exists []. cbn. rewrite app_nil_r. auto. }
    eexists. cbn. split; [reflexivity|]. split; [reflexivity|].
    exists first, provider, n. auto.
  - eexists. cbn. split; [reflexivity|]. split; reflexivity.
Qed.

(** The stages announce themselves, never an outcome. *)
Lemma search_stages_run (w : World) (video_path : Path) (st : state) :
  ∃ new,
    (search_stages w video_path st).1
    = {| st_fs := st_fs st; st_trace := st_trace st ++ new |}
    ∧ Forall (λ s, closing_line s = false) (statuses new)
    ∧ written new = [].
Proof.
  unfold search_stages.
  destruct (parse_video_filename w (path_name video_path)) as [info|e].
  2:{ unfold_monad. cbn. eexists. split; [reflexivity|].
      split; [repeat constructor|reflexivity]. }
  destruct (truthy (opt_str (get_file_hash (st_fs st) video_path))) eqn:Hh;
    destruct (truthy (VStr (OPENSUBTITLES_API_KEY w))) eqn:Hkey;
    destruct (truthy (OpenSubtitlesAPI_search w None
                (get_file_hash (st_fs st) video_path) (lang_var w)
                None None None)) eqn:Hr1;
    destruct (truthy (OpenSubtitlesAPI_search w
                (Some (build_search_query info)) None (lang_var w) None
                (info_season info) (info_episode info))) eqn:Hr2;
    destruct (SUBLIMINAL_AVAILABLE w) eqn:Hsub;
    unfold_monad;
    repeat progress (cbn; rewrite ?Hh, ?Hr1, ?Hr2, ?Hkey, ?Hsub).
  all: rewrite <- ?app_assoc.
  all: eexists; (split; [reflexivity|]).
  all: cbv [statuses written omap list_omap app].
  all: split; [repeat constructor|reflexivity].
Qed.

(** [_do_search] is its stages followed by its report. *)
Lemma _do_search_split (w : World) (video_path : Path) (st : state) :
  _do_search w video_path st
  = (results ← search_stages w video_path;
     search_report (path_name video_path) results) st.
Proof.
  unfold _do_search, search_stages, search_report.
  destruct (parse_video_filename w (path_name video_path)) as [info|e].
  2:{ unfold_monad. cbn. reflexivity. }
  destruct (truthy (opt_str (get_file_hash (st_fs st) video_path))) eqn:Hh;
    destruct (truthy (VStr (OPENSUBTITLES_API_KEY w))) eqn:Hkey;
    destruct (truthy (OpenSubtitlesAPI_search w None
                (get_file_hash (st_fs st) video_path) (lang_var w)
                None None None)) eqn:Hr1;
    destruct (truthy (OpenSubtitlesAPI_search w
                (Some (build_search_query info)) None (lang_var w) None
                (info_season info) (info_episode info))) eqn:Hr2;
    destruct (SUBLIMINAL_AVAILABLE w) eqn:Hsub;
    unfold_monad;
    repeat progress (cbn; rewrite ?Hh, ?Hr1, ?Hr2, ?Hkey, ?Hsub);
    reflexivity.
Qed.

Lemma no_closing_line (l : list status) :
  Forall (λ s, closing_line s = false) l → List.filter closing_line l = [].
Proof.
  induction 1 as [|s l Hs _ IH]; [reflexivity|].
  cbn [List.filter]. now rewrite Hs.
Qed.

Lemma _do_search_run (w : World) (video_path : Path) (st : state) :
  ∃ new,
    st_trace (_do_search w video_path st).1 = st_trace st ++ new
    ∧ st_fs (_do_search w video_path st).1 = st_fs st
    ∧ written new = []
    ∧ match (_do_search w video_path st).2 with
      | Ok results =>
          if truthy results then
            ∃ first provider n,
              py_index0 results = Ok first
              ∧ py_get first "provider" (VStr "OpenSubtitles") = Ok provider
              ∧ py_len results = Ok n
              ∧ List.filter closing_line (statuses new)
                = [StFound n provider]
          else List.filter closing_line (statuses new)
               = [StNotFound (path_name video_path)]
      | Raise _ => List.filter closing_line (statuses new) = []
      end.
Proof.
  rewrite _do_search_split.
  destruct (search_stages_run w video_path st) as (new1 & Hrun1 & Hno & Hw1).
  unfold mbind, M_bind.
  destruct (search_stages w video_path st) as [st1 [results|e]];
    cbn [fst] in Hrun1; subst st1.
  2:{ exists new1. cbn [fst snd st_trace st_fs].
      repeat split; try assumption; try reflexivity.
      now apply no_closing_line. }
  set (st1 := {| st_fs := st_fs st; st_trace := st_trace st ++ new1 |}).
  destruct (search_report_run (path_name video_path) results st1)
    as (new2 & Htrace2 & Hreport).
  exists (new1 ++ new2).
  assert (Hfs : st_fs (search_report (path_name video_path) results st1).1
                = st_fs st).
  { unfold search_report. unfold_monad.
    destruct (truthy results); [|reflexivity].
    destruct (py_index0 results) as [first|e]; [|reflexivity].
    destruct (py_get first _ _) as [provider|e]; [|reflexivity].
    destruct (py_len results) as [n|e]; reflexivity. }
  rewrite Htrace2, Hfs. subst st1. cbn [st_trace].
  split; [now rewrite app_assoc|]. split; [reflexivity|].
  rewrite written_app, Hw1, statuses_app, List.filter_app.
  rewrite (no_closing_line _ Hno). cbn [app].
  destruct (search_report (path_name video_path) results _).2
    as [returned|e].
  - destruct Hreport as [-> Hreport].
    destruct (truthy results).
    + destruct Hreport as (first & provider & n & Hf & Hp & Hn & ->).
      split; [reflexivity|]. exists first, provider, n. auto.
    + subst new2. split; reflexivity.
  - destruct Hreport as [_ ->]. split; reflexivity.
Qed.

End SearchReport.

(** X23. [_do_search] never touches the file system, and it closes with
    one line that tells what it returns: the found line, with the number
    of results and the provider of the first one, when it returns a
    non-empty list, and the not-found line, naming the video, when it
    returns an empty one. When an exception leaves it, as for a file
    name that cannot be parsed or a response whose data is not a list,
    no closing line is shown. *)
Theorem _do_search_reports_what_it_found (w : World) (video_path : Path)
    (st : state) :
  ∃ new,
    st_trace (_do_search w video_path st).1 = st_trace st ++ new
    ∧ st_fs (_do_search w video_path st).1 = st_fs st
    ∧ written new = []
    ∧ match (_do_search w video_path st).2 with
      | Ok results =>
          if truthy results then
            ∃ first provider n,
              py_index0 results = Ok first
              ∧ py_get first "provider" (VStr "OpenSubtitles") = Ok provider
              ∧ py_len results = Ok n
              ∧ List.filter closing_line (statuses new)
                = [StFound n provider]
          else List.filter closing_line (statuses new)
               = [StNotFound (path_name video_path)]
      | Raise _ => List.filter closing_line (statuses new) = []
      end.
Proof. apply _do_search_run. Qed.

(* ===================================================================== *)
(** * The further properties at concrete inputs *)
(* ===================================================================== *)

(** The videos of [media_folder], capitals first. *)
Example get_video_files_media_folder :
  get_video_files media_folder ["media"]
  = Ok [["media"; "Z.webm"]; ["media"; "a.mp4"]; ["media"; "b.MKV"]]
  ∧ get_video_files media_folder ["nowhere"] = Ok []
  ∧ get_video_files media_folder ["media"; "notes.txt"]
    = Raise (Exception "NotADirectoryError").
Proof. repeat split; vm_compute; reflexivity. Qed.

Lemma get_video_files_sorted_by_name_witness :
  StronglySorted name_lt
    [["media"; "Z.webm"]; ["media"; "a.mp4"]; ["media"; "b.MKV"]].
Proof.
  apply (get_video_files_sorted_by_name media_folder ["media"]).
  vm_compute. reflexivity.
Defined.

(** Only [a.mp4] has a subtitle; a path without a name has no answer. *)
Example _has_subtitle_media_folder :
  _has_subtitle media_folder ["media"; "a.mp4"] = Ok true
  ∧ _has_subtitle media_folder ["media"; "b.MKV"] = Ok false
  ∧ _has_subtitle media_folder [] = Raise (Exception "ValueError")
  ∧ videos_sin_sub media_folder
      [["media"; "Z.webm"]; ["media"; "a.mp4"]; ["media"; "b.MKV"]]
    = Ok [["media"; "Z.webm"]; ["media"; "b.MKV"]].
Proof. repeat split; vm_compute; reflexivity. Qed.

(** Loading [media_folder]: three rows, one ticked. *)
Example _load_videos_media_folder :
  _load_videos media_folder (Some ["media"]) []
  = ([["media"; "Z.webm"]; ["media"; "a.mp4"]; ["media"; "b.MKV"]],
     Ok (Loaded [(false, "Z.webm"); (true, "a.mp4"); (false, "b.MKV")] 3)).
Proof. vm_compute. reflexivity. Qed.

(** The batch started from the loaded videos writes the two missing
    subtitles and leaves [a.es.srt] as it was. *)
Example _download_all_media_folder :
  let run := _download_all serving_world
               [["media"; "Z.webm"]; ["media"; "a.mp4"]; ["media"; "b.MKV"]]
               (fun _ => true) media_state in
  run.2 = Ok (Completed 2)
  ∧ written (st_trace run.1)
    = [(["media"; "Z.es.srt"], [x31; x0a]);
       (["media"; "b.es.srt"], [x31; x0a])]
  ∧ st_fs run.1 !! ["media"; "a.es.srt"] = Some (File [x31]).
Proof. vm_compute. repeat split; reflexivity. Qed.

Lemma downloaded_subtitle_is_recognised_witness :
  _has_subtitle
    (st_fs (_do_download serving_world ["videos"; "a.mkv"]
              (api_item "Show.S01E02.WEB" 7) two_folders).1)
    ["videos"; "a.mkv"]
  = Ok true.
Proof.
  eapply (downloaded_subtitle_is_recognised serving_world ["videos"; "a.mkv"]
            (api_item "Show.S01E02.WEB" 7) "es" two_folders).
  - discriminate.
  - reflexivity.
  - vm_compute. apply list_elem_of_here.
  - vm_compute. reflexivity.
  - discriminate.
Defined.

Lemma batch_subtitles_are_recognised_witness :
  _has_subtitle
    (st_fs (_do_download_all serving_world
              [["videos"; "a.mkv"]; ["videos"; "b.mkv"]] two_folders).1)
    ["videos"; "a.mkv"]
  = Ok true.
Proof.
  eapply (batch_subtitles_are_recognised serving_world
            [["videos"; "a.mkv"]; ["videos"; "b.mkv"]] two_folders _
            ["videos"; "a.mkv"] (VStr "es") [x31; x0a]).
  - vm_compute. reflexivity.
  - vm_compute. apply list_elem_of_here.
  - discriminate.
  - vm_compute. apply list_elem_of_here.
Defined.

(** Two files that differ in their middle byte share a fingerprint. *)
Lemma get_file_hash_ignores_the_middle_witness :
  get_file_hash {[ ["a.mkv"] := File middle_00 ]} ["a.mkv"]
  = get_file_hash {[ ["b.mkv"] := File middle_ff ]} ["b.mkv"].
Proof.
  apply (get_file_hash_ignores_the_middle _ _ _ _ middle_00 middle_ff).
  - apply lookup_singleton_eq.
  - apply lookup_singleton_eq.
  - unfold middle_00, middle_ff. now rewrite !length_app.
  - unfold middle_00, middle_ff.
    rewrite !take_app_length' by (symmetry; apply length_replicate).
    reflexivity.
  - assert (Hblock : length block = Z.to_nat 65536)
      by apply length_replicate.
    unfold middle_00, middle_ff.
    replace (length (block ++ [x00] ++ block) - Z.to_nat 65536)%nat
      with (Z.to_nat 65536 + 1)%nat
      by (rewrite !length_app, Hblock; cbn [length]; lia).
    replace (length (block ++ [xff] ++ block) - Z.to_nat 65536)%nat
      with (Z.to_nat 65536 + 1)%nat
      by (rewrite !length_app, Hblock; cbn [length]; lia).
    rewrite <- (drop_drop (block ++ [x00] ++ block) 1 (Z.to_nat 65536)).
    rewrite <- (drop_drop (block ++ [xff] ++ block) 1 (Z.to_nat 65536)).
    rewrite !drop_app_length' by (symmetry; exact Hblock).
    reflexivity.
Defined.

(** Eight bytes more, same first and last block: another fingerprint. *)
Lemma get_file_hash_tells_sizes_apart_witness :
  is_Some (get_file_hash {[ ["a.mkv"] := File large_file ]} ["a.mkv"])
  ∧ is_Some (get_file_hash {[ ["b.mkv"] := File longer_file ]} ["b.mkv"])
  ∧ get_file_hash {[ ["a.mkv"] := File large_file ]} ["a.mkv"]
    ≠ get_file_hash {[ ["b.mkv"] := File longer_file ]} ["b.mkv"].
Proof.
  apply (get_file_hash_tells_sizes_apart _ _ _ _ large_file longer_file).
  - apply lookup_singleton_eq.
  - apply lookup_singleton_eq.
  - unfold large_file. rewrite length_replicate. lia.
  - unfold longer_file. rewrite length_replicate. lia.
  - unfold large_file, longer_file. rewrite !length_replicate. lia.
  - unfold large_file, longer_file. rewrite !take_replicate.
    rewrite !Nat.min_l by (apply Z2Nat.inj_le; lia). reflexivity.
  - unfold large_file, longer_file.
    rewrite !length_replicate, !drop_replicate.
    rewrite <- !Z2Nat.inj_sub by lia. do 2 f_equal.
Defined.

Lemma rename_subtitle_missing_source_witness :
  rename_subtitle crowded_folder ["downloads"; "gone.srt"]
    ["videos"; "Show.mkv"]
  = Some (Raise (Exception "FileNotFoundError")).
Proof.
  apply (rename_subtitle_missing_source crowded_folder).
  vm_compute. reflexivity.
Defined.

Lemma rename_subtitle_twice_keeps_both_witness :
  ∃ p1 fs1 p2 fs2,
    rename_subtitle crowded_folder ["downloads"; "sub.srt"]
      ["videos"; "Show.mkv"] = Some (Ok (p1, fs1))
    ∧ rename_subtitle fs1 ["videos"; "Show.1.srt"] ["videos"; "Show.mkv"]
      = Some (Ok (p2, fs2))
    ∧ p1 ≠ p2
    ∧ path_parent p1 = ["videos"]
    ∧ path_parent p2 = ["videos"]
    ∧ fs2 !! p1 = Some (File [x31])
    ∧ fs2 !! p2 = Some (File [x33])
    ∧ fs2 !! ["videos"; "Show.1.srt"] = None.
Proof.
  apply (proj1 (rename_subtitle_twice_keeps_both crowded_folder
                  ["downloads"; "sub.srt"] ["videos"; "Show.1.srt"]
                  ["videos"; "Show.mkv"] [x31] [x33]
                  ltac:(vm_compute; reflexivity)
                  ltac:(vm_compute; reflexivity)
                  ltac:(discriminate))).
  vm_compute. reflexivity.
Defined.

(** Without the folder of the video the first rename raises, and the
    subtitle stays where it was. *)
Example rename_subtitle_twice_without_folder :
  rename_subtitle {[ ["downloads"] := Dir;
                     ["downloads"; "a.srt"] := File [x31];
                     ["downloads"; "b.srt"] := File [x32] ]}
    ["downloads"; "a.srt"] ["videos"; "Show.mkv"]
  = Some (Raise (Exception "FileNotFoundError")).
Proof. vm_compute. reflexivity. Qed.

(** A folder moves with what it holds. *)
Example rename_moves_a_folder :
  match rename_subtitle
          {[ ["downloads"] := Dir;
             ["downloads"; "pack"] := Dir;
             ["downloads"; "pack"; "b.srt"] := File [x32];
             ["videos"] := Dir ]}
          ["downloads"; "pack"] ["videos"; "Show.mkv"] with
  | Some (Ok (p, fs')) =>
      p = ["videos"; "Show"]
      ∧ fs' !! ["videos"; "Show"; "b.srt"] = Some (File [x32])
      ∧ fs' !! ["downloads"; "pack"; "b.srt"] = None
  | _ => False
  end.
Proof. vm_compute. repeat split; reflexivity. Qed.

(** The second rename takes the next number. *)
Example rename_subtitle_twice_paths :
  match rename_subtitle crowded_folder ["downloads"; "sub.srt"]
          ["videos"; "Show.mkv"] with
  | Some (Ok (p1, fs1)) =>
      p1 = ["videos"; "Show.2.srt"]
      ∧ match rename_subtitle fs1 ["videos"; "Show.1.srt"]
                ["videos"; "Show.mkv"] with
        | Some (Ok (p2, _)) => p2 = ["videos"; "Show.3.srt"]
        | _ => False
        end
  | _ => False
  end.
Proof. vm_compute. split; reflexivity. Qed.

Lemma search_result_names_its_file_witness :
  ∃ file_id,
    first_file_id (api_item "Show.S01E02.WEB" 7) = Ok file_id
    ∧ py_int_of (VStr (pretty 7)) = Ok 7.
Proof.
  destruct (search_result_names_its_file big_page_world
              (api_item "Show.S01E02.WEB" 7) _ eq_refl)
    as (file_id & Hid & _ & Hint & _).
  exists file_id. split; [exact Hid|].
  apply Hint. vm_compute in Hid. now injection Hid as <-.
Defined.

(** Reading file ids back, also negative ones and with many digits. *)
Example py_int_reads_str_back :
  py_int (pretty 0) = Ok 0
  ∧ py_int (pretty (-15)) = Ok (-15)
  ∧ py_int (pretty 9876543210) = Ok 9876543210.
Proof. repeat split; vm_compute; reflexivity. Qed.

(** The body of a 404 answer is saved as the subtitle, under the name
    the provider falls back on. *)
Lemma OpenSubtitlesProvider_download_outcome_witness :
  let body := {| status_code := 404;
                 json := Raise (Exception "JSONDecodeError");
                 resp_content := error_page;
                 resp_text := EmptyString;
                 resp_url := EmptyString |} in
  OpenSubtitlesProvider_download keyed_provider broken_link_world
    (subliminal_provider_result 1 numeric_sub) ["subs"] two_folders
  = ({| st_fs := <[path_join ["subs"] "subtitle.srt"
                   := File (resp_content body)]> (st_fs two_folders);
        st_trace := st_trace two_folders
                    ++ [EvWrite (path_join ["subs"] "subtitle.srt")
                          (resp_content body)] |},
     Ok (Some (path_join ["subs"] "subtitle.srt"))).
Proof.
  intros body.
  apply (proj2 (OpenSubtitlesProvider_download_outcome keyed_provider
                  broken_link_world
                  (subliminal_provider_result 1 numeric_sub) ["subs"]
                  two_folders)
           42
           {| status_code := 200;
              json := Ok (VDict [("link", VStr "https://dl.example/7")]);
              resp_content := [];
              resp_text := EmptyString;
              resp_url := EmptyString |}
           (VDict [("link", VStr "https://dl.example/7")])
           (VStr "https://dl.example/7") body "subtitle.srt").
  - discriminate.
  - reflexivity.
  - reflexivity.
  - reflexivity.
  - reflexivity.
  - reflexivity.
  - reflexivity.
  - reflexivity.
  - reflexivity.
  - reflexivity.
  - repeat split; [discriminate].
  - intros Hin. apply list_elem_of_singleton in Hin. discriminate.
  - reflexivity.
  - discriminate.
  - reflexivity.
Defined.

Example OpenSubtitlesProvider_download_saves_error_page :
  let run := OpenSubtitlesProvider_download keyed_provider broken_link_world
               (subliminal_provider_result 1 numeric_sub) ["subs"]
               two_folders in
  run.2 = Ok (Some ["subs"; "subtitle.srt"])
  ∧ st_fs run.1 !! ["subs"; "subtitle.srt"] = Some (File error_page).
Proof. vm_compute. split; reflexivity. Qed.

(** A file name with a slash in front leaves the destination, and one
    with a step up climbs out of it; without the destination folder
    nothing is written. *)
Example OpenSubtitlesProvider_download_elsewhere :
  let named (name : string) : World :=
    mock_world "key" true
      (fun _ _ _ => bytes_response [x31; x0a])
      (fun _ _ _ =>
         json_response (VDict [("link", VStr "https://dl.example/42");
                               ("file_name", VStr name)]))
      title_only (Ok []) (mock_zip []) in
  let fs : filesystem :=
    {[ ["/"] := Dir; ["/"; "tmp"] := Dir; ["subs"] := Dir; [] := Dir ]} in
  let run (name : string) (fs : filesystem) :=
    OpenSubtitlesProvider_download keyed_provider (named name)
      (subliminal_provider_result 1 numeric_sub) ["subs"]
      {| st_fs := fs; st_trace := [] |} in
  (run "/tmp/evil.srt" fs).2 = Ok (Some ["/"; "tmp"; "evil.srt"])
  ∧ written (st_trace (run "/tmp/evil.srt" fs).1)
    = [(["/"; "tmp"; "evil.srt"], [x31; x0a])]
  ∧ (run "../evil.srt" fs).2 = Ok (Some ["subs"; ".."; "evil.srt"])
  ∧ written (st_trace (run "../evil.srt" fs).1)
    = [(["evil.srt"], [x31; x0a])]
  ∧ (run "a.srt" ∅).2 = Ok None
  ∧ written (st_trace (run "a.srt" ∅).1) = []
  ∧ (run "" fs).2 = Ok None.
Proof. vm_compute. repeat split; reflexivity. Qed.

(** The orchestrator, for the same service, checks the status and tells
    the user that the download failed. *)
Example _do_download_rejects_error_page :
  let run := _do_download broken_link_world ["videos"; "a.mkv"]
               (api_item "Show.S01E02.WEB" 7) empty_state in
  written (st_trace run.1) = []
  ∧ last (statuses (st_trace run.1)) = Some StDownloadFailed.
Proof. vm_compute. split; reflexivity. Qed.

(** An episode of season 0: the tag is in the text, the season is not
    among the parameters. *)
Example season_zero_is_not_sent :
  let info := {| info_title := Some "Show"; info_year := None;
                 info_season := Some 0; info_episode := Some 3 |} in
  build_search_query info = "Show S00E03"
  ∧ api_search_params (Some (build_search_query info)) None "es" None
      (info_season info) (info_episode info)
    = [("languages", VStr "es"); ("query", VStr "Show S00E03");
       ("episode_number", VInt 3)].
Proof. split; reflexivity. Qed.

(** Unpacking: a subtitle passes through, an archive gives its first
    subtitle member, whatever the letter case of the suffixes. *)
Example extract_subtitle_downloads_folder :
  let u := mock_unpacking
             [(txt_archive, [("notes.txt", [x6e]); ("ep.SUB", [x7b]);
                             ("ep.srt", [x31])])] false in
  extract_subtitle u ["downloads"; "plain.SRT"] ["videos"] downloads_folder
  = (downloads_folder, Some ["downloads"; "plain.SRT"])
  ∧ extract_subtitle u ["downloads"; "pack.ZIP"] ["videos"] downloads_folder
    = (<[["videos"; "ep.SUB"] := File [x7b]]> downloads_folder,
       Some ["videos"; "ep.SUB"])
  ∧ extract_subtitle u ["downloads"; "pack.rar"] ["videos"] downloads_folder
    = (downloads_folder, None).
Proof. repeat split; vm_compute; reflexivity. Qed.

(** The provider class keeps fifteen of the sixteen items the API client
    hands over whole, and labels them Latin American Spanish although
    Spanish of Spain was asked for. *)
Example OpenSubtitlesProvider_search_big_page :
  let results := (OpenSubtitlesProvider_search keyed_provider big_page_world
                    "Show" (Some SPANISH_SPAIN)).2 in
  length results = 15%nat
  ∧ map language results = replicate 15 SPANISH_LATAM
  ∧ map download_url results
    = map (fun n => VStr (pretty n)) (seqZ 1 15).
Proof. vm_compute. repeat split; reflexivity. Qed.

(** One subtitle found by the text query: the closing line says so. *)
Example _do_search_found_line :
  let run := _do_search serving_world ["videos"; "a.mkv"] empty_state in
  run.2 = Ok one_hit
  ∧ List.filter closing_line (statuses (st_trace run.1))
    = [StFound 1 (VStr "OpenSubtitles")]
  ∧ List.filter closing_line
      (statuses (st_trace (_do_search serving_world ["videos"; "b.mkv"]
                             empty_state).1))
    = [].
Proof. vm_compute. repeat split; reflexivity. Qed.
